(** * MeshCore: the chat/repeater application layer

    A shallow embedding of
      - [src/helpers/BaseChatMesh.cpp]      (module [BaseChatMesh]),
      - [examples/simple_repeater/main.cpp] (module [Repeater]),
      - [src/helpers/ESP32Board.h]          (the RTC, module [RTC]),
    with explicit state passing.  A handler takes the object's state and
    returns the new state together with the list of outward effects it
    performed (packets handed to the router, application upcalls), in
    program order.

    Conventions.
      - [uint32_t] is a [Z] kept in [0, 2^32) by [wrap32]; [int] indexes and
        counts are [Z]; [uint8_t] buffers are [list byte].
      - [memcpy(&v, buf, 4)] and [memcpy(buf, &v, 4)] on the (little-endian)
        targets are [le32_decode] and [le32_encode].
      - A buffer is the list of the bytes of its backing array; a read past
        the end of the list yields [x00] and a write past it does nothing
        (the C code has no defined behaviour there).
      - Where the code copies into one of its own arrays a number of bytes
        that the input decides ([out_path], a channel's [secret], the reply
        buffer [temp]), the call has the result type [Run]: it ends in
        [Overrun] when the bytes do not fit the array.
      - Everything that lives in files outside the three sources (the Mesh
        base class, Identity, Utils::sha256, the advert parser, the packet
        pool, ...) is a field of the class [MeshEnv]. *)

From Stdlib Require Import ZArith List Lia.
From Stdlib Require Import Strings.String Strings.Byte.
From stdpp Require Import base decidable option list.

Local Open Scope Z_scope.

(** ** Bytes, machine integers, C strings *)

Abbreviation bytes := (list byte) (only parsing).

#[global] Instance byte_eq_decision : EqDecision byte := Byte.byte_eq_dec.

Definition byte_to_Z (b : byte) : Z := Z.of_N (Byte.to_N b).

Definition byte_of_Z (z : Z) : byte :=
  default x00 (Byte.of_N (Z.to_N (z mod 256))).

Definition wrap32 (z : Z) : Z := z mod 2 ^ 32.

(** [buf[i]] *)
Definition byte_at (buf : bytes) (i : nat) : byte := nth i buf x00.

(** [memcpy(&v, buf, 4)] with [uint32_t v]. *)
Definition le32_decode (buf : bytes) : Z :=
  byte_to_Z (byte_at buf 0)
  + 2 ^ 8 * byte_to_Z (byte_at buf 1)
  + 2 ^ 16 * byte_to_Z (byte_at buf 2)
  + 2 ^ 24 * byte_to_Z (byte_at buf 3).

(** [memcpy(buf, &v, 4)] with [uint32_t v]. *)
Definition le32_encode (v : Z) : bytes :=
  [ byte_of_Z v; byte_of_Z (v / 2 ^ 8);
    byte_of_Z (v / 2 ^ 16); byte_of_Z (v / 2 ^ 24) ].

(** The characters of the C string that starts at the head of [buf]. *)
Fixpoint cstr (buf : bytes) : bytes :=
  match buf with
  | [] => []
  | b :: rest => if decide (b = x00) then [] else b :: cstr rest
  end.

Definition strlen (buf : bytes) : Z := Z.of_nat (length (cstr buf)).

(** A string literal as bytes (without the terminator). *)
Definition lit (s : string) : bytes := list_byte_of_string s.

(** [memcmp(buf, l, n) == 0] for a literal [l] of at least [n] bytes. *)
Definition memcmp_eq (buf l : bytes) (n : nat) : bool :=
  bool_decide (take n buf = take n l).

(** Skipping the leading spaces of a command line. *)
Fixpoint skip_spaces (buf : bytes) : bytes :=
  match buf with
  | b :: rest => if decide (b = x20) then skip_spaces rest else buf
  | [] => []
  end.

(** [buf[i] = b] *)
Definition poke (buf : bytes) (i : Z) (b : byte) : bytes :=
  if 0 <=? i then <[Z.to_nat i := b]> buf else buf.


(** [memcpy(&buf[off], src, length src)] *)
Definition blit (buf : bytes) (off : nat) (src : bytes) : bytes :=
  take off buf ++ src ++ drop (off + length src) buf.

(** [tbl[i]] for an [int] array; an index outside the array reads 0. *)
Definition int_at (tbl : list Z) (i : Z) : Z :=
  if i <? 0 then 0 else default 0 (tbl !! Z.to_nat i).

(** The first index [j >= i] of [l] (counted from [i]) at which [p] holds:
    the loop [for (...; i < n; i++) if (p(tbl[i])) ...] over the live
    entries. *)
Fixpoint find_index {A} (p : A -> bool) (l : list A) (i : Z) : option Z :=
  match l with
  | [] => None
  | x :: rest => if p x then Some i else find_index p rest (i + 1)
  end.

(** The entries [tbl[0 .. n-1]] of a table with [n] entries in use. *)
Definition live {A} (n : Z) (tbl : list A) : list A := take (Z.to_nat n) tbl.

(** The outcome of a call that may write past the end of an array.  C
    leaves the behaviour of the program undefined from such a write on, so
    the model says nothing about what follows: the call ends in [Overrun]. *)
Inductive Run (A : Type) :=
  | Done (a : A)
  | Overrun.

Arguments Done {A} a.
Arguments Overrun {A}.

(** How a guarded insertion moves a table count: it stays, or it goes up
    by one from below the capacity. *)
Definition stays_or_grows (cap n n' : Z) : Prop :=
  n' = n \/ (n < cap /\ n' = n + 1).

(** ** The mesh layer as the application sees it *)

Inductive PayloadType :=
  | PAYLOAD_TYPE_REQ
  | PAYLOAD_TYPE_RESPONSE
  | PAYLOAD_TYPE_TXT_MSG
  | PAYLOAD_TYPE_ACK
  | PAYLOAD_TYPE_ADVERT
  | PAYLOAD_TYPE_GRP_TXT
  | PAYLOAD_TYPE_ANON_REQ
  | PAYLOAD_TYPE_PATH.

#[global] Instance PayloadType_eq_dec : EqDecision PayloadType.
Proof. solve_decision. Defined.

Record Identity := { pub_key : bytes }.

Record LocalIdentity := { identity :> Identity; prv_key : bytes }.

(** Modelled from the spec: [Identity::matches] (Identity.h is not among the
    sources).  "Equality by public key." *)
Definition matches (a b : Identity) : bool :=
  bool_decide (pub_key a = pub_key b).

(** Modelled from the spec: [Identity::isHashMatch] (Identity.h is not among
    the sources).  "A short hash ID is the first byte of the public key." *)
Definition isHashMatch (a : Identity) (hash : bytes) : bool :=
  bool_decide (byte_at (pub_key a) 0 = byte_at hash 0).

(** The fields of [mesh::Packet] the application reads. *)
Record Packet := {
  payload_type : PayloadType;
  route_flood : bool;           (* isRouteFlood() *)
  path : bytes;
  path_len : Z;
  payload : bytes;
  payload_len : Z;
}.

(** What a handler hands to the router. *)
Inductive Tx :=
  | SendFlood (pkt : Packet) (delay_millis : Z)
  | SendDirect (pkt : Packet) (path : bytes) (path_len : Z) (delay_millis : Z).

(** The collaborators that are not part of the three source files.  Packet
    constructors return [None] for the C++ [NULL] (pool exhausted, payload
    too long). *)
Class MeshEnv := {
  PUB_KEY_SIZE : Z;
  MAX_CONTACTS : Z;
  MAX_GROUP_CHANNELS : Z;
  MAX_SEARCH_RESULTS : Z;
  MAX_TEXT_LEN : Z;
  MAX_PATH_SIZE : Z;                   (* the size of every out_path array *)
  NAME_SIZE : Z;                       (* sizeof(ContactInfo::name) *)
  (* Identity, Utils *)
  calcSharedSecret : LocalIdentity -> Identity -> bytes;
  sha256_digest : bytes -> bytes;
  decode_base64 : bytes -> bytes;
  (* Mesh *)
  createDatagram : PayloadType -> Identity -> bytes -> bytes -> option Packet;
  createPathReturn :
    Identity -> bytes -> bytes -> Z -> PayloadType -> bytes -> option Packet;
  createAck : Z -> option Packet;
  createAdvert : LocalIdentity -> bytes -> option Packet;
  getEstAirtimeFor : Z -> Z;
  calcFloodTimeoutMillisFor : Z -> Z;
  calcDirectTimeoutMillisFor : Z -> Z -> Z;
  futureMillis : Z -> Z -> Z;          (* millisecond clock, delay *)
  millisHasNowPassed : Z -> Z -> bool; (* millisecond clock, deadline *)
  (* AdvertDataHelpers *)
  advert_isValid : bytes -> bool;
  advert_hasName : bytes -> bool;
  advert_getName : bytes -> bytes;
  advert_getType : bytes -> Z;
  ADV_TYPE_CHAT : Z;
  advert_encode : Z -> bytes -> bytes;  (* AdvertDataBuilder(type, name) *)
  (* libc *)
  qsort : (Z -> Z -> Z) -> list Z -> list Z;
  (* the application of a BaseChatMesh *)
  processAck : bytes -> bool;
  (* simple_repeater: libc, RTClib, board and radio counters *)
  float : Type;
  float_one : float;
  atof : bytes -> float;
  format_clock : Z -> bytes;
  repeater_stats : bytes;
  repeater_advert_data : bytes;
}.

(** Modelled from the spec: [mesh::Utils::sha256] with two fragments (Utils.cpp
    is not among the sources).  "Truncated SHA-256 over
    timestamp || flags || text || sender_pub": the digest of the first fragment
    followed by the second, cut to [hash_len] bytes. *)
Definition Utils_sha256 `{MeshEnv} (hash_len : Z)
    (frag1 : bytes) (frag1_len : Z) (frag2 : bytes) (frag2_len : Z) : bytes :=
  take (Z.to_nat hash_len)
    (sha256_digest (take (Z.to_nat frag1_len) frag1
                    ++ take (Z.to_nat frag2_len) frag2)).

(** Modelled from the spec: [mesh::Utils::sha256] with one fragment. *)
Definition Utils_sha256_1 `{MeshEnv} (hash_len : Z)
    (msg : bytes) (msg_len : Z) : bytes :=
  take (Z.to_nat hash_len) (sha256_digest (take (Z.to_nat msg_len) msg)).

(** The ACK hash a receiver computes from the decrypted, re-terminated
    payload and the sender's public key; the same statement in both
    [onPeerDataRecv]:
    [sha256((uint8_t* ) &ack_hash, 4, data, 5 + strlen((char* )&data[5]),
            pub_key, PUB_KEY_SIZE)]. *)
Definition calc_ack_hash `{MeshEnv} (data : bytes) (sender_pub : bytes) : Z :=
  le32_decode (Utils_sha256 4 data (5 + strlen (drop 5 data))
                 sender_pub PUB_KEY_SIZE).

(** ** ESP32Board.h: the real-time clock *)

Module RTC.

(** The system time that [time()] reads and [settimeofday()] writes. *)
Record ESP32RTCClock := { tv_sec : Z }.

Definition getCurrentTime (c : ESP32RTCClock) : Z := wrap32 (tv_sec c).

Definition setCurrentTime (c : ESP32RTCClock) (time : Z) : ESP32RTCClock :=
  {| tv_sec := time |}.

(** [begin()]: after a power-on reset the clock starts at 15 May 2024,
    8:50pm; after any other reset it keeps its time.  [power_on] is
    [esp_reset_reason() == ESP_RST_POWERON]. *)
Definition begin (c : ESP32RTCClock) (power_on : bool) : ESP32RTCClock :=
  if power_on then {| tv_sec := 1715770351 |} else c.

End RTC.

(** ** examples/simple_repeater/main.cpp *)

Module Repeater.

Definition ADMIN_PASSWORD : bytes := lit "h^(kl@#)".
Definition FIRMWARE_VER_TEXT : bytes := lit "v1 (build: 24 Jan 2025)".
Definition MAX_CLIENTS : Z := 4.
Definition CLI_REPLY_DELAY_MILLIS : Z := 1500.
Definition CMD_GET_STATS : byte := x01.
Definition sizeof_RepeaterStats : Z := 44.

Record ClientInfo := {
  id : Identity;
  last_timestamp : Z;
  secret : bytes;
  out_path_len : Z;
  out_path : bytes;
}.

Definition set_last_timestamp (c : ClientInfo) (t : Z) : ClientInfo :=
  {| id := id c; last_timestamp := t; secret := secret c;
     out_path_len := out_path_len c; out_path := out_path c |}.

Definition with_out_path (c : ClientInfo) (n : Z) (p : bytes) : ClientInfo :=
  {| id := id c; last_timestamp := last_timestamp c; secret := secret c;
     out_path_len := n; out_path := p |}.

(** [sizeof(temp)] in [onPeerDataRecv]; the CLI reply is written from
    [temp + 5] on. *)
Definition sizeof_temp : Z := 166.

(** What the repeater does to the outside. *)
Inductive Effect :=
  | Send (tx : Tx)
  | Reboot.                     (* board.reboot(), which does not return *)

Section WithEnv.
Context `{MeshEnv}.

Record MyMesh := {
  self_id : LocalIdentity;
  rtc_clock : RTC.ESP32RTCClock;       (* rtc_clock of the ESP32 build *)
  airtime_factor : float;
  reply_data : bytes;
  num_clients : Z;
  known_clients : list ClientInfo;     (* ClientInfo known_clients[MAX_CLIENTS] *)
  matching_peer_indexes : list Z;
}.

Definition with_rtc (m : MyMesh) (c : RTC.ESP32RTCClock) : MyMesh :=
  {| self_id := self_id m; rtc_clock := c; airtime_factor := airtime_factor m;
     reply_data := reply_data m; num_clients := num_clients m;
     known_clients := known_clients m;
     matching_peer_indexes := matching_peer_indexes m |}.

Definition with_airtime_factor (m : MyMesh) (f : float) : MyMesh :=
  {| self_id := self_id m; rtc_clock := rtc_clock m; airtime_factor := f;
     reply_data := reply_data m; num_clients := num_clients m;
     known_clients := known_clients m;
     matching_peer_indexes := matching_peer_indexes m |}.

Definition with_reply_data (m : MyMesh) (r : bytes) : MyMesh :=
  {| self_id := self_id m; rtc_clock := rtc_clock m;
     airtime_factor := airtime_factor m;
     reply_data := r; num_clients := num_clients m;
     known_clients := known_clients m;
     matching_peer_indexes := matching_peer_indexes m |}.

Definition with_clients (m : MyMesh) (n : Z) (t : list ClientInfo) : MyMesh :=
  {| self_id := self_id m; rtc_clock := rtc_clock m;
     airtime_factor := airtime_factor m;
     reply_data := reply_data m; num_clients := n; known_clients := t;
     matching_peer_indexes := matching_peer_indexes m |}.

Definition with_matching (m : MyMesh) (l : list Z) : MyMesh :=
  {| self_id := self_id m; rtc_clock := rtc_clock m;
     airtime_factor := airtime_factor m;
     reply_data := reply_data m; num_clients := num_clients m;
     known_clients := known_clients m; matching_peer_indexes := l |}.

(** The contents of an array slot before anything was stored in it. *)
Definition blank_client : ClientInfo :=
  {| id := {| pub_key := [] |}; last_timestamp := 0; secret := [];
     out_path_len := 0; out_path := [] |}.

(** [known_clients[i]] *)
Definition client_at (m : MyMesh) (i : Z) : ClientInfo :=
  default blank_client (known_clients m !! Z.to_nat i).

(** [known_clients[i] = c] *)
Definition store_client (m : MyMesh) (i : Z) (c : ClientInfo) : MyMesh :=
  with_clients m (num_clients m) (<[Z.to_nat i := c]> (known_clients m)).

(** The constructor: [num_clients = 0], nothing stored yet. *)
Definition init (self : LocalIdentity) (clock : RTC.ESP32RTCClock) : MyMesh :=
  {| self_id := self; rtc_clock := clock; airtime_factor := float_one;
     reply_data := []; num_clients := 0;
     known_clients := replicate (Z.to_nat MAX_CLIENTS) blank_client;
     matching_peer_indexes := replicate (Z.to_nat MAX_CLIENTS) 0 |}.

(** [memcpy(client->out_path, path, client->out_path_len = path_len)].
    [path_len] is a [uint8_t] and nothing compares it with the size of
    [out_path], the last field of [ClientInfo]: a longer path is written
    over what follows the array.  [p] is the buffer [path] points to, read
    up to [path_len] bytes. *)
Definition set_out_path (c : ClientInfo) (p : bytes) (n : Z) : Run ClientInfo :=
  if (0 <=? n) && (n <=? MAX_PATH_SIZE) && (n <=? Z.of_nat (length p)) then
    Done (with_out_path c n (blit (out_path c) 0 (take (Z.to_nat n) p)))
  else Overrun.

(** Returns the state and the index of the client's slot ([None] for the
    [NULL] of a full table). *)
Definition putClient (m : MyMesh) (sender : Identity) : MyMesh * option Z :=
  match find_index (fun c => matches sender (id c))
                   (live (num_clients m) (known_clients m)) 0 with
  | Some i => (m, Some i)                         (* already known *)
  | None =>
      if num_clients m <? MAX_CLIENTS then
        let i := num_clients m in
        let newClient :=
          {| id := sender;
             out_path_len := -1;                  (* out_path is unknown *)
             last_timestamp := 0;
             secret := calcSharedSecret (self_id m) sender;
             out_path := out_path (client_at m i) |} in
        (with_clients m (i + 1) (<[Z.to_nat i := newClient]> (known_clients m)),
         Some i)
      else (m, None)                              (* table is full *)
  end.

(** Returns the state (with [reply_data] filled) and [reply_len].  The
    [max_age_secs] parameter the code reads is never used. *)
Definition handleRequest (m : MyMesh) (payload : bytes) (payload_len : Z)
    : MyMesh * Z :=
  let now := RTC.getCurrentTime (rtc_clock m) in
  let m1 := with_reply_data m (blit (reply_data m) 0 (le32_encode now)) in
  if decide (byte_at payload 0 = CMD_GET_STATS) then
    (with_reply_data m1
       (blit (reply_data m1) 4
          (take (Z.to_nat sizeof_RepeaterStats) repeater_stats)),
     4 + sizeof_RepeaterStats)
  else (m1, 0).                                    (* unknown command *)

(** [if (pkt) { if (out_path_len < 0) sendFlood(pkt, d); else
    sendDirect(pkt, out_path, out_path_len, d); }] *)
Definition send_to (c : ClientInfo) (pkt : option Packet) (delay : Z)
    : list Effect :=
  match pkt with
  | None => []
  | Some p =>
      if out_path_len c <? 0 then [Send (SendFlood p delay)]
      else [Send (SendDirect p (out_path c) (out_path_len c) delay)]
  end.

(** [if (path) sendFlood(path);] *)
Definition flood_if (pkt : option Packet) : list Effect :=
  match pkt with
  | None => []
  | Some p => [Send (SendFlood p 0)]
  end.

(** The reply to [packet], by path-return when it came in as a flood.
    [key] is the shared secret to encrypt with. *)
Definition send_response (c : ClientInfo) (packet : Packet)
    (dest : Identity) (key : bytes) (reply : bytes) : list Effect :=
  if route_flood packet then
    flood_if (createPathReturn dest key (path packet) (path_len packet)
                PAYLOAD_TYPE_RESPONSE reply)
  else
    send_to c (createDatagram PAYLOAD_TYPE_RESPONSE dest key reply) 0.

(** The write [data[4+8] = 0] of the wrong-password branch only touches the
    caller's receive buffer. *)
Definition onAnonDataRecv (m : MyMesh) (packet : Packet) (type : PayloadType)
    (sender : Identity) (data : bytes) (len : Z) : MyMesh * list Effect :=
  if decide (type = PAYLOAD_TYPE_ANON_REQ) then
    let timestamp := le32_decode data in
    if memcmp_eq (drop 4 data) ADMIN_PASSWORD
         (Z.to_nat (strlen ADMIN_PASSWORD)) then
      match putClient m sender with
      | (m1, None) => (m1, [])
      | (m1, Some i) =>
          let client := client_at m1 i in
          if timestamp <=? last_timestamp client then (m1, [])
          else
            let client := set_last_timestamp client timestamp in
            let m2 := store_client m1 i client in
            let now := RTC.getCurrentTime (rtc_clock m2) in
            let m3 :=
              with_reply_data m2
                (blit (blit (reply_data m2) 0 (le32_encode now)) 4 (lit "OK")) in
            (m3, send_response client packet sender (secret client)
                   (take 6 (reply_data m3)))
      end
    else (m, [])
  else (m, []).

(** The loop never leaves the table: [n] is bounded by [num_clients]. *)
Fixpoint search_from (hash : bytes) (l : list ClientInfo) (i : Z) : list Z :=
  match l with
  | [] => []
  | c :: rest =>
      if isHashMatch (id c) hash then i :: search_from hash rest (i + 1)
      else search_from hash rest (i + 1)
  end.

Definition searchPeersByHash (m : MyMesh) (hash : bytes) : MyMesh * Z :=
  let found := search_from hash (live (num_clients m) (known_clients m)) 0 in
  (with_matching m (found ++ drop (length found) (matching_peer_indexes m)),
   Z.of_nat (length found)).

Definition getPeerSharedSecret (m : MyMesh) (dest_secret : bytes)
    (peer_idx : Z) : bytes :=
  let i := int_at (matching_peer_indexes m) peer_idx in
  if (0 <=? i) && (i <? num_clients m) then
    blit dest_secret 0 (take (Z.to_nat PUB_KEY_SIZE) (secret (client_at m i)))
  else dest_secret.

Definition sendSelfAdvertisement (m : MyMesh) : list Effect :=
  match createAdvert (self_id m) repeater_advert_data with
  | Some pkt => [Send (SendFlood pkt 800)]
  | None => []
  end.

(** Returns the state, the effects and the C string left in [reply]; [None]
    when control does not come back (reboot). *)
Definition handleCommand (m : MyMesh) (sender_timestamp : Z) (command : bytes)
    : MyMesh * list Effect * option bytes :=
  let command := skip_spaces command in
  if memcmp_eq command (lit "reboot") 6 then (m, [Reboot], None)
  else if memcmp_eq command (lit "advert") 6 then
    (m, sendSelfAdvertisement m, Some (lit "OK - Advert sent"))
  else if memcmp_eq command (lit "clock sync") 10 then
    let curr := RTC.getCurrentTime (rtc_clock m) in
    if sender_timestamp >? curr then
      (with_rtc m (RTC.setCurrentTime (rtc_clock m) (wrap32 (sender_timestamp + 1))),
       [], Some (lit "OK - clock set"))
    else (m, [], Some (lit "ERR: clock cannot go backwards"))
  else if memcmp_eq command (lit "clock") 5 then
    (m, [], Some (cstr (format_clock (RTC.getCurrentTime (rtc_clock m)))))
  else if memcmp_eq command (lit "set ") 4 then
    if memcmp_eq (drop 4 command) (lit "AF") 2
       || memcmp_eq (drop 4 command) (lit "af=") 2 then
      (with_airtime_factor m (atof (drop 7 command)), [], Some (lit "OK"))
    else (m, [], Some (lit "unknown config: " ++ cstr (drop 4 command)))
  else if memcmp_eq command (lit "ver") 3 then
    (m, [], Some FIRMWARE_VER_TEXT)
  else
    (m, [],
     Some (lit "Unknown: " ++ cstr command
           ++ lit " (commands: reboot, advert, clock, set, ver)")).

(** The timestamp of a CLI reply: the clock, moved by one when it collides
    with the sender's. *)
Definition reply_timestamp (now sender_timestamp : Z) : Z :=
  if now =? sender_timestamp then wrap32 (now + 1) else now.

(** [key] is the parameter [secret] of the source.  [len - 4] is computed in
    [size_t], 32 bits wide on the supported boards.  [handleCommand] writes
    its reply and the terminator to [temp + 5], where [sizeof_temp - 5]
    bytes are left: a longer reply leaves the array. *)
Definition onPeerDataRecv (m : MyMesh) (packet : Packet) (type : PayloadType)
    (sender_idx : Z) (key : bytes) (data : bytes) (len : Z)
    : Run (MyMesh * list Effect) :=
  let i := int_at (matching_peer_indexes m) sender_idx in
  if (i <? 0) || (i >=? num_clients m) then Done (m, [])
  else
    let client := client_at m i in
    if decide (type = PAYLOAD_TYPE_REQ) then
      let timestamp := le32_decode data in
      if timestamp >? last_timestamp client then       (* replay guard *)
        let '(m1, reply_len) :=
          handleRequest m (drop 4 data) (wrap32 (len - 4)) in
        if reply_len =? 0 then Done (m1, [])            (* invalid command *)
        else
          let client := set_last_timestamp client timestamp in
          let m2 := store_client m1 i client in
          Done (m2, send_response client packet (id client) key
                      (take (Z.to_nat reply_len) (reply_data m2)))
      else Done (m, [])
    else if bool_decide (type = PAYLOAD_TYPE_TXT_MSG) && (len >? 5) then
      let sender_timestamp := le32_decode data in
      let flags := byte_to_Z (byte_at data 4) in
      if negb (flags =? 0) then Done (m, [])
      else if sender_timestamp >? last_timestamp client then   (* replay guard *)
        let client := set_last_timestamp client sender_timestamp in
        let m1 := store_client m i client in
        let data := poke data len x00 in
        let ack_hash := calc_ack_hash data (pub_key (id client)) in
        let fx_ack := send_to client (createAck ack_hash) 0 in
        match handleCommand m1 sender_timestamp (drop 5 data) with
        | (m2, fx_cmd, None) => Done (m2, fx_ack ++ fx_cmd)
        | (m2, fx_cmd, Some reply) =>
            if Z.of_nat (length reply) + 1 >? sizeof_temp - 5 then Overrun
            else
              let text_len := strlen reply in
              if text_len >? 0 then
                let timestamp :=
                  reply_timestamp (RTC.getCurrentTime (rtc_clock m2))
                    sender_timestamp in
                let temp := le32_encode timestamp ++ [x00] ++ cstr reply in
                Done (m2, fx_ack ++ fx_cmd
                          ++ send_to client
                               (createDatagram PAYLOAD_TYPE_TXT_MSG (id client)
                                  key temp)
                               CLI_REPLY_DELAY_MILLIS)
              else Done (m2, fx_ack ++ fx_cmd)
        end
      else Done (m, [])
    else Done (m, []).

(** Returns [false]: no reciprocal path is sent. *)
Definition onPeerPathRecv (m : MyMesh) (sender_idx : Z) (new_path : bytes)
    (new_path_len : Z) : Run (MyMesh * bool) :=
  let i := int_at (matching_peer_indexes m) sender_idx in
  if (0 <=? i) && (i <? num_clients m) then
    match set_out_path (client_at m i) new_path new_path_len with
    | Done client => Done (store_client m i client, false)
    | Overrun => Overrun
    end
  else Done (m, false).

Definition getAirtimeBudgetFactor (m : MyMesh) : float := airtime_factor m.

Definition allowPacketForward (m : MyMesh) (packet : Packet) : bool := true.

(** [loop()], the serial console: everything before [the_mesh.loop()].
    [command] is the static buffer [char command[80]], [pending] the
    characters the serial port has available. *)
Definition sizeof_command : Z := 80.

(** The [while (Serial.available() && len < sizeof(command)-1)] loop.
    Returns the buffer, [len], the characters left unread and the
    characters echoed. *)
Fixpoint read_serial (command : bytes) (len : Z) (pending : bytes)
    : bytes * Z * bytes * bytes :=
  match pending with
  | [] => (command, len, [], [])
  | c :: rest =>
      if len <? sizeof_command - 1 then
        let '(command1, len1) :=
          if decide (c = x0a) then (command, len)
          else (poke (poke command len c) (len + 1) x00, len + 1) in
        let '(command2, len2, unread, echoed) :=
          read_serial command1 len1 rest in
        (command2, len2, unread, c :: echoed)
      else (command, len, pending, [])
  end.

(** The characters of the input that are stored: everything but line feeds. *)
Definition stored_chars (pending : bytes) : bytes :=
  filter (fun c => c <> x0a) pending.

(** What one pass of the console leaves behind: the mesh state, the command
    buffer, the unread input, what was printed, and the effects of the
    command that was run.  [None] when the command was a reboot. *)
Definition serial_console (m : MyMesh) (command pending : bytes)
    : option (MyMesh * bytes * bytes * bytes * list Effect) :=
  let len := strlen command in
  let '(command, len, unread, echoed) := read_serial command len pending in
  let command :=
    if len =? sizeof_command - 1 then           (* command buffer full *)
      poke command (sizeof_command - 1) x0d
    else command in
  if (len >? 0) && bool_decide (byte_at command (Z.to_nat (len - 1)) = x0d)
  then                                          (* received complete line *)
    let command := poke command (len - 1) x00 in
    match handleCommand m 0 command with
    | (_, _, None) => None
    | (m1, fx, Some reply) =>
        let printed :=
          if decide (byte_at reply 0 = x00) then []
          else lit "  -> " ++ cstr reply ++ [x0d; x0a] in
        Some (m1, poke command 0 x00, unread, echoed ++ printed, fx)
    end
  else Some (m, command, unread, echoed, []).

(** The table is the array of [MAX_CLIENTS] slots. *)
Definition wf (m : MyMesh) : Prop :=
  length (known_clients m) = Z.to_nat MAX_CLIENTS
  /\ 0 <= num_clients m <= MAX_CLIENTS.

(** The calls that reach a repeater: the upcalls of the mesh layer and
    the serial command line. *)
Inductive Op :=
  | OpSearchPeers (h : bytes)
  | OpAnonData (packet : Packet) (type : PayloadType) (sender : Identity)
               (data : bytes) (len : Z)
  | OpPeerData (packet : Packet) (type : PayloadType) (sender_idx : Z)
               (key : bytes) (data : bytes) (len : Z)
  | OpPeerPath (sender_idx : Z) (new_path : bytes) (new_path_len : Z)
  | OpCommand (sender_timestamp : Z) (command : bytes)
  | OpSendSelfAdvertisement.

Definition step (m : MyMesh) (op : Op) : Run (MyMesh * list Effect) :=
  match op with
  | OpSearchPeers h => Done (fst (searchPeersByHash m h), [])
  | OpAnonData p t s d n => Done (onAnonDataRecv m p t s d n)
  | OpPeerData p t i k d n => onPeerDataRecv m p t i k d n
  | OpPeerPath i np nl =>
      match onPeerPathRecv m i np nl with
      | Done (m1, _) => Done (m1, [])
      | Overrun => Overrun
      end
  | OpCommand t c => Done (fst (handleCommand m t c))
  | OpSendSelfAdvertisement => Done (m, sendSelfAdvertisement m)
  end.

(** The states of the runs in which no call has left an array. *)
Inductive reachable : MyMesh -> Prop :=
  | reach_init self clock : reachable (init self clock)
  | reach_step m op m' fx :
      reachable m -> step m op = Done (m', fx) -> reachable m'.

End WithEnv.
End Repeater.

(** ** src/helpers/BaseChatMesh.cpp *)

Module BaseChatMesh.

(** Modelled from the spec: the size of [GroupChannel::hash] (declared in a
    header that is not among the sources).  "A 1-byte channel hash." *)
Definition PATH_HASH_SIZE : Z := 1.

(** Modelled from the spec: [sizeof(GroupChannel::secret)].  "16- or 32-byte
    symmetric key." *)
Definition sizeof_secret : nat := 32.

Record ContactInfo := {
  id : Identity;
  name : bytes;                        (* char name[NAME_SIZE] *)
  type : Z;
  out_path_len : Z;
  out_path : bytes;
  last_advert_timestamp : Z;
  shared_secret : bytes;
}.

Record GroupChannel := { hash : bytes; secret : bytes }.

Inductive MsgSendResult :=
  | MSG_SEND_FAILED
  | MSG_SEND_SENT_FLOOD
  | MSG_SEND_SENT_DIRECT.

(** Packets handed to the router and calls of the application's hooks. *)
Inductive Effect :=
  | Send (tx : Tx)
  | OnDiscoveredContact (c : ContactInfo) (is_new : bool)
  | OnContactPathUpdated (c : ContactInfo)
  | OnMessageRecv (from : ContactInfo) (was_flood : bool) (timestamp : Z)
                  (text : bytes)
  | OnChannelMessageRecv (channel : GroupChannel) (in_path_len : Z)
                         (timestamp : Z) (text : bytes)
  | OnSendTimeout
  | OnContactVisit (c : ContactInfo)
  | MarkDoNotRetransmit (pkt : Packet).

Record State := {
  self_id : LocalIdentity;
  rtc_clock : RTC.ESP32RTCClock;       (* getRTCClock() *)
  num_contacts : Z;
  contacts : list ContactInfo;         (* ContactInfo contacts[MAX_CONTACTS] *)
  num_channels : Z;
  channels : list GroupChannel;        (* GroupChannel channels[MAX_GROUP_CHANNELS] *)
  matching_peer_indexes : list Z;
  sort_array : list Z;
  txt_send_timeout : Z;
}.

Definition with_contacts (m : State) (n : Z) (t : list ContactInfo) : State :=
  {| self_id := self_id m; rtc_clock := rtc_clock m;
     num_contacts := n; contacts := t;
     num_channels := num_channels m; channels := channels m;
     matching_peer_indexes := matching_peer_indexes m;
     sort_array := sort_array m;
     txt_send_timeout := txt_send_timeout m |}.

Definition with_channels (m : State) (n : Z) (t : list GroupChannel) : State :=
  {| self_id := self_id m; rtc_clock := rtc_clock m;
     num_contacts := num_contacts m; contacts := contacts m;
     num_channels := n; channels := t;
     matching_peer_indexes := matching_peer_indexes m;
     sort_array := sort_array m;
     txt_send_timeout := txt_send_timeout m |}.

Definition with_matching (m : State) (l : list Z) : State :=
  {| self_id := self_id m; rtc_clock := rtc_clock m;
     num_contacts := num_contacts m; contacts := contacts m;
     num_channels := num_channels m; channels := channels m;
     matching_peer_indexes := l;
     sort_array := sort_array m;
     txt_send_timeout := txt_send_timeout m |}.

Definition with_timeout (m : State) (t : Z) : State :=
  {| self_id := self_id m; rtc_clock := rtc_clock m;
     num_contacts := num_contacts m; contacts := contacts m;
     num_channels := num_channels m; channels := channels m;
     matching_peer_indexes := matching_peer_indexes m;
     sort_array := sort_array m;
     txt_send_timeout := t |}.

Definition with_sort_array (m : State) (l : list Z) : State :=
  {| self_id := self_id m; rtc_clock := rtc_clock m;
     num_contacts := num_contacts m; contacts := contacts m;
     num_channels := num_channels m; channels := channels m;
     matching_peer_indexes := matching_peer_indexes m;
     sort_array := l;
     txt_send_timeout := txt_send_timeout m |}.

Definition blank_contact : ContactInfo :=
  {| id := {| pub_key := [] |}; name := []; type := 0; out_path_len := 0;
     out_path := []; last_advert_timestamp := 0; shared_secret := [] |}.

Definition blank_channel : GroupChannel := {| hash := []; secret := [] |}.

(** [contacts[i]] *)
Definition contact_at (m : State) (i : Z) : ContactInfo :=
  default blank_contact (contacts m !! Z.to_nat i).

(** [contacts[i] = c] *)
Definition store_contact (m : State) (i : Z) (c : ContactInfo) : State :=
  with_contacts m (num_contacts m) (<[Z.to_nat i := c]> (contacts m)).

Section WithEnv.
Context `{MeshEnv}.

(** Modelled from the spec: the constructor (BaseChatMesh.h is not among the
    sources).  "Contact: created on first valid reception"; "Inserted on
    first authenticated contact (valid password, valid advert, or explicit
    add)": a new node has no contact and no channel, and no send pending. *)
Definition init (self : LocalIdentity) (clock : RTC.ESP32RTCClock) : State :=
  {| self_id := self; rtc_clock := clock;
     num_contacts := 0;
     contacts := replicate (Z.to_nat MAX_CONTACTS) blank_contact;
     num_channels := 0;
     channels := replicate (Z.to_nat MAX_GROUP_CHANNELS) blank_channel;
     matching_peer_indexes := replicate (Z.to_nat MAX_SEARCH_RESULTS) 0;
     sort_array := replicate (Z.to_nat MAX_CONTACTS) 0;
     txt_send_timeout := 0 |}.

Definition createSelfAdvert (m : State) (node_name : bytes) : option Packet :=
  createAdvert (self_id m) (advert_encode ADV_TYPE_CHAT (cstr node_name)).

(** [strncpy(dst, src, sizeof(dst)-1); dst[sizeof(dst)-1] = 0;] *)
Definition copy_name (src : bytes) : bytes :=
  let n := Z.to_nat (NAME_SIZE - 1) in
  take n (cstr src ++ replicate n x00) ++ [x00].

(** The "update" tail of [onAdvertRecv]. *)
Definition update_contact (from : ContactInfo) (timestamp : Z)
    (app_data : bytes) : ContactInfo :=
  {| id := id from;
     name := copy_name (advert_getName app_data);
     type := advert_getType app_data;
     out_path_len := out_path_len from;
     out_path := out_path from;
     last_advert_timestamp := timestamp;
     shared_secret := shared_secret from |}.

Definition onAdvertRecv (m : State) (packet : Packet) (sender : Identity)
    (timestamp : Z) (app_data : bytes) (app_data_len : Z)
    : State * list Effect :=
  let app_data := take (Z.to_nat app_data_len) app_data in
  if negb (advert_isValid app_data && advert_hasName app_data) then (m, [])
  else
    match find_index (fun c => matches sender (id c))
                     (live (num_contacts m) (contacts m)) 0 with
    | Some i =>                                   (* one of our contacts *)
        let from := contact_at m i in
        if timestamp <=? last_advert_timestamp from then (m, [])   (* replay *)
        else
          let from := update_contact from timestamp app_data in
          (store_contact m i from, [OnDiscoveredContact from false])
    | None =>
        if num_contacts m <? MAX_CONTACTS then
          let i := num_contacts m in
          let slot := contact_at m i in
          let from :=
            {| id := sender; name := name slot; type := type slot;
               out_path_len := -1;               (* out_path is unknown *)
               out_path := out_path slot;
               last_advert_timestamp := last_advert_timestamp slot;
               shared_secret := calcSharedSecret (self_id m) sender |} in
          let from := update_contact from timestamp app_data in
          (with_contacts m (i + 1) (<[Z.to_nat i := from]> (contacts m)),
           [OnDiscoveredContact from true])
        else (m, [])                              (* table is full *)
    end.

Fixpoint search_from (h : bytes) (l : list ContactInfo) (i : Z) : list Z :=
  match l with
  | [] => []
  | c :: rest =>
      if isHashMatch (id c) h then i :: search_from h rest (i + 1)
      else search_from h rest (i + 1)
  end.

Definition searchPeersByHash (m : State) (h : bytes) : State * Z :=
  let found :=
    take (Z.to_nat MAX_SEARCH_RESULTS)
      (search_from h (live (num_contacts m) (contacts m)) 0) in
  (with_matching m (found ++ drop (length found) (matching_peer_indexes m)),
   Z.of_nat (length found)).

Definition getPeerSharedSecret (m : State) (dest_secret : bytes)
    (peer_idx : Z) : bytes :=
  let i := int_at (matching_peer_indexes m) peer_idx in
  if (0 <=? i) && (i <? num_contacts m) then
    blit dest_secret 0
      (take (Z.to_nat PUB_KEY_SIZE) (shared_secret (contact_at m i)))
  else dest_secret.

(** [if (pkt) sendFlood(pkt);] *)
Definition flood_if (pkt : option Packet) : list Effect :=
  match pkt with
  | None => []
  | Some p => [Send (SendFlood p 0)]
  end.

Definition onPeerDataRecv (m : State) (packet : Packet) (ty : PayloadType)
    (sender_idx : Z) (key : bytes) (data : bytes) (len : Z)
    : State * list Effect :=
  if bool_decide (ty = PAYLOAD_TYPE_TXT_MSG) && (len >? 5) then
    let i := int_at (matching_peer_indexes m) sender_idx in
    if (i <? 0) || (i >=? num_contacts m) then (m, [])
    else
      let from := contact_at m i in
      let timestamp := le32_decode data in
      let flags := byte_to_Z (byte_at data 4) in
      let data := poke data len x00 in
      if Z.shiftr flags 2 =? 0 then                (* plain text msg *)
        let ack_hash := calc_ack_hash data (pub_key (id from)) in
        (m,
         OnMessageRecv from (route_flood packet) timestamp (cstr (drop 5 data))
         :: (if route_flood packet then
               flood_if (createPathReturn (id from) key (path packet)
                           (path_len packet) PAYLOAD_TYPE_ACK
                           (le32_encode ack_hash))
             else
               match createAck ack_hash with
               | None => []
               | Some ack =>
                   if out_path_len from <? 0 then [Send (SendFlood ack 0)]
                   else [Send (SendDirect ack (out_path from)
                                 (out_path_len from) 0)]
               end))
      else (m, [])
  else (m, []).

Definition with_out_path (c : ContactInfo) (n : Z) (p : bytes) : ContactInfo :=
  {| id := id c; name := name c; type := type c;
     out_path_len := n;
     out_path := p;
     last_advert_timestamp := last_advert_timestamp c;
     shared_secret := shared_secret c |}.

(** [memcpy(from.out_path, path, from.out_path_len = path_len)].  [path_len]
    is a [uint8_t] and nothing compares it with the size of [out_path]: a
    longer path is written over what follows the array.  [p] is the buffer
    [path] points to, read up to [path_len] bytes. *)
Definition set_out_path (c : ContactInfo) (p : bytes) (n : Z)
    : Run ContactInfo :=
  if (0 <=? n) && (n <=? MAX_PATH_SIZE) && (n <=? Z.of_nat (length p)) then
    Done (with_out_path c n (blit (out_path c) 0 (take (Z.to_nat n) p)))
  else Overrun.

(** Returns also the C++ result: [true] asks for a reciprocal path. *)
Definition onPeerPathRecv (m : State) (packet : Packet) (sender_idx : Z)
    (key : bytes) (new_path : bytes) (new_path_len : Z)
    (extra_type : PayloadType) (extra : bytes) (extra_len : Z)
    : Run (State * list Effect * bool) :=
  let i := int_at (matching_peer_indexes m) sender_idx in
  if (i <? 0) || (i >=? num_contacts m) then Done (m, [], false)
  else
    match set_out_path (contact_at m i) new_path new_path_len with
    | Overrun => Overrun
    | Done from =>
        let m1 := store_contact m i from in
        let m2 :=
          if bool_decide (extra_type = PAYLOAD_TYPE_ACK) && (extra_len >=? 4)
          then
            if processAck extra then with_timeout m1 0  (* cancel timeout timer *)
            else m1
          else m1 in
        Done (m2, [OnContactPathUpdated from], true)
    end.

(** The state [onPeerPathRecv] leaves behind for a known sender and a path
    that fits. *)
Definition path_stored (m : State) (i : Z) (new_path : bytes)
    (new_path_len : Z) (extra_type : PayloadType) (extra : bytes)
    (extra_len : Z) : State :=
  let from :=
    with_out_path (contact_at m i) new_path_len
      (blit (out_path (contact_at m i)) 0
         (take (Z.to_nat new_path_len) new_path)) in
  let m1 := store_contact m i from in
  if bool_decide (extra_type = PAYLOAD_TYPE_ACK) && (extra_len >=? 4) then
    if processAck extra then with_timeout m1 0 else m1
  else m1.

Definition onAckRecv (m : State) (packet : Packet) (ack_crc : Z)
    : State * list Effect :=
  if processAck (le32_encode ack_crc) then
    (with_timeout m 0, [MarkDoNotRetransmit packet])
  else (m, []).

Definition onGroupDataRecv (m : State) (packet : Packet) (ty : PayloadType)
    (channel : GroupChannel) (data : bytes) (len : Z) : State * list Effect :=
  let txt_type := byte_to_Z (byte_at data 4) in
  if bool_decide (ty = PAYLOAD_TYPE_GRP_TXT) && (len >? 5)
     && (Z.shiftr txt_type 2 =? 0) then
    let timestamp := le32_decode data in
    let data := poke data len x00 in
    (m, [OnChannelMessageRecv channel
           (if route_flood packet then path_len packet else -1)
           timestamp (cstr (drop 5 data))])
  else (m, []).

(** Returns the packet and the value left in [expected_ack] (the caller's
    variable, passed by reference). *)
Definition composeMsgPacket (m : State) (recipient : ContactInfo)
    (attempt : Z) (text : bytes) (expected_ack : Z) : option Packet * Z :=
  let text_len := strlen text in
  if text_len >? MAX_TEXT_LEN then (None, expected_ack)
  else
    let timestamp := RTC.getCurrentTime (rtc_clock m) in
    let temp :=
      le32_encode timestamp ++ [byte_of_Z (Z.land attempt 3)]
      ++ cstr text ++ [x00] in
    let expected_ack :=
      le32_decode (Utils_sha256 4 temp (5 + text_len)
                     (pub_key (self_id m)) PUB_KEY_SIZE) in
    (createDatagram PAYLOAD_TYPE_TXT_MSG (id recipient)
       (shared_secret recipient) (take (Z.to_nat (5 + text_len)) temp),
     expected_ack).

(** [millis] is the reading of the millisecond clock during the call. *)
Definition sendMessage (m : State) (millis : Z) (recipient : ContactInfo)
    (attempt : Z) (text : bytes) (expected_ack : Z)
    : State * list Effect * MsgSendResult * Z :=
  match composeMsgPacket m recipient attempt text expected_ack with
  | (None, ack) => (m, [], MSG_SEND_FAILED, ack)
  | (Some pkt, ack) =>
      let t := getEstAirtimeFor (payload_len pkt + path_len pkt + 2) in
      if out_path_len recipient <? 0 then
        (with_timeout m (futureMillis millis (calcFloodTimeoutMillisFor t)),
         [Send (SendFlood pkt 0)], MSG_SEND_SENT_FLOOD, ack)
      else
        (with_timeout m
           (futureMillis millis
              (calcDirectTimeoutMillisFor t (out_path_len recipient))),
         [Send (SendDirect pkt (out_path recipient) (out_path_len recipient) 0)],
         MSG_SEND_SENT_DIRECT, ack)
  end.

Definition resetPathTo (recipient : ContactInfo) : ContactInfo :=
  if out_path_len recipient >=? 0 then
    {| id := id recipient; name := name recipient; type := type recipient;
       out_path_len := -1; out_path := out_path recipient;
       last_advert_timestamp := last_advert_timestamp recipient;
       shared_secret := shared_secret recipient |}
  else recipient.

(** The comparator handed to [qsort]: newest advert first.  [tbl] is the
    file-scope pointer [table]. *)
Definition cmp_adv_timestamp (tbl : list ContactInfo) (a_idx b_idx : Z) : Z :=
  let stamp i :=
    last_advert_timestamp (default blank_contact (tbl !! Z.to_nat i)) in
  if stamp b_idx >? stamp a_idx then 1
  else if stamp b_idx <? stamp a_idx then -1
  else 0.

Definition scanRecentContacts (m : State) (last_n : Z) : State * list Effect :=
  let n := Z.to_nat (num_contacts m) in
  let sorted :=
    qsort (cmp_adv_timestamp (contacts m)) (map Z.of_nat (seq 0 n)) in
  let m1 := with_sort_array m (sorted ++ drop (length sorted) (sort_array m)) in
  let last_n :=
    if last_n =? 0 then num_contacts m                 (* scan ALL *)
    else if last_n >? num_contacts m then num_contacts m
    else last_n in
  (m1, map (fun i => OnContactVisit (contact_at m1 i))
         (take (Z.to_nat last_n) (sort_array m1))).

(** Returns the index of the contact found, [None] for [NULL]. *)
Definition searchContactsByPrefix (m : State) (name_prefix : bytes) : option Z :=
  let len := Z.to_nat (strlen name_prefix) in
  find_index (fun c => bool_decide (take len (name c) = cstr name_prefix))
    (live (num_contacts m) (contacts m)) 0.

Record ContactsIterator := { next_idx : Z }.

(** Returns the iterator and the contact copied to [dest] ([None] when the
    C++ returns [false]). *)
Definition hasNext (it : ContactsIterator) (mesh : State)
    : ContactsIterator * option ContactInfo :=
  if next_idx it >=? num_contacts mesh then (it, None)
  else ({| next_idx := next_idx it + 1 |}, Some (contact_at mesh (next_idx it))).

Definition addContact (m : State) (contact : ContactInfo) : State * bool :=
  if num_contacts m <? MAX_CONTACTS then
    let i := num_contacts m in
    let dest :=
      {| id := id contact; name := name contact; type := type contact;
         out_path_len := out_path_len contact; out_path := out_path contact;
         last_advert_timestamp := last_advert_timestamp contact;
         shared_secret := calcSharedSecret (self_id m) (id contact) |} in
    (with_contacts m (i + 1) (<[Z.to_nat i := dest]> (contacts m)), true)
  else (m, false).

(** The variant compiled when [MAX_GROUP_CHANNELS] is defined.  Returns the
    index of the new channel, [None] for [NULL].  [decode_base64] writes
    every decoded byte to [dest->secret] before the length is looked at:
    a text that decodes to more than [sizeof_secret] bytes is written over
    what follows the array. *)
Definition addChannel (m : State) (psk_base64 : bytes)
    : Run (State * option Z) :=
  if num_channels m <? MAX_GROUP_CHANNELS then
    let i := num_channels m in
    let slot := default blank_channel (channels m !! Z.to_nat i) in
    let decoded := decode_base64 (cstr psk_base64) in
    if (sizeof_secret <? length decoded)%nat then Overrun
    else
      let key := blit (replicate sizeof_secret x00) 0 decoded in
      let len := Z.of_nat (length decoded) in
      if (len =? 32) || (len =? 16) then
        let dest :=
          {| hash := Utils_sha256_1 PATH_HASH_SIZE key len; secret := key |} in
        Done (with_channels m (i + 1) (<[Z.to_nat i := dest]> (channels m)),
              Some i)
      else
        Done (with_channels m i
                (<[Z.to_nat i := {| hash := hash slot; secret := key |}]>
                   (channels m)),
              None)
  else Done (m, None).

(** What the dispatcher of the mesh layer can call on the application. *)
Inductive Upcall :=
  | UpSearchPeers (h : bytes)
  | UpAdvert (packet : Packet) (sender : Identity) (timestamp : Z)
             (app_data : bytes) (app_data_len : Z)
  | UpPeerData (packet : Packet) (ty : PayloadType) (sender_idx : Z)
               (key : bytes) (data : bytes) (len : Z)
  | UpPeerPath (packet : Packet) (sender_idx : Z) (key : bytes)
               (new_path : bytes) (new_path_len : Z)
               (extra_type : PayloadType) (extra : bytes) (extra_len : Z)
  | UpAck (packet : Packet) (ack_crc : Z)
  | UpGroupData (packet : Packet) (ty : PayloadType) (channel : GroupChannel)
                (data : bytes) (len : Z).

Definition upcall (m : State) (u : Upcall) : Run (State * list Effect) :=
  match u with
  | UpSearchPeers h => Done (fst (searchPeersByHash m h), [])
  | UpAdvert p s t d n => Done (onAdvertRecv m p s t d n)
  | UpPeerData p ty i k d n => Done (onPeerDataRecv m p ty i k d n)
  | UpPeerPath p i k np nl et e el =>
      match onPeerPathRecv m p i k np nl et e el with
      | Done (m1, fx, _) => Done (m1, fx)
      | Overrun => Overrun
      end
  | UpAck p c => Done (onAckRecv m p c)
  | UpGroupData p ty ch d n => Done (onGroupDataRecv m p ty ch d n)
  end.

(** Modelled from the spec: [Mesh::loop] (Mesh.cpp is not among the sources).
    "Inbound frames ... are classified by the Mesh dispatcher ... Decrypted
    payloads are delivered to the application via typed upcalls": one
    iteration delivers the upcalls of the frames it decoded, in order. *)
Fixpoint Mesh_loop (m : State) (inbound : list Upcall)
    : Run (State * list Effect) :=
  match inbound with
  | [] => Done (m, [])
  | u :: rest =>
      match upcall m u with
      | Overrun => Overrun
      | Done (m1, fx1) =>
          match Mesh_loop m1 rest with
          | Overrun => Overrun
          | Done (m2, fx2) => Done (m2, fx1 ++ fx2)
          end
      end
  end.

(** The timer check that follows [Mesh::loop()]. *)
Definition check_send_timeout (m : State) (millis : Z) : State * list Effect :=
  if negb (txt_send_timeout m =? 0)
     && millisHasNowPassed millis (txt_send_timeout m) then
    (with_timeout m 0, [OnSendTimeout])             (* failed to get an ACK *)
  else (m, []).

Definition loop (m : State) (inbound : list Upcall) (millis : Z)
    : Run (State * list Effect) :=
  match Mesh_loop m inbound with
  | Overrun => Overrun
  | Done (m1, fx1) =>
      let '(m2, fx2) := check_send_timeout m1 millis in
      Done (m2, fx1 ++ fx2)
  end.

(** Returns the array [dest] and the number of channels copied to it. *)
Definition searchChannelsByHash (m : State) (h : bytes)
    (dest : list GroupChannel) (max_matches : Z) : list GroupChannel * Z :=
  let found :=
    take (Z.to_nat max_matches)
      (filter (fun ch => byte_at (hash ch) 0 = byte_at h 0)
         (live (num_channels m) (channels m))) in
  (found ++ drop (length found) dest, Z.of_nat (length found)).

(** The loop [while (it.hasNext(mesh, c)) ...] run for at most [fuel]
    rounds: the contacts it sees. *)
Fixpoint drain (fuel : nat) (it : ContactsIterator) (mesh : State)
    : list ContactInfo :=
  match fuel with
  | O => []
  | S fuel' =>
      match hasNext it mesh with
      | (it', Some c) => c :: drain fuel' it' mesh
      | (_, None) => []
      end
  end.

(** The tables are the arrays of the class. *)
Definition wf (m : State) : Prop :=
  length (contacts m) = Z.to_nat MAX_CONTACTS
  /\ 0 <= num_contacts m <= MAX_CONTACTS.

(** [resetPathTo(contacts[i])] *)
Definition resetPathTo_at (m : State) (i : Z) : State :=
  if (0 <=? i) && (i <? num_contacts m) then
    store_contact m i (resetPathTo (contact_at m i))
  else m.

(** The calls that reach a chat node: [loop()] and what the application
    calls between two iterations. *)
Inductive Op :=
  | OpLoop (inbound : list Upcall) (millis : Z)
  | OpSendMessage (millis : Z) (recipient : ContactInfo) (attempt : Z)
                  (text : bytes) (expected_ack : Z)
  | OpResetPathTo (i : Z)
  | OpAddContact (contact : ContactInfo)
  | OpAddChannel (psk_base64 : bytes)
  | OpScanRecentContacts (last_n : Z)
  | OpSearchContactsByPrefix (name_prefix : bytes)
  | OpCreateSelfAdvert (node_name : bytes).

Definition step (m : State) (op : Op) : Run (State * list Effect) :=
  match op with
  | OpLoop inbound millis => loop m inbound millis
  | OpSendMessage millis r a t e =>
      let '(m1, fx, _, _) := sendMessage m millis r a t e in Done (m1, fx)
  | OpResetPathTo i => Done (resetPathTo_at m i, [])
  | OpAddContact c => Done (fst (addContact m c), [])
  | OpAddChannel psk =>
      match addChannel m psk with
      | Done (m1, _) => Done (m1, [])
      | Overrun => Overrun
      end
  | OpScanRecentContacts last_n => Done (scanRecentContacts m last_n)
  | OpSearchContactsByPrefix _ => Done (m, [])
  | OpCreateSelfAdvert _ => Done (m, [])
  end.

(** The states of the runs in which no call has left an array. *)
Inductive reachable : State -> Prop :=
  | reach_init self clock : reachable (init self clock)
  | reach_step m op m' fx :
      reachable m -> step m op = Done (m', fx) -> reachable m'.

(** [m'] has kept what [m] knew of its contacts: same own identity, no
    contact dropped, and for every contact of [m] the same key and shared
    secret and an advert timestamp that is not older. *)
Definition contacts_kept (m m' : State) : Prop :=
  wf m' /\ self_id m' = self_id m /\ num_contacts m <= num_contacts m'
  /\ forall j, 0 <= j < num_contacts m ->
       id (contact_at m' j) = id (contact_at m j)
       /\ shared_secret (contact_at m' j) = shared_secret (contact_at m j)
       /\ last_advert_timestamp (contact_at m j)
          <= last_advert_timestamp (contact_at m' j).

(** Every stored shared secret is the ECDH secret of the node's identity and
    the contact's key. *)
Definition secrets_cached (m : State) : Prop :=
  forall j, 0 <= j < num_contacts m ->
    shared_secret (contact_at m j)
    = calcSharedSecret (self_id m) (id (contact_at m j)).

(** An upcall that delivers the ACK [awaited]: an ACK packet with these
    four bytes, or a path-return from a known contact whose extra is an ACK
    of at least four bytes that starts with them. *)
Definition carries_ack (awaited : Z) (m : State) (u : Upcall) : Prop :=
  match u with
  | UpAck _ ack_crc => le32_encode ack_crc = le32_encode awaited
  | UpPeerPath _ sender_idx _ _ _ extra_type extra extra_len =>
      let i := int_at (matching_peer_indexes m) sender_idx in
      0 <= i < num_contacts m
      /\ extra_type = PAYLOAD_TYPE_ACK /\ 4 <= extra_len
      /\ take 4 extra = le32_encode awaited
  | _ => False
  end.

#[global] Instance carries_ack_dec awaited m u : Decision (carries_ack awaited m u).
Proof. destruct u; simpl; apply _. Defined.

End WithEnv.
End BaseChatMesh.

(** ** An environment to run the model in

    The packet pool never runs dry and a packet records what it was built
    from; the cryptography is replaced by stand-ins (the "digest" is the
    message itself, cut or padded to 32 bytes), [qsort] is an insertion
    sort and the advert app_data is a type byte followed by the name. *)

Fixpoint insert_by (cmp : Z -> Z -> Z) (x : Z) (l : list Z) : list Z :=
  match l with
  | [] => [x]
  | y :: rest => if cmp x y <=? 0 then x :: l else y :: insert_by cmp x rest
  end.

Definition insertion_sort (cmp : Z -> Z -> Z) (l : list Z) : list Z :=
  foldr (insert_by cmp) [] l.

Definition test_packet (ty : PayloadType) (flood : bool) (data : bytes)
    : Packet :=
  {| payload_type := ty; route_flood := flood; path := []; path_len := 0;
     payload := data; payload_len := Z.of_nat (length data) |}.

Definition test_env : MeshEnv :=
  {| PUB_KEY_SIZE := 32;
     MAX_CONTACTS := 2;
     MAX_GROUP_CHANNELS := 1;
     MAX_SEARCH_RESULTS := 8;
     MAX_TEXT_LEN := 160;
     MAX_PATH_SIZE := 64;
     NAME_SIZE := 32;
     calcSharedSecret := fun self other => pub_key self ++ pub_key other;
     sha256_digest := fun msg => take 32 (msg ++ replicate 32 x00);
     decode_base64 := fun b => b;
     createDatagram := fun ty _ _ data => Some (test_packet ty false data);
     createPathReturn :=
       fun _ _ _ _ _ extra => Some (test_packet PAYLOAD_TYPE_PATH true extra);
     createAck :=
       fun crc => Some (test_packet PAYLOAD_TYPE_ACK false (le32_encode crc));
     createAdvert :=
       fun _ data => Some (test_packet PAYLOAD_TYPE_ADVERT true data);
     getEstAirtimeFor := fun n => n;
     calcFloodTimeoutMillisFor := fun t => 500 + 16 * t;
     calcDirectTimeoutMillisFor := fun t n => 500 + (t * 6 + 250) * (n + 1);
     futureMillis := fun now d => wrap32 (now + d);
     millisHasNowPassed := fun now t => t <? now;
     advert_isValid := fun d => negb (bool_decide (d = []));
     advert_hasName := fun d => 1 <? Z.of_nat (length d);
     advert_getName := fun d => drop 1 d;
     advert_getType := fun d => byte_to_Z (byte_at d 0);
     ADV_TYPE_CHAT := 1;
     advert_encode := fun t n => byte_of_Z t :: n;
     qsort := insertion_sort;
     processAck := fun b => bool_decide (take 4 b = le32_encode 1000);
     float := Z;
     float_one := 1;
     atof := fun _ => 1;
     format_clock := fun t => le32_encode t;
     repeater_stats := replicate 44 x00;
     repeater_advert_data := lit "repeater" |}.

Definition alice : Identity := {| pub_key := replicate 32 xaa |}.
Definition bob : LocalIdentity :=
  {| identity := {| pub_key := replicate 32 xbb |}; prv_key := [] |}.


(** A repeater that has just started, at clock 1000. *)
Definition fresh_repeater : Repeater.MyMesh :=
  Repeater.init (H := test_env) bob {| RTC.tv_sec := 1000 |}.

(** An ANON_REQ payload: timestamp, then the password. *)
Definition login_request (timestamp : Z) : bytes :=
  le32_encode timestamp ++ Repeater.ADMIN_PASSWORD.

(** A text payload: timestamp, flags, text. *)
Definition text_payload (timestamp : Z) (flags : byte) (text : string) : bytes :=
  le32_encode timestamp ++ [flags] ++ lit text.

Definition direct_packet (ty : PayloadType) (data : bytes) : Packet :=
  test_packet ty false data.

(** The repeater after [alice] has logged in with timestamp 5. *)
Definition repeater_with_alice : Repeater.MyMesh :=
  fst (Repeater.onAnonDataRecv (H := test_env) fresh_repeater
         (direct_packet PAYLOAD_TYPE_ANON_REQ (login_request 5))
         PAYLOAD_TYPE_ANON_REQ alice (login_request 5) 12).

Definition alice_contact : BaseChatMesh.ContactInfo :=
  {| BaseChatMesh.id := alice;
     BaseChatMesh.name := lit "alice";
     BaseChatMesh.type := 1;
     BaseChatMesh.out_path_len := -1;
     BaseChatMesh.out_path := [];
     BaseChatMesh.last_advert_timestamp := 1000;
     BaseChatMesh.shared_secret := [] |}.

Definition fresh_chat : BaseChatMesh.State :=
  BaseChatMesh.init (H := test_env) bob {| RTC.tv_sec := 1000 |}.

(** A chat node that has [alice] as its only contact. *)
Definition chat_with_alice : BaseChatMesh.State :=
  fst (BaseChatMesh.addContact (H := test_env) fresh_chat alice_contact).

(** The same node seen from the other side: [alice] runs a chat node and
    has [bob] as a contact. *)
Definition alice_self : LocalIdentity := {| identity := alice; prv_key := [] |}.

Definition alice_node : BaseChatMesh.State :=
  BaseChatMesh.init (H := test_env) alice_self {| RTC.tv_sec := 1234 |}.

Definition bob_contact : BaseChatMesh.ContactInfo :=
  {| BaseChatMesh.id := bob;
     BaseChatMesh.name := lit "bob";
     BaseChatMesh.type := 1;
     BaseChatMesh.out_path_len := -1;
     BaseChatMesh.out_path := [];
     BaseChatMesh.last_advert_timestamp := 0;
     BaseChatMesh.shared_secret := [] |}.

(** The chat node after it has sent "hello" to [alice] at millisecond 50:
    the send timeout is armed. *)
Definition armed_chat : BaseChatMesh.State :=
  let '(m', _, _, _) :=
    BaseChatMesh.sendMessage (H := test_env) chat_with_alice 50 alice_contact
      5 (lit "hello") 0 in
  m'.

(** [alice]'s node with two contacts: [bob], who has not advertised yet,
    in slot 0 and [carol], who advertised at 500, in slot 1. *)
Definition carol : Identity := {| pub_key := replicate 32 xcc |}.

Definition carol_contact : BaseChatMesh.ContactInfo :=
  {| BaseChatMesh.id := carol;
     BaseChatMesh.name := lit "carol";
     BaseChatMesh.type := 1;
     BaseChatMesh.out_path_len := -1;
     BaseChatMesh.out_path := [];
     BaseChatMesh.last_advert_timestamp := 500;
     BaseChatMesh.shared_secret := [] |}.

Definition alice_with_two : BaseChatMesh.State :=
  fst (BaseChatMesh.addContact (H := test_env)
         (fst (BaseChatMesh.addContact (H := test_env) alice_node bob_contact))
         carol_contact).

(** A stats request: timestamp, then the command byte. *)
Definition stats_request (timestamp : Z) : bytes :=
  le32_encode timestamp ++ [Repeater.CMD_GET_STATS].

(** * Properties *)

(** Closed comparisons and equations, by running the model. *)
Ltac by_evaluation :=
  first [ reflexivity
        | apply Z.leb_le; vm_compute; reflexivity
        | apply Z.ltb_lt; vm_compute; reflexivity
        | split; by_evaluation ].


Lemma byte_to_Z_range b : 0 <= byte_to_Z b < 256.
Proof.
  unfold byte_to_Z. pose proof (Byte.to_N_bounded b). lia.
Qed.

Lemma byte_to_of_Z z : byte_to_Z (byte_of_Z z) = z mod 256.
Proof.
  unfold byte_to_Z, byte_of_Z.
  assert (Hr : 0 <= z mod 256 < 256) by (apply Z.mod_pos_bound; lia).
  destruct (Byte.of_N (Z.to_N (z mod 256))) as [b|] eqn:E; simpl.
  - apply Byte.to_of_N in E. rewrite E. lia.
  - apply Byte.of_N_None_iff in E. lia.
Qed.

Lemma le32_decode_encode v : le32_decode (le32_encode v) = wrap32 v.
Proof.
  unfold le32_decode, le32_encode, byte_at, wrap32; simpl nth.
  rewrite !byte_to_of_Z.
  change (2 ^ 8) with 256. change (2 ^ 16) with (256 * 256).
  change (2 ^ 24) with (256 * 256 * 256).
  change (2 ^ 32) with (256 * (256 * (256 * 256))).
  rewrite <- !Z.div_div by lia.
  rewrite !Z.rem_mul_r by lia. lia.
Qed.

Lemma wrap32_range z : 0 <= wrap32 z < 2 ^ 32.
Proof. apply Z.mod_pos_bound. lia. Qed.

Lemma wrap32_small z : 0 <= z < 2 ^ 32 -> wrap32 z = z.
Proof. apply Z.mod_small. Qed.

Lemma le32_decode_range buf : 0 <= le32_decode buf < 2 ^ 32.
Proof.
  unfold le32_decode.
  pose proof (byte_to_Z_range (byte_at buf 0)).
  pose proof (byte_to_Z_range (byte_at buf 1)).
  pose proof (byte_to_Z_range (byte_at buf 2)).
  pose proof (byte_to_Z_range (byte_at buf 3)).
  lia.
Qed.

Lemma reply_timestamp_differs now sender_timestamp :
  0 <= now < 2 ^ 32 ->
  Repeater.reply_timestamp now sender_timestamp <> sender_timestamp.
Proof.
  intros Hn. unfold Repeater.reply_timestamp.
  destruct (Z.eqb_spec now sender_timestamp) as [<-|Hne]; [|done].
  unfold wrap32.
  destruct (Z.eq_dec now (2 ^ 32 - 1)) as [->|Hlt].
  - vm_compute. discriminate.
  - rewrite Z.mod_small by lia. lia.
Qed.

Lemma memcmp_eq_true buf l n :
  memcmp_eq buf l n = true <-> take n buf = take n l.
Proof. unfold memcmp_eq. apply bool_decide_eq_true. Qed.

(** A comparison of a shorter prefix is decided by a longer prefix that is
    already known. *)
Lemma memcmp_eq_shorter buf l n l' n' :
  (n' <= n)%nat ->
  memcmp_eq buf l n = true ->
  memcmp_eq buf l' n' = bool_decide (take n' (take n l) = take n' l').
Proof.
  intros Hle Heq. apply memcmp_eq_true in Heq. unfold memcmp_eq.
  rewrite <- Heq, take_take, Nat.min_l by done. done.
Qed.

Lemma find_index_Some {A} (p : A -> bool) (l : list A) (k i : Z) :
  find_index p l k = Some i ->
  k <= i < k + Z.of_nat (length l)
  /\ exists x, l !! Z.to_nat (i - k) = Some x /\ p x = true.
Proof.
  revert k. induction l as [|x l IH]; intros k Hf; simpl in Hf; [done|].
  destruct (p x) eqn:Hp.
  - injection Hf as <-. split; [simpl; lia|].
    exists x. rewrite Z.sub_diag. done.
  - apply IH in Hf as [Hr (y & Hy & Hpy)]. split; [simpl length; lia|].
    exists y. split; [|done].
    replace (Z.to_nat (i - k)) with (S (Z.to_nat (i - (k + 1)))) by lia.
    done.
Qed.

(** The index found is the first one. *)
Lemma find_index_first {A} (p : A -> bool) (l : list A) (k i : Z) :
  find_index p l k = Some i ->
  forall j x, k <= j < i -> l !! Z.to_nat (j - k) = Some x -> p x = false.
Proof.
  revert k. induction l as [|y l IH]; intros k Hf j x Hj Hx; simpl in Hf;
    [done|].
  destruct (p y) eqn:Hp.
  - injection Hf as <-. lia.
  - destruct (Z.eq_dec j k) as [->|Hne].
    + rewrite Z.sub_diag in Hx. simpl in Hx. congruence.
    + apply (IH (k + 1) Hf j x); [lia|].
      replace (Z.to_nat (j - k)) with (S (Z.to_nat (j - (k + 1)))) in Hx by lia.
      done.
Qed.

Lemma find_index_None {A} (p : A -> bool) (l : list A) (k : Z) :
  find_index p l k = None -> Forall (fun x => p x = false) l.
Proof.
  revert k. induction l as [|x l IH]; intros k Hf; simpl in Hf; [constructor|].
  destruct (p x) eqn:Hp; [done|]. constructor; eauto.
Qed.

Lemma live_lookup {A} (n : Z) (tbl : list A) (j : nat) (x : A) :
  live n tbl !! j = Some x -> tbl !! j = Some x /\ (j < Z.to_nat n)%nat.
Proof. unfold live. intros Hl. by apply lookup_take_Some in Hl. Qed.

Lemma live_length {A} (n : Z) (tbl : list A) :
  (length (live n tbl) <= Z.to_nat n)%nat.
Proof. unfold live. rewrite length_take. lia. Qed.

Lemma matches_false (a b : Identity) : matches a b = false -> a <> b.
Proof.
  unfold matches. intros Hm ->. by rewrite bool_decide_eq_true_2 in Hm.
Qed.

Lemma matches_eq (a b : Identity) : matches a b = true -> a = b.
Proof.
  unfold matches. intros Hm. apply bool_decide_eq_true in Hm.
  destruct a, b; simpl in *; congruence.
Qed.

Lemma length_le32_encode v : length (le32_encode v) = 4%nat.
Proof. done. Qed.

(** The first six bytes of a buffer after the two [memcpy] of a reply. *)
Lemma take_blit_reply (buf : bytes) (v : Z) (tail : bytes) :
  length tail = 2%nat ->
  take 6 (blit (blit buf 0 (le32_encode v)) 4 tail) = le32_encode v ++ tail.
Proof.
  intros Hl. unfold blit. simpl take at 2. simpl app at 2.
  destruct tail as [|a [|b [|? ?]]]; try done.
Qed.

(** ** The repeater *)

Section RepeaterProperties.
Context `{MeshEnv}.

Import Repeater.

(** C7.  An ANON_REQ whose payload after the 4-byte timestamp does not begin
    with the admin password produces no reply packet, inserts nothing into
    the table of known clients and changes no stored state: the handler
    returns the state it was given and an empty list of effects. *)
Theorem anon_req_wrong_password_ignored
    (m : MyMesh) (packet : Packet) (type : PayloadType) (sender : Identity)
    (data : bytes) (len : Z) :
  take 8 (drop 4 data) <> ADMIN_PASSWORD ->
  onAnonDataRecv m packet type sender data len = (m, []).
Proof.
  intros Hpw. unfold onAnonDataRecv.
  destruct (decide (type = PAYLOAD_TYPE_ANON_REQ)); [|done].
  destruct (memcmp_eq _ _ _) eqn:E; [|done].
  exfalso. apply Hpw. apply memcmp_eq_true in E. exact E.
Qed.

(** C3.  "clock sync" (after optional leading spaces): when the sender's
    timestamp is strictly greater than the current RTC time the RTC is set
    to sender_timestamp + 1 (as a uint32_t) and the reply is
    "OK - clock set"; otherwise the reply is
    "ERR: clock cannot go backwards" and nothing changes, the clock
    included.  No packet is sent either way. *)
Theorem clock_sync_contract
    (m : MyMesh) (sender_timestamp : Z) (command : bytes) :
  take 10 (skip_spaces command) = lit "clock sync" ->
  let curr := RTC.getCurrentTime (rtc_clock m) in
  (curr < sender_timestamp ->
     handleCommand m sender_timestamp command
     = (with_rtc m {| RTC.tv_sec := wrap32 (sender_timestamp + 1) |}, [],
        Some (lit "OK - clock set")))
  /\ (sender_timestamp <= curr ->
     handleCommand m sender_timestamp command
     = (m, [], Some (lit "ERR: clock cannot go backwards"))).
Proof.
  intros Hcmd curr.
  assert (Hsync : memcmp_eq (skip_spaces command) (lit "clock sync") 10 = true)
    by (apply memcmp_eq_true; exact Hcmd).
  unfold handleCommand.
  rewrite (memcmp_eq_shorter _ _ 10 (lit "reboot") 6) by (lia || exact Hsync).
  rewrite (memcmp_eq_shorter _ _ 10 (lit "advert") 6) by (lia || exact Hsync).
  rewrite Hsync.
  change (bool_decide (take 6 (take 10 (lit "clock sync")) = take 6 (lit "reboot")))
    with false.
  change (bool_decide (take 6 (take 10 (lit "clock sync")) = take 6 (lit "advert")))
    with false.
  cbv iota. fold curr.
  split; intros Hcmp.
  - destruct (Z.gtb_spec sender_timestamp curr); [done | lia].
  - destruct (Z.gtb_spec sender_timestamp curr); [lia | done].
Qed.

Lemma client_at_lookup (m : MyMesh) (i : Z) (c : ClientInfo) :
  known_clients m !! Z.to_nat i = Some c -> client_at m i = c.
Proof. unfold client_at. by intros ->. Qed.

Lemma client_at_store (m : MyMesh) (i : Z) (c : ClientInfo) :
  (Z.to_nat i < length (known_clients m))%nat ->
  client_at (store_client m i c) i = c.
Proof.
  intros Hi. unfold client_at, store_client; simpl.
  by rewrite list_lookup_insert_eq.
Qed.

Lemma client_at_store_ne (m : MyMesh) (i j : Z) (c : ClientInfo) :
  Z.to_nat i <> Z.to_nat j ->
  client_at (store_client m i c) j = client_at m j.
Proof.
  intros Hij. unfold client_at, store_client; simpl.
  by rewrite list_lookup_insert_ne.
Qed.

(** What [putClient] returns when it returns a client. *)
Lemma putClient_Some (m m1 : MyMesh) (sender : Identity) (i : Z) :
  wf m ->
  putClient m sender = (m1, Some i) ->
  wf m1
  /\ 0 <= i < num_clients m1
  /\ id (client_at m1 i) = sender
  /\ (forall j, 0 <= j < num_clients m -> client_at m1 j = client_at m j)
  /\ ((i < num_clients m /\ m1 = m)
      \/ (i = num_clients m
          /\ num_clients m1 = num_clients m + 1
          /\ last_timestamp (client_at m1 i) = 0
          /\ out_path_len (client_at m1 i) = -1
          /\ secret (client_at m1 i) = calcSharedSecret (self_id m) sender)).
Proof.
  intros [Hlen Hnum] Hput. unfold putClient in Hput.
  destruct (find_index _ _ 0) as [i0|] eqn:Hfind.
  - injection Hput as <- <-.
    apply find_index_Some in Hfind as [Hr (c & Hc & Hm)].
    pose proof (live_length (num_clients m) (known_clients m)) as Hll.
    rewrite Z.sub_0_r in Hc. apply live_lookup in Hc as [Hc Hlt].
    repeat split; try done; try lia.
    + rewrite (client_at_lookup _ _ _ Hc). symmetry. by apply matches_eq.
    + left. split; [lia | done].
  - destruct (Z.ltb_spec (num_clients m) MAX_CLIENTS) as [Hlt|]; [|done].
    injection Hput as <- <-.
    assert (Hin : (Z.to_nat (num_clients m) < length (known_clients m))%nat)
      by lia.
    assert (Hnew : forall c,
      client_at (with_clients m (num_clients m + 1)
                   (<[Z.to_nat (num_clients m) := c]> (known_clients m)))
        (num_clients m) = c).
    { intros c. unfold client_at; simpl. by rewrite list_lookup_insert_eq. }
    repeat split; simpl; try lia.
    + by rewrite length_insert.
    + by rewrite Hnew.
    + intros j Hj. unfold client_at; simpl.
      rewrite list_lookup_insert_ne by lia. done.
    + right. rewrite !Hnew. simpl. repeat split; lia || done.
Qed.

(** A full table and an unknown sender: the request is dropped. *)
Lemma anon_req_table_full
    (m m1 : MyMesh) (packet : Packet) (sender : Identity) (data : bytes)
    (len : Z) :
  putClient m sender = (m1, None) ->
  onAnonDataRecv m packet PAYLOAD_TYPE_ANON_REQ sender data len = (m, [])
  /\ m1 = m.
Proof.
  intros Hput. assert (m1 = m) as ->.
  { unfold putClient in Hput. destruct (find_index _ _ _); [done|].
    destruct (_ <? _); [done|]. by injection Hput. }
  split; [|done]. unfold onAnonDataRecv.
  destruct (decide _); [|done]. destruct (memcmp_eq _ _ _); [|done].
  by rewrite Hput.
Qed.

(** C2, as amended.  An ANON_REQ with the admin password, from a sender for
    whom [putClient] has a slot [i] (already known, or entered into a table
    that had room):
    - with a timestamp strictly greater than the slot's [last_timestamp],
      the slot holds the sender's identity, [last_timestamp] becomes the
      timestamp, a freshly made slot carries the ECDH secret and
      [out_path_len = -1], no other client changes, and the reply, built
      from the current time (4 bytes) followed by "OK" under the slot's
      secret, goes out as a path-return flood when the request was a
      flood, else direct when an out_path is known, else as a flood (and
      nothing is sent when the packet cannot be built);
    - with a timestamp less than or equal to it, nothing is sent and no
      client that was stored before changes; the state is the one
      [putClient] left, which is the old state when the sender was already
      known. *)
Theorem anon_req_login
    (m m1 : MyMesh) (packet : Packet) (sender : Identity) (data : bytes)
    (len : Z) (i : Z) :
  wf m ->
  take 8 (drop 4 data) = ADMIN_PASSWORD ->
  putClient m sender = (m1, Some i) ->
  let timestamp := le32_decode data in
  let client := client_at m1 i in
  let reply := le32_encode (RTC.getCurrentTime (rtc_clock m)) ++ lit "OK" in
  (last_timestamp client < timestamp ->
     exists m',
       onAnonDataRecv m packet PAYLOAD_TYPE_ANON_REQ sender data len
       = (m',
          if route_flood packet then
            match createPathReturn sender (secret client) (path packet)
                    (path_len packet) PAYLOAD_TYPE_RESPONSE reply with
            | Some p => [Send (SendFlood p 0)]
            | None => []
            end
          else
            match createDatagram PAYLOAD_TYPE_RESPONSE sender (secret client)
                    reply with
            | Some p =>
                if 0 <=? out_path_len client then
                  [Send (SendDirect p (out_path client) (out_path_len client) 0)]
                else [Send (SendFlood p 0)]
            | None => []
            end)
       /\ 0 <= i < num_clients m'
       /\ num_clients m' <= MAX_CLIENTS
       /\ client_at m' i = set_last_timestamp client timestamp
       /\ id client = sender
       /\ (i = num_clients m ->
           secret client = calcSharedSecret (self_id m) sender
           /\ out_path_len client = -1)
       /\ (forall j, 0 <= j < num_clients m' -> j <> i ->
           client_at m' j = client_at m1 j))
  /\ (timestamp <= last_timestamp client ->
      onAnonDataRecv m packet PAYLOAD_TYPE_ANON_REQ sender data len = (m1, [])
      /\ (forall j, 0 <= j < num_clients m -> client_at m1 j = client_at m j)
      /\ (i < num_clients m -> m1 = m)).
Proof.
  intros Hwf Hpw Hput timestamp client reply.
  destruct (putClient_Some _ _ _ _ Hwf Hput)
    as ([Hlen1 Hnum1] & Hi & Hid & Hkeep & Hcase).
  assert (Hrtc : rtc_clock m1 = rtc_clock m).
  { destruct Hcase as [[_ ->]|_]; [done|].
    unfold putClient in Hput. destruct (find_index _ _ _).
    - by injection Hput as <- _.
    - destruct (_ <? _); by injection Hput as <- _. }
  assert (Hgo : forall X,
    onAnonDataRecv m packet PAYLOAD_TYPE_ANON_REQ sender data len = X <->
    (if timestamp <=? last_timestamp client then (m1, [])
     else
       let c := set_last_timestamp client timestamp in
       let m2 := store_client m1 i c in
       let m3 := with_reply_data m2
          (blit (blit (reply_data m2) 0
                   (le32_encode (RTC.getCurrentTime (rtc_clock m2)))) 4
             (lit "OK")) in
       (m3, send_response c packet sender (secret c) (take 6 (reply_data m3))))
    = X).
  { intros X. unfold onAnonDataRecv.
    destruct (decide _); [|done].
    assert (memcmp_eq (drop 4 data) ADMIN_PASSWORD
              (Z.to_nat (strlen ADMIN_PASSWORD)) = true) as ->
      by (apply memcmp_eq_true; exact Hpw).
    rewrite Hput. done. }
  split; intros Hts.
  - destruct (Z.leb_spec timestamp (last_timestamp client)) as [|_]; [lia|].
    eexists. split; [apply Hgo; cbv zeta|].
    + f_equal. simpl reply_data. rewrite take_blit_reply by done.
      simpl rtc_clock. rewrite Hrtc. fold reply.
      unfold send_response, flood_if, send_to. simpl secret.
      simpl out_path_len. simpl out_path.
      destruct (route_flood packet); [done|].
      destruct (createDatagram _ _ _ _); [|done].
      destruct (Z.ltb_spec (out_path_len client) 0),
               (Z.leb_spec 0 (out_path_len client)); done || lia.
    + simpl num_clients. repeat split; try lia.
      * change (client_at (store_client m1 i
                  (set_last_timestamp client timestamp)) i = 
                set_last_timestamp client timestamp).
        rewrite client_at_store; [done | lia].
      * done.
      * destruct Hcase as [[? _]|(_ & _ & _ & _ & Hs)]; [lia | done].
      * destruct Hcase as [[? _]|(_ & _ & _ & Hp & _)]; [lia | done].
      * intros j Hj Hne. unfold with_reply_data, client_at; simpl.
        rewrite list_lookup_insert_ne by lia. done.
  - destruct (Z.leb_spec timestamp (last_timestamp client)) as [_|]; [|lia].
    repeat split.
    + by apply Hgo.
    + done.
    + intros Hlt. destruct Hcase as [[_ ->]|[? _]]; [done | lia].
Qed.

(** The replay guard of the repeater: a packet whose leading timestamp is not
    strictly newer than the sender's [last_timestamp] is dropped, whatever
    its type. *)
Lemma repeater_replay_dropped
    (m : MyMesh) (packet : Packet) (type : PayloadType) (sender_idx : Z)
    (key data : bytes) (len : Z) :
  le32_decode data
    <= last_timestamp (client_at m (int_at (matching_peer_indexes m) sender_idx)) ->
  onPeerDataRecv m packet type sender_idx key data len = Done (m, []).
Proof.
  intros Hts. unfold onPeerDataRecv.
  destruct (_ || _); [done|].
  destruct (decide (type = PAYLOAD_TYPE_REQ)).
  - destruct (Z.gtb_spec (le32_decode data)
                (last_timestamp (client_at m
                   (int_at (matching_peer_indexes m) sender_idx)))); [lia | done].
  - destruct (_ && _); [|done]. destruct (negb _); [done|].
    destruct (Z.gtb_spec (le32_decode data)
                (last_timestamp (client_at m
                   (int_at (matching_peer_indexes m) sender_idx)))); [lia | done].
Qed.

(** C9, as amended.  A CLI text (TXT_MSG, flags 0, strictly newer timestamp)
    from a known client, for which the command handler leaves a non-empty
    reply: the reply is a TXT_MSG datagram with flags 0 whose timestamp is
    the current RTC time, incremented by 1 (as a uint32_t) when it collides
    with the sender's, so that its 4-byte timestamp field never equals the
    sender's timestamp; it follows the ACK and is sent with the CLI reply
    delay, direct when an out_path is known and as a flood otherwise
    (nothing is sent when the packet cannot be built).  This is so when the
    reply and its terminator fit the [sizeof_temp - 5] bytes that the
    handler is given to write to; a longer reply is written past the array
    [temp] and the call ends in [Overrun]. *)
Theorem cli_reply_timestamp
    (m m2 : MyMesh) (packet : Packet) (sender_idx : Z) (key data : bytes)
    (len : Z) (fx_cmd : list Effect) (reply : bytes) :
  let i := int_at (matching_peer_indexes m) sender_idx in
  let client := client_at m i in
  let sender_timestamp := le32_decode data in
  let data' := poke data len x00 in
  0 <= i < num_clients m ->
  5 < len ->
  byte_at data 4 = x00 ->
  last_timestamp client < sender_timestamp ->
  handleCommand (store_client m i (set_last_timestamp client sender_timestamp))
    sender_timestamp (drop 5 data') = (m2, fx_cmd, Some reply) ->
  0 < strlen reply ->
  let now := RTC.getCurrentTime (rtc_clock m2) in
  let timestamp := if now =? sender_timestamp then wrap32 (now + 1) else now in
  timestamp <> sender_timestamp
  /\ le32_decode (le32_encode timestamp) <> sender_timestamp
  /\ onPeerDataRecv m packet PAYLOAD_TYPE_TXT_MSG sender_idx key data len
     = if Z.of_nat (length reply) + 1 >? sizeof_temp - 5 then Overrun
       else
         Done
           (m2,
            send_to client
              (createAck (calc_ack_hash data' (pub_key (id client)))) 0
            ++ fx_cmd
            ++ match createDatagram PAYLOAD_TYPE_TXT_MSG (id client) key
                       (le32_encode timestamp ++ [x00] ++ cstr reply) with
               | Some p =>
                   if out_path_len client <? 0 then
                     [Send (SendFlood p CLI_REPLY_DELAY_MILLIS)]
                   else
                     [Send (SendDirect p (out_path client)
                              (out_path_len client) CLI_REPLY_DELAY_MILLIS)]
               | None => []
               end).
Proof.
  intros i client sender_timestamp data' Hi Hlen Hflags Hts Hcmd Hreply
    now timestamp.
  assert (Hne : timestamp <> sender_timestamp).
  { apply (reply_timestamp_differs now sender_timestamp).
    apply wrap32_range. }
  assert (Hrange : 0 <= timestamp < 2 ^ 32).
  { subst timestamp. destruct (_ =? _); apply wrap32_range. }
  split; [done|]. split.
  { rewrite le32_decode_encode, wrap32_small; done. }
  unfold onPeerDataRecv. fold i. fold client. fold sender_timestamp.
  assert ((i <? 0) || (i >=? num_clients m) = false) as ->.
  { apply orb_false_iff. split; [apply Z.ltb_ge; lia|].
    rewrite Z.geb_leb. apply Z.leb_gt. lia. }
  destruct (decide (_ = PAYLOAD_TYPE_REQ)); [done|].
  assert (bool_decide (PAYLOAD_TYPE_TXT_MSG = PAYLOAD_TYPE_TXT_MSG)
          && (len >? 5) = true) as ->.
  { rewrite bool_decide_eq_true_2 by done. simpl. apply Z.gtb_lt. lia. }
  rewrite Hflags. change (byte_to_Z x00 =? 0) with true. cbv iota. simpl negb.
  cbv iota.
  destruct (Z.gtb_spec sender_timestamp (last_timestamp client)); [|lia].
  fold data'. rewrite Hcmd.
  destruct (Z.of_nat (length reply) + 1 >? sizeof_temp - 5); [done|].
  destruct (Z.gtb_spec (strlen reply) 0); [|lia].
  unfold reply_timestamp. fold now. fold timestamp.
  unfold send_to at 2. simpl id. simpl out_path_len. simpl out_path.
  reflexivity.
Qed.

(** *** The client count *)

Lemma putClient_count (m : MyMesh) (sender : Identity) :
  stays_or_grows MAX_CLIENTS (num_clients m)
    (num_clients (fst (putClient m sender))).
Proof.
  unfold putClient, stays_or_grows.
  destruct (find_index _ _ _); [by left|].
  destruct (Z.ltb_spec (num_clients m) MAX_CLIENTS); simpl; auto.
Qed.

Lemma onAnonDataRecv_count
    (m : MyMesh) (packet : Packet) (type : PayloadType) (sender : Identity)
    (data : bytes) (len : Z) :
  stays_or_grows MAX_CLIENTS (num_clients m)
    (num_clients (fst (onAnonDataRecv m packet type sender data len))).
Proof.
  unfold onAnonDataRecv.
  destruct (decide _); [|by left]. destruct (memcmp_eq _ _ _); [|by left].
  pose proof (putClient_count m sender) as Hput.
  destruct (putClient m sender) as [m1 [i|]]; simpl in *; [|done].
  destruct (_ <=? _); done.
Qed.

Lemma handleCommand_count (m : MyMesh) (sender_timestamp : Z) (command : bytes) :
  num_clients (fst (fst (handleCommand m sender_timestamp command)))
  = num_clients m.
Proof.
  unfold handleCommand.
  repeat (destruct (memcmp_eq _ _ _); simpl; try done).
  by destruct (_ >? _).
Qed.

Lemma handleRequest_count (m : MyMesh) (payload : bytes) (payload_len : Z) :
  num_clients (fst (handleRequest m payload payload_len)) = num_clients m.
Proof. unfold handleRequest. by destruct (decide _). Qed.

Lemma onPeerDataRecv_count
    (m m' : MyMesh) (packet : Packet) (type : PayloadType) (sender_idx : Z)
    (key data : bytes) (len : Z) (fx : list Effect) :
  onPeerDataRecv m packet type sender_idx key data len = Done (m', fx) ->
  num_clients m' = num_clients m.
Proof.
  unfold onPeerDataRecv.
  destruct (_ || _); [by intros [= <- _]|].
  destruct (decide _).
  - destruct (_ >? _); [|by intros [= <- _]].
    pose proof (handleRequest_count m (drop 4 data) (wrap32 (len - 4))) as Hr.
    destruct (handleRequest _ _ _) as [m1 reply_len]. simpl in Hr.
    destruct (_ =? _); by intros [= <- _].
  - destruct (_ && _); [|by intros [= <- _]].
    destruct (negb _); [by intros [= <- _]|].
    destruct (_ >? _); [|by intros [= <- _]].
    match goal with
    | |- context [handleCommand ?a ?b ?c] =>
        pose proof (handleCommand_count a b c) as Hc;
        destruct (handleCommand a b c) as [[m2 fx2] [reply|]]
    end; simpl in Hc; [|by intros [= <- _]].
    destruct (_ >? _); [done|]. destruct (_ >? _); by intros [= <- _].
Qed.

(** What [set_out_path] returns when it returns. *)
Lemma set_out_path_Done (c c' : ClientInfo) (p : bytes) (n : Z) :
  set_out_path c p n = Done c' ->
  0 <= n <= MAX_PATH_SIZE /\ n <= Z.of_nat (length p)
  /\ c' = with_out_path c n (blit (out_path c) 0 (take (Z.to_nat n) p)).
Proof.
  unfold set_out_path.
  destruct (Z.leb_spec 0 n); [|done].
  destruct (Z.leb_spec n MAX_PATH_SIZE); [|done].
  destruct (Z.leb_spec n (Z.of_nat (length p))); [|done].
  simpl. intros [= <-]. repeat split; lia || done.
Qed.

Lemma set_out_path_fits (c : ClientInfo) (p : bytes) (n : Z) :
  0 <= n <= MAX_PATH_SIZE -> n <= Z.of_nat (length p) ->
  set_out_path c p n
  = Done (with_out_path c n (blit (out_path c) 0 (take (Z.to_nat n) p))).
Proof.
  intros Hn Hp. unfold set_out_path.
  destruct (Z.leb_spec 0 n); [|lia].
  destruct (Z.leb_spec n MAX_PATH_SIZE); [|lia].
  destruct (Z.leb_spec n (Z.of_nat (length p))); [done | lia].
Qed.

(** What [onPeerPathRecv] returns when it returns. *)
Lemma onPeerPathRecv_Done
    (m m' : MyMesh) (sender_idx : Z) (new_path : bytes) (new_path_len : Z)
    (b : bool) :
  onPeerPathRecv m sender_idx new_path new_path_len = Done (m', b) ->
  let i := int_at (matching_peer_indexes m) sender_idx in
  b = false
  /\ ((~ 0 <= i < num_clients m /\ m' = m)
      \/ (0 <= i < num_clients m
          /\ 0 <= new_path_len <= MAX_PATH_SIZE
          /\ new_path_len <= Z.of_nat (length new_path)
          /\ m' = store_client m i
                    (with_out_path (client_at m i) new_path_len
                       (blit (out_path (client_at m i)) 0
                          (take (Z.to_nat new_path_len) new_path))))).
Proof.
  intros Hrun i. unfold onPeerPathRecv in Hrun. fold i in Hrun.
  destruct (Z.leb_spec 0 i); simpl in Hrun.
  2: { injection Hrun as <- <-. split; [done|]. left. split; [lia | done]. }
  destruct (Z.ltb_spec i (num_clients m)); simpl in Hrun.
  2: { injection Hrun as <- <-. split; [done|]. left. split; [lia | done]. }
  destruct (set_out_path _ _ _) as [c'|] eqn:Hset; [|done].
  injection Hrun as <- <-. apply set_out_path_Done in Hset as (? & ? & ->).
  split; [done|]. right. repeat split; lia || done.
Qed.



End RepeaterProperties.

(** ** C strings in receive buffers *)

Lemma cstr_app_stop (text rest : bytes) :
  rest = [] \/ (exists r, rest = x00 :: r) ->
  cstr (cstr text ++ rest) = cstr text.
Proof.
  intros Hrest. induction text as [|b text IH]; simpl.
  - destruct Hrest as [->|[r ->]]; done.
  - destruct (decide (b = x00)) as [->|Hb]; simpl.
    + destruct Hrest as [->|[r ->]]; done.
    + destruct (decide (b = x00)); [done|]. by rewrite IH.
Qed.

Lemma cstr_app_no_nul (a rest : bytes) :
  x00 ∉ a -> cstr (a ++ x00 :: rest) = a.
Proof.
  induction a as [|b a IH]; simpl; intros Hnul; [done|].
  apply not_elem_of_cons in Hnul as [Hb Ha].
  destruct (decide (b = x00)); [done|]. by rewrite IH.
Qed.

Lemma cstr_no_nul (buf : bytes) : x00 ∉ cstr buf.
Proof.
  induction buf as [|b buf IH]; simpl; [apply not_elem_of_nil|].
  destruct (decide (b = x00)); [apply not_elem_of_nil|].
  by apply not_elem_of_cons.
Qed.

(** A received text: five header bytes, the text, [k] bytes of zero padding
    and whatever the buffer held before.  After [data[len] = 0] the C string
    at [data + 5] is the text. *)
Lemma received_text (hdr text junk : bytes) (k : nat) :
  length hdr = 5%nat ->
  let data := hdr ++ cstr text ++ replicate k x00 ++ junk in
  let len := 5 + strlen text + Z.of_nat k in
  cstr (drop 5 (poke data len x00)) = cstr text
  /\ take (Z.to_nat (5 + strlen text)) (poke data len x00) = hdr ++ cstr text.
Proof.
  intros Hh data len. unfold poke, strlen in *.
  destruct (Z.leb_spec 0 len) as [_|]; [|lia].
  assert (Hpos : Z.to_nat len
                 = (length hdr + (length (cstr text) + (length (replicate k x00) + 0)))%nat)
    by (rewrite length_replicate; lia).
  subst data. rewrite Hpos.
  rewrite !insert_app_r.
  split.
  - rewrite <- Hh, drop_app_length. apply cstr_app_stop.
    destruct k as [|k]; simpl.
    + destruct junk; [by left | right; by eexists].
    + right. by eexists.
  - rewrite app_assoc. apply take_app_length'. rewrite length_app. lia.
Qed.

(** ** The chat mesh *)

Section ChatProperties.
Context `{MeshEnv}.

Import BaseChatMesh.

(** The flags byte of a composed message is [attempt & 3], below 4. *)
Lemma flags_plain (attempt : Z) :
  byte_to_Z (byte_of_Z (Z.land attempt 3)) = Z.land attempt 3
  /\ Z.shiftr (byte_to_Z (byte_of_Z (Z.land attempt 3))) 2 = 0.
Proof.
  assert (Hr : 0 <= Z.land attempt 3 < 4).
  { change 3 with (Z.ones 2). rewrite Z.land_ones by lia.
    apply Z.mod_pos_bound. lia. }
  rewrite byte_to_of_Z, Z.mod_small by lia. split; [done|].
  rewrite Z.shiftr_div_pow2 by lia. apply Z.div_small. simpl. lia.
Qed.

(** What [composeMsgPacket] builds for a text that fits. *)
Lemma composeMsgPacket_fits
    (m : State) (recipient : ContactInfo) (attempt : Z) (text : bytes)
    (expected_ack : Z) :
  strlen text <= MAX_TEXT_LEN ->
  let payload :=
    le32_encode (RTC.getCurrentTime (rtc_clock m))
    ++ [byte_of_Z (Z.land attempt 3)] ++ cstr text in
  composeMsgPacket m recipient attempt text expected_ack
  = (createDatagram PAYLOAD_TYPE_TXT_MSG (id recipient)
       (shared_secret recipient) payload,
     le32_decode
       (take 4 (sha256_digest
                  (payload ++ take (Z.to_nat PUB_KEY_SIZE) (pub_key (self_id m)))))).
Proof.
  intros Hfit payload. unfold composeMsgPacket.
  destruct (Z.gtb_spec (strlen text) MAX_TEXT_LEN) as [|_]; [lia|].
  assert (Htake :
    take (Z.to_nat (5 + strlen text))
      (le32_encode (RTC.getCurrentTime (rtc_clock m))
       ++ [byte_of_Z (Z.land attempt 3)] ++ cstr text ++ [x00]) = payload).
  { subst payload. rewrite !app_assoc. apply take_app_length'.
    rewrite !length_app. unfold strlen. simpl. lia. }
  unfold Utils_sha256. rewrite Htake. done.
Qed.


(** The hash of a received text in terms of its fields. *)
Lemma calc_ack_hash_fields
    (ts4 : bytes) (flags : byte) (text junk sender_pub : bytes) (k : nat) :
  length ts4 = 4%nat ->
  let data := (ts4 ++ [flags]) ++ cstr text ++ replicate k x00 ++ junk in
  let len := 5 + strlen text + Z.of_nat k in
  calc_ack_hash (poke data len x00) sender_pub
  = le32_decode
      (take 4 (sha256_digest
                 (ts4 ++ [flags] ++ cstr text
                  ++ take (Z.to_nat PUB_KEY_SIZE) sender_pub))).
Proof.
  intros H4 data len.
  destruct (received_text (ts4 ++ [flags]) text junk k) as [Hstr Htake].
  { rewrite length_app. simpl. lia. }
  unfold calc_ack_hash, Utils_sha256. fold data len in Hstr, Htake.
  unfold strlen at 1. rewrite Hstr. fold (strlen text). rewrite Htake.
  by rewrite <- !app_assoc.
Qed.

(** C4.  The sender's [expected_ack] is the first 4 bytes of the SHA-256 of
    (4-byte timestamp, flags byte, text, own public key).  A receiver that
    gets this payload (zero padded, in a buffer with arbitrary older
    content behind it) computes the first 4 bytes of the SHA-256 of the
    same fields with the public key it has stored for the sender.  Hence,
    when that stored key is the sender's, the hash the receiver puts in
    its ACK (alone, or carried by a path-return) is [expected_ack]. *)
Theorem ack_matches_expected_ack
    (sender receiver : State) (recipient : ContactInfo) (attempt : Z)
    (text junk key : bytes) (k : nat) (ea0 : Z) (packet : Packet)
    (sender_idx : Z) :
  let timestamp := RTC.getCurrentTime (rtc_clock sender) in
  let flags := byte_of_Z (Z.land attempt 3) in
  let expected_ack :=
    snd (composeMsgPacket sender recipient attempt text ea0) in
  let data :=
    (le32_encode timestamp ++ [flags]) ++ cstr text ++ replicate k x00 ++ junk in
  let len := 5 + strlen text + Z.of_nat k in
  let i := int_at (matching_peer_indexes receiver) sender_idx in
  let from := contact_at receiver i in
  let ack_hash := calc_ack_hash (poke data len x00) (pub_key (id from)) in
  let digest4 pub :=
    le32_decode
      (take 4 (sha256_digest
                 (le32_encode timestamp ++ [flags] ++ cstr text
                  ++ take (Z.to_nat PUB_KEY_SIZE) pub))) in
  strlen text <= MAX_TEXT_LEN ->
  5 < len ->
  0 <= i < num_contacts receiver ->
  expected_ack = digest4 (pub_key (self_id sender))
  /\ ack_hash = digest4 (pub_key (id from))
  /\ (pub_key (id from) = pub_key (self_id sender) -> ack_hash = expected_ack)
  /\ onPeerDataRecv receiver packet PAYLOAD_TYPE_TXT_MSG sender_idx key data len
     = (receiver,
        OnMessageRecv from (route_flood packet) timestamp (cstr text)
        :: (if route_flood packet then
              match createPathReturn (id from) key (path packet)
                      (path_len packet) PAYLOAD_TYPE_ACK
                      (le32_encode ack_hash) with
              | Some p => [Send (SendFlood p 0)]
              | None => []
              end
            else
              match createAck ack_hash with
              | Some ack =>
                  if out_path_len from <? 0 then [Send (SendFlood ack 0)]
                  else [Send (SendDirect ack (out_path from)
                                (out_path_len from) 0)]
              | None => []
              end)).
Proof.
  intros timestamp flags expected_ack data len i from ack_hash digest4
    Hfit Hlen Hi.
  assert (Hsend : expected_ack = digest4 (pub_key (self_id sender))).
  { subst expected_ack.
    rewrite (composeMsgPacket_fits sender recipient attempt text ea0 Hfit).
    simpl. subst digest4 timestamp flags. simpl. done. }
  assert (Hrecv : ack_hash = digest4 (pub_key (id from))).
  { subst ack_hash data len digest4.
    apply (calc_ack_hash_fields (le32_encode timestamp) flags text junk
             (pub_key (id from)) k). done. }
  split; [done|]. split; [done|]. split; [congruence|].
  destruct (received_text (le32_encode timestamp ++ [flags]) text junk k)
    as [Hstr _]; [done|]. fold data len in Hstr.
  unfold onPeerDataRecv. fold i. fold from.
  rewrite bool_decide_eq_true_2 by done.
  destruct (Z.gtb_spec len 5); [|lia]. simpl andb. cbv iota.
  assert ((i <? 0) || (i >=? num_contacts receiver) = false) as ->.
  { apply orb_false_iff. split; [apply Z.ltb_ge; lia|].
    rewrite Z.geb_leb. apply Z.leb_gt. lia. }
  assert (Hflags : byte_at data 4 = flags) by done.
  assert (Hts : le32_decode data = timestamp).
  { transitivity (le32_decode (le32_encode timestamp)); [done|].
    rewrite le32_decode_encode. apply wrap32_small.
    subst timestamp. apply wrap32_range. }
  rewrite Hflags, Hts. subst flags.
  rewrite (proj2 (flags_plain attempt)). simpl Z.eqb. cbv iota.
  rewrite Hstr. fold ack_hash. unfold flood_if. done.
Qed.

Lemma contact_at_lookup (m : State) (i : Z) (c : ContactInfo) :
  contacts m !! Z.to_nat i = Some c -> contact_at m i = c.
Proof. unfold contact_at. by intros ->. Qed.

Lemma contact_at_insert (m : State) (n i : Z) (c : ContactInfo) :
  (Z.to_nat i < length (contacts m))%nat ->
  contact_at (with_contacts m n (<[Z.to_nat i := c]> (contacts m))) i = c.
Proof.
  intros Hi. unfold contact_at; simpl. by rewrite list_lookup_insert_eq.
Qed.

Lemma contact_at_insert_ne (m : State) (n i j : Z) (c : ContactInfo) :
  Z.to_nat i <> Z.to_nat j ->
  contact_at (with_contacts m n (<[Z.to_nat i := c]> (contacts m))) j
  = contact_at m j.
Proof.
  intros Hij. unfold contact_at; simpl. by rewrite list_lookup_insert_ne.
Qed.

(** What [strncpy] and the terminator leave in [name]: the advert's name
    cut to [NAME_SIZE - 1] bytes, then zeros up to the end of the array. *)
Lemma copy_name_closed (src : bytes) :
  let n := Z.to_nat (NAME_SIZE - 1) in
  let shown := take n (cstr src) in
  copy_name src = shown ++ replicate (S n - length shown) x00.
Proof.
  intros n shown. unfold copy_name. fold n.
  rewrite take_app, take_replicate. fold shown.
  change [x00] with (replicate 1 x00).
  rewrite <- app_assoc, <- replicate_add. do 2 f_equal.
  unfold shown. rewrite length_take. lia.
Qed.

Lemma copy_name_length (src : bytes) :
  length (copy_name src) = S (Z.to_nat (NAME_SIZE - 1)).
Proof.
  rewrite copy_name_closed. cbv zeta.
  rewrite length_app, length_replicate, length_take. lia.
Qed.

Lemma copy_name_cstr (src : bytes) :
  cstr (copy_name src) = take (Z.to_nat (NAME_SIZE - 1)) (cstr src).
Proof.
  rewrite copy_name_closed. cbv zeta.
  set (n := Z.to_nat (NAME_SIZE - 1)). set (shown := take n (cstr src)).
  assert (Hlen : (length shown <= n)%nat)
    by (unfold shown; rewrite length_take; lia).
  replace (S n - length shown)%nat with (S (n - length shown)) by lia.
  simpl replicate. apply cstr_app_no_nul.
  intros (a & Ha & _)%elem_of_take. apply list_elem_of_lookup_2 in Ha.
  by apply cstr_no_nul in Ha.
Qed.

(** C5.  An advert is rejected, leaving the contact table as it was and
    without a call of [onDiscoveredContact], when its app_data does not
    parse or lacks a name, or the sender is a known contact (the first
    table entry with the sender's key) whose [last_advert_timestamp] is
    not below the advert's timestamp, or the sender is unknown (no table
    entry has its key) and [num_contacts] has reached MAX_CONTACTS.  Otherwise the sender's
    contact is created in the next free slot (ECDH secret computed,
    [out_path_len = -1]) or the existing one is updated; either way it
    gets the advert's type and timestamp and the advert's name as [strncpy]
    and the terminator leave it (the C string of the name cut to
    [NAME_SIZE - 1] bytes, followed by zeros up to the end of [name], so
    that the C string in [name] is the name cut to [NAME_SIZE - 1] bytes),
    no other contact changes, and [onDiscoveredContact] is called once, with
    [is_new] true exactly when the contact was created. *)
Theorem onAdvertRecv_contract
    (m : State) (packet : Packet) (sender : Identity) (timestamp : Z)
    (app_data : bytes) (app_data_len : Z) :
  wf m ->
  let d := take (Z.to_nat app_data_len) app_data in
  let known :=
    find_index (fun c => matches sender (id c))
      (live (num_contacts m) (contacts m)) 0 in
  let rejected :=
    negb (advert_isValid d && advert_hasName d)
    || match known with
       | Some i => timestamp <=? last_advert_timestamp (contact_at m i)
       | None => MAX_CONTACTS <=? num_contacts m
       end in
  let '(m', fx) :=
    onAdvertRecv m packet sender timestamp app_data app_data_len in
  match known with
  | Some i =>
      0 <= i < num_contacts m /\ id (contact_at m i) = sender
      /\ forall j, 0 <= j < i -> id (contact_at m j) <> sender
  | None => forall j, 0 <= j < num_contacts m -> id (contact_at m j) <> sender
  end
  /\ (rejected = true -> m' = m /\ fx = [])
  /\ (rejected = false ->
      let i := default (num_contacts m) known in
      let c := contact_at m' i in
      let is_new := match known with None => true | Some _ => false end in
      fx = [OnDiscoveredContact c is_new]
      /\ wf m'
      /\ 0 <= i < num_contacts m'
      /\ id c = sender
      /\ name c = copy_name (advert_getName d)
      /\ (let n := Z.to_nat (NAME_SIZE - 1) in
          let shown := take n (cstr (advert_getName d)) in
          name c = shown ++ replicate (S n - length shown) x00
          /\ cstr (name c) = shown
          /\ length (name c) = S n)
      /\ type c = advert_getType d
      /\ last_advert_timestamp c = timestamp
      /\ (forall j, 0 <= j -> j <> i -> contact_at m' j = contact_at m j)
      /\ match known with
         | Some _ =>
             num_contacts m' = num_contacts m
             /\ shared_secret c = shared_secret (contact_at m i)
             /\ out_path_len c = out_path_len (contact_at m i)
             /\ out_path c = out_path (contact_at m i)
         | None =>
             num_contacts m' = num_contacts m + 1
             /\ shared_secret c = calcSharedSecret (self_id m) sender
             /\ out_path_len c = -1
         end).
Proof.
  intros [Hlen Hnum] d known rejected. unfold onAdvertRecv. fold d. fold known.
  subst rejected.
  pose proof (live_length (num_contacts m) (contacts m)) as Hll.
  assert (Hknown :
    match known with
    | Some i =>
        0 <= i < num_contacts m /\ id (contact_at m i) = sender
        /\ forall j, 0 <= j < i -> id (contact_at m j) <> sender
    | None => forall j, 0 <= j < num_contacts m -> id (contact_at m j) <> sender
    end).
  { assert (Hat : forall j, 0 <= j < num_contacts m ->
      live (num_contacts m) (contacts m) !! Z.to_nat j
      = Some (contact_at m j)).
    { intros j Hj. unfold live, contact_at.
      rewrite lookup_take_lt by lia.
      destruct (lookup_lt_is_Some_2 (contacts m) (Z.to_nat j)) as [c ->];
        [lia | done]. }
    destruct known as [i|] eqn:Hfind; subst known.
    - pose proof (find_index_first _ _ _ _ Hfind) as Hfirst.
      apply find_index_Some in Hfind as [Hr (c0 & Hc0 & Hm)].
      rewrite Z.sub_0_r in Hc0.
      assert (Hi : 0 <= i < num_contacts m).
      { apply live_lookup in Hc0 as [_ ?]. lia. }
      rewrite Hat in Hc0 by done. injection Hc0 as <-.
      split; [done|]. split; [symmetry; by apply matches_eq|].
      intros j Hj Heq. specialize (Hfirst j (contact_at m j) ltac:(lia)).
      rewrite Z.sub_0_r, Hat in Hfirst by lia.
      specialize (Hfirst eq_refl). apply matches_false in Hfirst. congruence.
    - apply find_index_None in Hfind. intros j Hj Heq.
      rewrite Forall_lookup in Hfind.
      specialize (Hfind _ _ (Hat j Hj)). apply matches_false in Hfind.
      congruence. }
  destruct (advert_isValid d && advert_hasName d); simpl negb; cbv iota;
    [|split; [done | split; [done | discriminate]]].
  simpl orb.
  destruct known as [i|] eqn:Hfind.
  - pose proof Hknown as (Hi & Hid & _).
    assert (Hin : (Z.to_nat i < length (contacts m))%nat) by lia.
    destruct (timestamp <=? last_advert_timestamp (contact_at m i));
      [split; [done | split; [done | discriminate]]|].
    split; [done|]. split; [discriminate|]. intros _. simpl default.
    unfold store_contact. rewrite contact_at_insert by done.
    pose proof (copy_name_closed (advert_getName d)) as Hclosed.
    pose proof (copy_name_cstr (advert_getName d)) as Hcstr.
    pose proof (copy_name_length (advert_getName d)) as Hnlen.
    repeat split; simpl num_contacts; simpl contacts; try done; try lia.
    + by rewrite length_insert.
    + intros j Hj Hne. apply contact_at_insert_ne. lia.
  - destruct (Z.ltb_spec (num_contacts m) MAX_CONTACTS),
             (Z.leb_spec MAX_CONTACTS (num_contacts m)); try lia;
      [|split; [done | split; [done | discriminate]]].
    split; [done|]. split; [discriminate|]. intros _. simpl default.
    assert (Hin : (Z.to_nat (num_contacts m) < length (contacts m))%nat) by lia.
    rewrite contact_at_insert by done.
    pose proof (copy_name_closed (advert_getName d)) as Hclosed.
    pose proof (copy_name_cstr (advert_getName d)) as Hcstr.
    pose proof (copy_name_length (advert_getName d)) as Hnlen.
    cbn [id name type out_path_len out_path last_advert_timestamp
         shared_secret update_contact].
    repeat split; simpl num_contacts; simpl contacts; try done; try lia.
    + by rewrite length_insert.
    + intros j Hj Hne. apply contact_at_insert_ne. lia.
Qed.

(** *** The send timeout *)

Lemma onAdvertRecv_keeps
    (m : State) (packet : Packet) (sender : Identity) (timestamp : Z)
    (app_data : bytes) (app_data_len : Z) :
  let m' := fst (onAdvertRecv m packet sender timestamp app_data app_data_len) in
  txt_send_timeout m' = txt_send_timeout m
  /\ num_channels m' = num_channels m
  /\ stays_or_grows MAX_CONTACTS (num_contacts m) (num_contacts m').
Proof.
  unfold onAdvertRecv, stays_or_grows.
  destruct (negb _); [simpl; auto|].
  destruct (find_index _ _ _).
  - destruct (_ <=? _); simpl; auto.
  - destruct (Z.ltb_spec (num_contacts m) MAX_CONTACTS); simpl; auto.
Qed.

Lemma onPeerDataRecv_state
    (m : State) (packet : Packet) (ty : PayloadType) (sender_idx : Z)
    (key data : bytes) (len : Z) :
  fst (onPeerDataRecv m packet ty sender_idx key data len) = m.
Proof.
  unfold onPeerDataRecv.
  destruct (_ && _); [|done]. destruct (_ || _); [done|].
  destruct (_ =? _); done.
Qed.

Lemma onGroupDataRecv_state
    (m : State) (packet : Packet) (ty : PayloadType) (channel : GroupChannel)
    (data : bytes) (len : Z) :
  fst (onGroupDataRecv m packet ty channel data len) = m.
Proof. unfold onGroupDataRecv. destruct (_ && _); done. Qed.

(** What [set_out_path] returns when it returns. *)
Lemma chat_set_out_path_Done (c c' : ContactInfo) (p : bytes) (n : Z) :
  set_out_path c p n = Done c' ->
  0 <= n <= MAX_PATH_SIZE /\ n <= Z.of_nat (length p)
  /\ c' = with_out_path c n (blit (out_path c) 0 (take (Z.to_nat n) p)).
Proof.
  unfold set_out_path.
  destruct (Z.leb_spec 0 n); [|done].
  destruct (Z.leb_spec n MAX_PATH_SIZE); [|done].
  destruct (Z.leb_spec n (Z.of_nat (length p))); [|done].
  simpl. intros [= <-]. repeat split; lia || done.
Qed.

Lemma chat_set_out_path_fits (c : ContactInfo) (p : bytes) (n : Z) :
  0 <= n <= MAX_PATH_SIZE -> n <= Z.of_nat (length p) ->
  set_out_path c p n
  = Done (with_out_path c n (blit (out_path c) 0 (take (Z.to_nat n) p))).
Proof.
  intros Hn Hp. unfold set_out_path.
  destruct (Z.leb_spec 0 n); [|lia].
  destruct (Z.leb_spec n MAX_PATH_SIZE); [|lia].
  destruct (Z.leb_spec n (Z.of_nat (length p))); [done | lia].
Qed.

(** What [onPeerPathRecv] returns when it returns. *)
Lemma chat_onPeerPathRecv_Done
    (m m' : State) (packet : Packet) (sender_idx : Z) (key new_path : bytes)
    (new_path_len : Z) (extra_type : PayloadType) (extra : bytes)
    (extra_len : Z) (fx : list Effect) (b : bool) :
  onPeerPathRecv m packet sender_idx key new_path new_path_len extra_type
    extra extra_len = Done (m', fx, b) ->
  let i := int_at (matching_peer_indexes m) sender_idx in
  (~ 0 <= i < num_contacts m /\ m' = m /\ fx = [] /\ b = false)
  \/ (0 <= i < num_contacts m
      /\ 0 <= new_path_len <= MAX_PATH_SIZE
      /\ new_path_len <= Z.of_nat (length new_path)
      /\ m' = path_stored m i new_path new_path_len extra_type extra extra_len
      /\ fx = [OnContactPathUpdated
                 (with_out_path (contact_at m i) new_path_len
                    (blit (out_path (contact_at m i)) 0
                       (take (Z.to_nat new_path_len) new_path)))]
      /\ b = true).
Proof.
  intros Hrun i. unfold onPeerPathRecv in Hrun. fold i in Hrun.
  destruct (Z.ltb_spec i 0); simpl in Hrun.
  { injection Hrun as <- <- <-. left. repeat split; lia || done. }
  destruct (Z.geb_spec i (num_contacts m)); simpl in Hrun.
  { injection Hrun as <- <- <-. left. repeat split; lia || done. }
  destruct (set_out_path _ _ _) as [from|] eqn:Hset; [|done].
  apply chat_set_out_path_Done in Hset as (Hn & Hp & ->).
  injection Hrun as <- <- <-. right. repeat split; lia || done.
Qed.

Lemma chat_onPeerPathRecv_fits
    (m : State) (packet : Packet) (sender_idx : Z) (key new_path : bytes)
    (new_path_len : Z) (extra_type : PayloadType) (extra : bytes)
    (extra_len : Z) :
  let i := int_at (matching_peer_indexes m) sender_idx in
  0 <= i < num_contacts m ->
  0 <= new_path_len <= MAX_PATH_SIZE ->
  new_path_len <= Z.of_nat (length new_path) ->
  onPeerPathRecv m packet sender_idx key new_path new_path_len extra_type
    extra extra_len
  = Done (path_stored m i new_path new_path_len extra_type extra extra_len,
          [OnContactPathUpdated
             (with_out_path (contact_at m i) new_path_len
                (blit (out_path (contact_at m i)) 0
                   (take (Z.to_nat new_path_len) new_path)))],
          true).
Proof.
  intros i Hi Hn Hp. unfold onPeerPathRecv. fold i.
  destruct (Z.ltb_spec i 0); [lia|].
  destruct (Z.geb_spec i (num_contacts m)); [lia|]. simpl orb. cbv iota.
  by rewrite chat_set_out_path_fits.
Qed.

Lemma path_stored_fields
    (m : State) (i : Z) (new_path : bytes) (new_path_len : Z)
    (extra_type : PayloadType) (extra : bytes) (extra_len : Z) :
  let m' := path_stored m i new_path new_path_len extra_type extra extra_len in
  self_id m' = self_id m
  /\ num_contacts m' = num_contacts m /\ num_channels m' = num_channels m
  /\ channels m' = channels m
  /\ contacts m'
     = <[Z.to_nat i :=
           with_out_path (contact_at m i) new_path_len
             (blit (out_path (contact_at m i)) 0
                (take (Z.to_nat new_path_len) new_path))]> (contacts m)
  /\ (txt_send_timeout m'
      = if bool_decide (extra_type = PAYLOAD_TYPE_ACK) && (extra_len >=? 4)
           && processAck extra
        then 0 else txt_send_timeout m).
Proof.
  unfold path_stored.
  destruct (bool_decide _ && _); [destruct (processAck extra)|]; done.
Qed.

(** What an upcall does to the timer, for an application that awaits the
    ACK [awaited]. *)
Lemma upcall_timer (awaited : Z) (m m' : State) (u : Upcall)
    (fx : list Effect) :
  (forall b, processAck b = true <-> take 4 b = le32_encode awaited) ->
  upcall m u = Done (m', fx) ->
  (carries_ack awaited m u -> txt_send_timeout m' = 0)
  /\ (~ carries_ack awaited m u -> txt_send_timeout m' = txt_send_timeout m).
Proof.
  intros Happ.
  destruct u as [h|p s t d n|p ty i k d n|p i k np nl et e el|p c|p ty ch d n];
    simpl.
  - intros [= <- _]. done.
  - intros [= Hrun]. split; [done|]. intros _.
    pose proof (onAdvertRecv_keeps m p s t d n) as (Ht & _).
    by rewrite Hrun in Ht.
  - intros [= Hrun]. split; [done|]. intros _.
    pose proof (onPeerDataRecv_state m p ty i k d n) as Hs.
    rewrite Hrun in Hs. simpl in Hs. by subst m'.
  - destruct (onPeerPathRecv m p i k np nl et e el) as [[[m1 fx1] b]|] eqn:Hrun;
      [|done].
    intros [= <- <-].
    apply chat_onPeerPathRecv_Done in Hrun
      as [(Hbad & -> & _)|(Hi & _ & _ & -> & _)].
    + split; [by intros (? & _) | done].
    + pose proof (path_stored_fields m (int_at (matching_peer_indexes m) i)
                    np nl et e el) as (_ & _ & _ & _ & _ & ->).
      destruct (decide (et = PAYLOAD_TYPE_ACK)) as [->|Hne].
      2: { rewrite bool_decide_eq_false_2 by done. simpl.
           split; [by intros (_ & ? & _) | done]. }
      rewrite bool_decide_eq_true_2 by done. simpl andb.
      destruct (Z.geb_spec el 4) as [Hel|Hel]; simpl andb.
      2: { split; [intros (_ & _ & ? & _); lia | done]. }
      destruct (processAck e) eqn:Hack.
      * split; [done|]. intros Hno. destruct Hno.
        repeat split; try done; try lia. by apply Happ.
      * split; [|done]. intros (_ & _ & _ & Hm). apply Happ in Hm. congruence.
  - intros [= Hrun]. unfold onAckRecv in Hrun.
    destruct (processAck (le32_encode c)) eqn:Hack.
    + injection Hrun as <- _. split; [done|]. intros Hno. destruct Hno.
      apply Happ in Hack. by rewrite take_ge in Hack by (by cbv).
    + injection Hrun as <- _. split; [|done]. intros Hm.
      assert (processAck (le32_encode c) = true); [|congruence].
      apply Happ. by rewrite take_ge by (by cbv).
  - intros [= Hrun]. split; [done|]. intros _.
    pose proof (onGroupDataRecv_state m p ty ch d n) as Hs.
    rewrite Hrun in Hs. simpl in Hs. by subst m'.
Qed.


Lemma Mesh_loop_cons (m m2 : State) (u : Upcall) (rest : list Upcall)
    (fx : list Effect) :
  Mesh_loop m (u :: rest) = Done (m2, fx) ->
  exists m1 fx1 fx2,
    upcall m u = Done (m1, fx1) /\ Mesh_loop m1 rest = Done (m2, fx2)
    /\ fx = fx1 ++ fx2.
Proof.
  simpl. destruct (upcall m u) as [[m1 fx1]|]; [|done].
  destruct (Mesh_loop m1 rest) as [[m2' fx2]|] eqn:Hrest; [|done].
  intros [= <- <-]. by exists m1, fx1, fx2.
Qed.

Lemma Mesh_loop_app (pre post : list Upcall) (m m2 : State)
    (fx : list Effect) :
  Mesh_loop m (pre ++ post) = Done (m2, fx) ->
  exists m1 fx1 fx2,
    Mesh_loop m pre = Done (m1, fx1) /\ Mesh_loop m1 post = Done (m2, fx2)
    /\ fx = fx1 ++ fx2.
Proof.
  revert m fx. induction pre as [|u pre IH]; intros m fx Hrun.
  - by exists m, [], fx.
  - change ((u :: pre) ++ post) with (u :: (pre ++ post)) in Hrun.
    apply Mesh_loop_cons in Hrun as (m1 & fx1 & fx2 & Hu & Hrest & ->).
    apply IH in Hrest as (m1' & fx1' & fx2' & Hpre & Hpost & ->).
    exists m1', (fx1 ++ fx1'), fx2'. simpl. rewrite Hu, Hpre.
    by rewrite app_assoc.
Qed.

(** The upcalls of an iteration leave the timer alone, or clear it because
    one of them delivers the awaited ACK; once cleared it stays cleared. *)
Lemma Mesh_loop_timer (awaited : Z) (inbound : list Upcall) (m m' : State)
    (fx : list Effect) :
  (forall b, processAck b = true <-> take 4 b = le32_encode awaited) ->
  Mesh_loop m inbound = Done (m', fx) ->
  (txt_send_timeout m = 0 -> txt_send_timeout m' = 0)
  /\ (txt_send_timeout m' = txt_send_timeout m
      \/ (txt_send_timeout m' = 0
          /\ exists pre u post m0 fx0,
               inbound = pre ++ u :: post
               /\ Mesh_loop m pre = Done (m0, fx0)
               /\ carries_ack awaited m0 u)).
Proof.
  intros Happ. revert m fx.
  induction inbound as [|u rest IH]; intros m fx Hrun.
  - injection Hrun as <- _. auto.
  - apply Mesh_loop_cons in Hrun as (m1 & fx1 & fx2 & Hu & Hrest & ->).
    destruct (IH m1 fx2 Hrest) as [Hzero Hcases].
    destruct (upcall_timer awaited m m1 u fx1 Happ Hu) as [Hyes Hno].
    destruct (decide (carries_ack awaited m u)) as [Hack|Hnack].
    + specialize (Hyes Hack). split; [auto|]. right. split; [auto|].
      exists [], u, rest, m, []. done.
    + specialize (Hno Hnack). split; [intros Hz; apply Hzero; congruence|].
      destruct Hcases as [Hsame|(Hz & pre & u0 & post & m0 & fx0 & -> & Hpre & Hack)].
      * left. congruence.
      * right. split; [done|].
        exists (u :: pre), u0, post, m0, (fx1 ++ fx0). split; [done|].
        split; [|done]. simpl. by rewrite Hu, Hpre.
Qed.


Lemma check_send_timeout_cases (m : State) (millis : Z) :
  (txt_send_timeout m <> 0
   /\ millisHasNowPassed millis (txt_send_timeout m) = true
   /\ check_send_timeout m millis = (with_timeout m 0, [OnSendTimeout]))
  \/ ((txt_send_timeout m = 0
       \/ millisHasNowPassed millis (txt_send_timeout m) = false)
      /\ check_send_timeout m millis = (m, [])).
Proof.
  unfold check_send_timeout.
  destruct (Z.eqb_spec (txt_send_timeout m) 0) as [Hz|Hnz]; simpl.
  - right. auto.
  - destruct (millisHasNowPassed _ _); [left | right]; auto.
Qed.

Lemma loop_eq (m m1 : State) (inbound : list Upcall) (millis : Z)
    (fx1 : list Effect) :
  Mesh_loop m inbound = Done (m1, fx1) ->
  loop m inbound millis
  = Done (fst (check_send_timeout m1 millis),
          fx1 ++ snd (check_send_timeout m1 millis)).
Proof.
  intros Hrun. unfold loop. rewrite Hrun.
  by destruct (check_send_timeout m1 millis).
Qed.

Lemma loop_Done (m m' : State) (inbound : list Upcall) (millis : Z)
    (fx : list Effect) :
  loop m inbound millis = Done (m', fx) ->
  exists m1 fx1,
    Mesh_loop m inbound = Done (m1, fx1)
    /\ m' = fst (check_send_timeout m1 millis)
    /\ fx = fx1 ++ snd (check_send_timeout m1 millis).
Proof.
  unfold loop. destruct (Mesh_loop m inbound) as [[m1 fx1]|]; [|done].
  destruct (check_send_timeout m1 millis) as [m2 fx2] eqn:Hcheck.
  intros [= <- <-]. exists m1, fx1. by rewrite Hcheck.
Qed.

Lemma sendMessage_timeout
    (m : State) (millis : Z) (recipient : ContactInfo) (attempt : Z)
    (text : bytes) (expected_ack : Z) :
  let '(m', _, rc, _) :=
    sendMessage m millis recipient attempt text expected_ack in
  num_contacts m' = num_contacts m /\ num_channels m' = num_channels m
  /\ ((rc = MSG_SEND_FAILED /\ m' = m)
      \/ (rc <> MSG_SEND_FAILED
          /\ exists delay, txt_send_timeout m' = futureMillis millis delay)).
Proof.
  unfold sendMessage.
  destruct (composeMsgPacket _ _ _ _ _) as [[pkt|] ack]; [|auto].
  destruct (_ <? _); simpl; (split; [done|split; [done|]]); right;
    (split; [done | by eexists]).
Qed.

(** What [addChannel] returns when it returns. *)
Lemma addChannel_Done (m m' : State) (psk : bytes) (r : option Z) :
  addChannel m psk = Done (m', r) ->
  self_id m' = self_id m
  /\ num_contacts m' = num_contacts m /\ contacts m' = contacts m
  /\ txt_send_timeout m' = txt_send_timeout m
  /\ stays_or_grows MAX_GROUP_CHANNELS (num_channels m) (num_channels m')
  /\ (num_channels m < MAX_GROUP_CHANNELS ->
      (length (decode_base64 (cstr psk)) <= sizeof_secret)%nat).
Proof.
  unfold addChannel, stays_or_grows.
  destruct (Z.ltb_spec (num_channels m) MAX_GROUP_CHANNELS).
  2: { intros [= <- _]. repeat split; auto. lia. }
  destruct (Nat.ltb_spec sizeof_secret (length (decode_base64 (cstr psk))));
    [done|].
  destruct (_ || _); intros [= <- _]; simpl; repeat split; auto.
Qed.

Lemma addChannel_fits (m : State) (psk : bytes) :
  (length (decode_base64 (cstr psk)) <= sizeof_secret)%nat ->
  exists m' r, addChannel m psk = Done (m', r).
Proof.
  intros Hfit. unfold addChannel.
  destruct (_ <? _); [|by eexists _, _].
  destruct (Nat.ltb_spec sizeof_secret (length (decode_base64 (cstr psk))));
    [lia|].
  destruct (_ || _); by eexists _, _.
Qed.

(** C8.  For an application whose [processAck] accepts exactly the four
    bytes of the hash it awaits, the one [sendMessage] returned.  The armed
    send timeout is cleared before it fires by an upcall that delivers
    that ACK, and by nothing else: [onAckRecv] with these four bytes, or
    [onPeerPathRecv] from a known contact with an ACK extra of at least 4
    bytes that starts with them, clear it; every other upcall, an ACK with
    other bytes included, and every other call ([addContact],
    [addChannel], [resetPathTo], [scanRecentContacts], ...) leave the timer
    as it is, and [sendMessage] either fails without touching it or arms
    it with a new deadline.  An iteration of [loop] that delivers the
    awaited ACK ends with the timer cleared and without a call of
    [onSendTimeout].  When the timer has expired, [loop] calls
    [onSendTimeout] once after the upcalls of the iteration, clears the
    timer and hands nothing to the router; later iterations do not fire
    again.  All of this in runs in which no call writes past an array. *)
Theorem send_timeout_cancellation (awaited : Z) :
  (forall b, processAck b = true <-> take 4 b = le32_encode awaited) ->
  (forall (m m' : State) (u : Upcall) (fx : list Effect),
     upcall m u = Done (m', fx) ->
     (carries_ack awaited m u -> txt_send_timeout m' = 0)
     /\ (~ carries_ack awaited m u ->
         txt_send_timeout m' = txt_send_timeout m))
  /\ (forall (m m1 : State) (inbound : list Upcall) (millis : Z)
             (fx1 : list Effect),
        Mesh_loop m inbound = Done (m1, fx1) ->
        txt_send_timeout m1 = 0
          \/ millisHasNowPassed millis (txt_send_timeout m1) = false ->
        loop m inbound millis = Done (m1, fx1)
        /\ (txt_send_timeout m1 = txt_send_timeout m
            \/ (txt_send_timeout m1 = 0
                /\ exists pre u post m0 fx0,
                     inbound = pre ++ u :: post
                     /\ Mesh_loop m pre = Done (m0, fx0)
                     /\ carries_ack awaited m0 u)))
  /\ (forall (m m0 m1 : State) (pre post : list Upcall) (u : Upcall)
             (millis : Z) (fx0 fx1 : list Effect),
        Mesh_loop m pre = Done (m0, fx0) ->
        carries_ack awaited m0 u ->
        Mesh_loop m (pre ++ u :: post) = Done (m1, fx1) ->
        txt_send_timeout m1 = 0
        /\ loop m (pre ++ u :: post) millis = Done (m1, fx1))
  /\ (forall (m m1 : State) (inbound : list Upcall) (millis : Z)
             (fx1 : list Effect),
        Mesh_loop m inbound = Done (m1, fx1) ->
        txt_send_timeout m1 <> 0 ->
        millisHasNowPassed millis (txt_send_timeout m1) = true ->
        loop m inbound millis
        = Done (with_timeout m1 0, fx1 ++ [OnSendTimeout])
        /\ forall millis',
             loop (with_timeout m1 0) [] millis'
             = Done (with_timeout m1 0, []))
  /\ (forall (m m' : State) (op : Op) (fx : list Effect),
        step m op = Done (m', fx) ->
        match op with
        | OpLoop _ _ | OpSendMessage _ _ _ _ _ => True
        | _ => txt_send_timeout m' = txt_send_timeout m
        end)
  /\ (forall (m : State) (millis : Z) (recipient : ContactInfo) (attempt : Z)
             (text : bytes) (expected_ack : Z),
        let '(m', _, rc, _) :=
          sendMessage m millis recipient attempt text expected_ack in
        (rc = MSG_SEND_FAILED /\ m' = m)
        \/ (rc <> MSG_SEND_FAILED
            /\ exists delay, txt_send_timeout m' = futureMillis millis delay))
  /\ (forall (m0 m : State) (millis : Z) (recipient : ContactInfo)
             (attempt : Z) (text : bytes) (expected_ack : Z)
             (fx : list Effect) (rc : MsgSendResult) (packet : Packet),
        sendMessage m0 millis recipient attempt text expected_ack
        = (m, fx, rc, awaited) ->
        rc <> MSG_SEND_FAILED ->
        onAckRecv m packet awaited
        = (with_timeout m 0, [MarkDoNotRetransmit packet])
        /\ forall ack_crc, le32_encode ack_crc <> le32_encode awaited ->
             onAckRecv m packet ack_crc = (m, [])).
Proof.
  intros Happ.
  split; [intros m m' u fx; by apply upcall_timer|].
  split.
  { intros m m1 inbound millis fx1 Hrun Hnot.
    rewrite (loop_eq _ _ _ _ _ Hrun).
    destruct (check_send_timeout_cases m1 millis)
      as [(Hnz & Hexp & _)|[_ ->]].
    - destruct Hnot; congruence.
    - simpl. rewrite app_nil_r. split; [done|].
      by apply (Mesh_loop_timer awaited inbound m m1 fx1 Happ). }
  split.
  { intros m m0 m1 pre post u millis fx0 fx1 Hpre Hack Hrun.
    assert (Hzero : txt_send_timeout m1 = 0).
    { apply Mesh_loop_app in Hrun as (m0' & fx0' & fx2 & Hpre' & Hrest & _).
      rewrite Hpre in Hpre'. injection Hpre' as <- <-.
      apply Mesh_loop_cons in Hrest as (m2 & fx2a & fx2b & Hu & Hpost & _).
      destruct (upcall_timer awaited m0 m2 u fx2a Happ Hu) as [Hyes _].
      by apply (Mesh_loop_timer awaited post m2 m1 fx2b Happ Hpost), Hyes. }
    split; [done|]. rewrite (loop_eq _ _ _ _ _ Hrun).
    unfold check_send_timeout. rewrite Hzero. simpl. by rewrite app_nil_r. }
  split.
  { intros m m1 inbound millis fx1 Hrun Hnz Hexp.
    rewrite (loop_eq _ _ _ _ _ Hrun).
    destruct (check_send_timeout_cases m1 millis)
      as [(_ & _ & ->)|[[Hz|Hno] _]]; [|done|congruence].
    split; [done|]. intros millis'. done. }
  split.
  { intros m m' [inbound millis|millis r a t e|i|c|psk|last_n|prefix|nm] fx;
      simpl; try done.
    - intros [= <- _]. unfold resetPathTo_at. by destruct (_ && _).
    - intros [= <- _]. unfold addContact. by destruct (_ <? _).
    - destruct (addChannel m psk) as [[m1 r]|] eqn:Hadd; [|done].
      intros [= <- _]. by apply addChannel_Done in Hadd as (_ & _ & _ & ? & _).
    - intros [= <- _]. done.
    - by intros [= <- _].
    - by intros [= <- _]. }
  split.
  { intros m millis recipient attempt text expected_ack.
    pose proof (sendMessage_timeout m millis recipient attempt text
                  expected_ack) as Hs.
    destruct (sendMessage _ _ _ _ _ _) as [[[m' fx] rc] ack]. apply Hs. }
  intros m0 m millis recipient attempt text expected_ack fx rc packet _ _.
  assert (Hyes : processAck (le32_encode awaited) = true).
  { apply Happ. by rewrite take_ge by (by cbv). }
  unfold onAckRecv. rewrite Hyes. split; [done|].
  intros ack_crc Hne.
  destruct (processAck (le32_encode ack_crc)) eqn:Hack; [|done].
  apply Happ in Hack. by rewrite take_ge in Hack by (by cbv).
Qed.

(** *** The contact and channel counts *)


Lemma addChannel_Overrun (m : State) (psk : bytes) :
  addChannel m psk = Overrun ->
  num_channels m < MAX_GROUP_CHANNELS
  /\ (sizeof_secret < length (decode_base64 (cstr psk)))%nat.
Proof.
  unfold addChannel.
  destruct (Z.ltb_spec (num_channels m) MAX_GROUP_CHANNELS); [|done].
  destruct (Nat.ltb_spec sizeof_secret (length (decode_base64 (cstr psk))));
    [done|].
  by destruct (_ || _).
Qed.

Lemma chat_onPeerPathRecv_Overrun
    (m : State) (packet : Packet) (sender_idx : Z) (key new_path : bytes)
    (new_path_len : Z) (extra_type : PayloadType) (extra : bytes)
    (extra_len : Z) :
  onPeerPathRecv m packet sender_idx key new_path new_path_len extra_type
    extra extra_len = Overrun ->
  0 <= int_at (matching_peer_indexes m) sender_idx < num_contacts m
  /\ ~ (0 <= new_path_len <= MAX_PATH_SIZE
        /\ new_path_len <= Z.of_nat (length new_path)).
Proof.
  unfold onPeerPathRecv.
  destruct (Z.ltb_spec (int_at (matching_peer_indexes m) sender_idx) 0);
    [done|].
  destruct (Z.geb_spec (int_at (matching_peer_indexes m) sender_idx)
              (num_contacts m)); [done|]. simpl orb. cbv iota.
  destruct (set_out_path _ _ _) as [c'|] eqn:Hset; [done|].
  intros _. split; [lia|]. intros [Hn Hp].
  unfold set_out_path in Hset.
  destruct (Z.leb_spec 0 new_path_len); [|lia].
  destruct (Z.leb_spec new_path_len MAX_PATH_SIZE); [|lia].
  destruct (Z.leb_spec new_path_len (Z.of_nat (length new_path)));
    [done | lia].
Qed.

(** An iteration that writes past an array does so in the first path
    upcall that does not fit. *)
Lemma Mesh_loop_Overrun (inbound : list Upcall) (m : State) :
  Mesh_loop m inbound = Overrun ->
  exists pre m1 fx1 packet sender_idx key new_path new_path_len
         extra_type extra extra_len post,
    inbound
    = pre ++ UpPeerPath packet sender_idx key new_path new_path_len
               extra_type extra extra_len :: post
    /\ Mesh_loop m pre = Done (m1, fx1)
    /\ 0 <= int_at (matching_peer_indexes m1) sender_idx < num_contacts m1
    /\ ~ (0 <= new_path_len <= MAX_PATH_SIZE
          /\ new_path_len <= Z.of_nat (length new_path)).
Proof.
  revert m. induction inbound as [|u rest IH]; intros m; [done|].
  simpl. destruct (upcall m u) as [[m1 fx1]|] eqn:Hu.
  - destruct (Mesh_loop m1 rest) as [[m2 fx2]|] eqn:Hrest; [done|].
    intros _.
    destruct (IH m1 Hrest)
      as (pre & m3 & fx3 & pk & si & k & np & nl & et & e & el & post
          & -> & Hpre & Hi & Hbad).
    exists (u :: pre), m3, (fx1 ++ fx3), pk, si, k, np, nl, et, e, el, post.
    split; [done|]. split; [|done]. simpl. by rewrite Hu, Hpre.
  - intros _.
    destruct u as [h|p s t d n|p ty i k d n|p i k np nl et e el|p c|p ty ch d n];
      simpl in Hu; try done.
    destruct (onPeerPathRecv m p i k np nl et e el) as [[[m1 fx1] b]|] eqn:Hrun;
      [done|].
    apply chat_onPeerPathRecv_Overrun in Hrun as [Hi Hbad].
    by exists [], m, [], p, i, k, np, nl, et, e, el, rest.
Qed.

Lemma loop_Overrun (m : State) (inbound : list Upcall) (millis : Z) :
  loop m inbound millis = Overrun -> Mesh_loop m inbound = Overrun.
Proof.
  unfold loop. destruct (Mesh_loop m inbound) as [[m1 fx1]|]; [|done].
  by destruct (check_send_timeout m1 millis).
Qed.



End ChatProperties.

(** ** Both applications *)


(** C1, as amended.  In the repeater's [onPeerDataRecv], a packet (REQ,
    TXT_MSG or other) whose leading 4-byte timestamp is less than or equal
    to the sender's stored [last_timestamp] is dropped: nothing is sent, so
    no ACK and no reply, and the state is the one before.
    [BaseChatMesh::onPeerDataRecv] keeps no message timestamp per contact
    and has no such guard: it never changes the node's state, and it hands
    every plain text of more than 5 bytes from a known contact to
    [onMessageRecv] and then acknowledges it (by path-return for a flood,
    else by an ACK sent direct or as a flood, when the packet can be
    built), whatever its timestamp. *)
Theorem replay_rejection `{MeshEnv}
    (m : Repeater.MyMesh) (c : BaseChatMesh.State) (packet : Packet)
    (type : PayloadType) (sender_idx : Z) (key data : bytes) (len : Z) :
  le32_decode data
    <= Repeater.last_timestamp
         (Repeater.client_at m
            (int_at (Repeater.matching_peer_indexes m) sender_idx)) ->
  Repeater.onPeerDataRecv m packet type sender_idx key data len = Done (m, [])
  /\ fst (BaseChatMesh.onPeerDataRecv c packet type sender_idx key data len) = c
  /\ (let i := int_at (BaseChatMesh.matching_peer_indexes c) sender_idx in
      type = PAYLOAD_TYPE_TXT_MSG -> 5 < len ->
      0 <= i < BaseChatMesh.num_contacts c ->
      Z.shiftr (byte_to_Z (byte_at data 4)) 2 = 0 ->
      let from := BaseChatMesh.contact_at c i in
      let ack_hash :=
        calc_ack_hash (poke data len x00) (pub_key (BaseChatMesh.id from)) in
      snd (BaseChatMesh.onPeerDataRecv c packet type sender_idx key data len)
      = BaseChatMesh.OnMessageRecv from (route_flood packet) (le32_decode data)
          (cstr (drop 5 (poke data len x00)))
        :: (if route_flood packet then
              match createPathReturn (BaseChatMesh.id from) key (path packet)
                      (path_len packet) PAYLOAD_TYPE_ACK
                      (le32_encode ack_hash) with
              | Some p => [BaseChatMesh.Send (SendFlood p 0)]
              | None => []
              end
            else
              match createAck ack_hash with
              | Some ack =>
                  if BaseChatMesh.out_path_len from <? 0 then
                    [BaseChatMesh.Send (SendFlood ack 0)]
                  else
                    [BaseChatMesh.Send
                       (SendDirect ack (BaseChatMesh.out_path from)
                          (BaseChatMesh.out_path_len from) 0)]
              | None => []
              end)).
Proof.
  intros Hts. split; [by apply repeater_replay_dropped|].
  split; [apply onPeerDataRecv_state|].
  intros i -> Hlen Hi Hflags. unfold BaseChatMesh.onPeerDataRecv. fold i.
  rewrite bool_decide_eq_true_2 by done.
  destruct (Z.gtb_spec len 5); [|lia]. simpl andb. cbv iota.
  assert ((i <? 0) || (i >=? BaseChatMesh.num_contacts c) = false) as ->.
  { apply orb_false_iff. split; [apply Z.ltb_ge; lia|].
    rewrite Z.geb_leb. apply Z.leb_gt. lia. }
  rewrite Hflags. simpl Z.eqb. cbv iota. unfold BaseChatMesh.flood_if. done.
Qed.

(** ** Concrete runs *)

(** C1 fails for [BaseChatMesh::onPeerDataRecv]: a text with timestamp 0,
    which is not above any stored timestamp, is delivered and acknowledged,
    and so is every later copy of it, since the state does not change. *)
Lemma chat_acks_replayed_text :
  let data := text_payload 0 x00 "hi" in
  let run :=
    BaseChatMesh.onPeerDataRecv (H := test_env) chat_with_alice
      (direct_packet PAYLOAD_TYPE_TXT_MSG data) PAYLOAD_TYPE_TXT_MSG 0 []
      data 7 in
  le32_decode data = 0
  /\ le32_decode data
     <= BaseChatMesh.last_advert_timestamp
          (BaseChatMesh.contact_at chat_with_alice 0)
  /\ fst run = chat_with_alice
  /\ snd run
     = [BaseChatMesh.OnMessageRecv (BaseChatMesh.contact_at chat_with_alice 0)
          false 0 (lit "hi");
        BaseChatMesh.Send
          (SendFlood (test_packet PAYLOAD_TYPE_ACK false
                        (take 4 (text_payload 0 x00 "hi"))) 0)].
Proof.
  intros data run. split; [reflexivity|]. split; [by_evaluation|].
  split; vm_compute; reflexivity.
Qed.

Lemma replay_rejection_witness :
  let data := text_payload 5 x00 "ver" in
  le32_decode data
    <= Repeater.last_timestamp (Repeater.client_at repeater_with_alice 0)
  /\ Repeater.onPeerDataRecv (H := test_env) repeater_with_alice
       (direct_packet PAYLOAD_TYPE_TXT_MSG data) PAYLOAD_TYPE_TXT_MSG 0 []
       data 8
     = Done (repeater_with_alice, []).
Proof.
  intros data.
  assert (Hts : le32_decode data
                <= Repeater.last_timestamp
                     (Repeater.client_at repeater_with_alice
                        (int_at (Repeater.matching_peer_indexes
                                   repeater_with_alice) 0)))
    by by_evaluation.
  split; [exact Hts|].
  exact (proj1 (replay_rejection (H := test_env) repeater_with_alice
                  chat_with_alice (direct_packet PAYLOAD_TYPE_TXT_MSG data)
                  PAYLOAD_TYPE_TXT_MSG 0 [] data 8 Hts)).
Defined.

(** C2 fails at timestamp 0 from an unknown sender: the request is dropped
    without a reply, yet [putClient] has already entered the sender. *)
Lemma anon_req_replay_still_inserts :
  let data := login_request 0 in
  let run :=
    Repeater.onAnonDataRecv (H := test_env) fresh_repeater
      (direct_packet PAYLOAD_TYPE_ANON_REQ data) PAYLOAD_TYPE_ANON_REQ alice
      data 12 in
  take 8 (drop 4 data) = Repeater.ADMIN_PASSWORD
  /\ le32_decode data
     <= Repeater.last_timestamp (Repeater.client_at (fst run) 0)
  /\ snd run = []
  /\ Repeater.num_clients fresh_repeater = 0
  /\ Repeater.num_clients (fst run) = 1
  /\ Repeater.id (Repeater.client_at (fst run) 0) = alice
  /\ fst run <> fresh_repeater.
Proof.
  intros data run. split; [reflexivity|]. split; [by_evaluation|].
  do 4 (split; [vm_compute; reflexivity|]).
  intros Heq. apply (f_equal Repeater.num_clients) in Heq.
  vm_compute in Heq. discriminate.
Qed.

Lemma anon_req_login_witness :
  let data := login_request 5 in
  let packet := direct_packet PAYLOAD_TYPE_ANON_REQ data in
  Repeater.wf fresh_repeater
  /\ take 8 (drop 4 data) = Repeater.ADMIN_PASSWORD
  /\ Repeater.putClient (H := test_env) fresh_repeater alice
     = (fst (Repeater.putClient (H := test_env) fresh_repeater alice), Some 0)
  /\ exists m',
       Repeater.onAnonDataRecv (H := test_env) fresh_repeater packet
         PAYLOAD_TYPE_ANON_REQ alice data 12
       = (m', [Repeater.Send
                 (SendFlood (test_packet PAYLOAD_TYPE_RESPONSE false
                               (le32_encode 1000 ++ lit "OK")) 0)])
       /\ Repeater.last_timestamp (Repeater.client_at m' 0) = 5.
Proof.
  intros data packet.
  assert (Hwf : Repeater.wf fresh_repeater) by (split; by_evaluation).
  assert (Hpw : take 8 (drop 4 data) = Repeater.ADMIN_PASSWORD) by reflexivity.
  assert (Hput : Repeater.putClient (H := test_env) fresh_repeater alice
                 = (fst (Repeater.putClient (H := test_env) fresh_repeater alice),
                    Some 0)) by reflexivity.
  split; [exact Hwf|]. split; [exact Hpw|]. split; [exact Hput|].
  destruct (anon_req_login (H := test_env) fresh_repeater _ packet alice data
              12 0 Hwf Hpw Hput) as [Hnew _].
  destruct Hnew as (m' & Hrun & _ & _ & Hslot & _); [by_evaluation|].
  exists m'. split; [exact Hrun|]. rewrite Hslot. reflexivity.
Defined.

Lemma anon_req_wrong_password_ignored_witness :
  let data := le32_encode 7 ++ lit "password" in
  take 8 (drop 4 data) <> Repeater.ADMIN_PASSWORD
  /\ Repeater.onAnonDataRecv (H := test_env) fresh_repeater
       (direct_packet PAYLOAD_TYPE_ANON_REQ data) PAYLOAD_TYPE_ANON_REQ alice
       data 12
     = (fresh_repeater, []).
Proof.
  intros data.
  assert (Hpw : take 8 (drop 4 data) <> Repeater.ADMIN_PASSWORD)
    by (vm_compute; discriminate).
  split; [exact Hpw|].
  exact (anon_req_wrong_password_ignored (H := test_env) fresh_repeater
           (direct_packet PAYLOAD_TYPE_ANON_REQ data) PAYLOAD_TYPE_ANON_REQ
           alice data 12 Hpw).
Defined.

(** C9 fails on the packet type: the reply to a CLI text is built as a
    TXT_MSG datagram, not as a RESPONSE. *)
Lemma cli_reply_is_a_txt_msg :
  let data := text_payload 2000 x00 "ver" in
  exists m' ack reply,
    Repeater.onPeerDataRecv (H := test_env) repeater_with_alice
      (direct_packet PAYLOAD_TYPE_TXT_MSG data) PAYLOAD_TYPE_TXT_MSG 0 []
      data 8
    = Done (m',
            [Repeater.Send (SendFlood ack 0);
             Repeater.Send (SendFlood reply Repeater.CLI_REPLY_DELAY_MILLIS)])
    /\ payload reply = le32_encode 1000 ++ [x00] ++ Repeater.FIRMWARE_VER_TEXT
    /\ payload_type reply = PAYLOAD_TYPE_TXT_MSG
    /\ payload_type reply <> PAYLOAD_TYPE_RESPONSE.
Proof.
  intros data. eexists _, _, _. split; [reflexivity|].
  split; [reflexivity|]. split; [reflexivity | discriminate].
Qed.

Lemma cli_reply_timestamp_witness :
  let data := text_payload 1000 x00 "ver" in
  0 <= int_at (Repeater.matching_peer_indexes repeater_with_alice) 0
    < Repeater.num_clients repeater_with_alice
  /\ byte_at data 4 = x00
  /\ Repeater.last_timestamp (Repeater.client_at repeater_with_alice 0)
     < le32_decode data
  /\ exists m' ack reply,
       Repeater.onPeerDataRecv (H := test_env) repeater_with_alice
         (direct_packet PAYLOAD_TYPE_TXT_MSG data) PAYLOAD_TYPE_TXT_MSG
         0 [] data 8
       = Done (m',
               [Repeater.Send (SendFlood ack 0);
                Repeater.Send (SendFlood reply Repeater.CLI_REPLY_DELAY_MILLIS)])
       /\ le32_decode (payload reply) = 1001.
Proof.
  intros data.
  pose (client := Repeater.client_at repeater_with_alice 0).
  pose (m1 := Repeater.store_client repeater_with_alice 0
                (Repeater.set_last_timestamp client 1000)).
  assert (Hi : 0 <= int_at (Repeater.matching_peer_indexes repeater_with_alice) 0
               < Repeater.num_clients repeater_with_alice) by by_evaluation.
  assert (Hlen : 5 < 8) by by_evaluation.
  assert (Hflags : byte_at data 4 = x00) by reflexivity.
  assert (Hts : Repeater.last_timestamp client < le32_decode data)
    by by_evaluation.
  assert (Hcmd : Repeater.handleCommand (H := test_env) m1 (le32_decode data)
                   (drop 5 (poke data 8 x00))
                 = (m1, [], Some Repeater.FIRMWARE_VER_TEXT))
    by reflexivity.
  assert (Hreply : 0 < strlen Repeater.FIRMWARE_VER_TEXT) by by_evaluation.
  split; [exact Hi|]. split; [exact Hflags|]. split; [exact Hts|].
  destruct (cli_reply_timestamp (H := test_env) repeater_with_alice m1
              (direct_packet PAYLOAD_TYPE_TXT_MSG data) 0 [] data 8 []
              Repeater.FIRMWARE_VER_TEXT Hi Hlen Hflags Hts Hcmd Hreply)
    as (_ & _ & Hrun).
  eexists _, _, _. rewrite Hrun. split; [reflexivity|].
  vm_compute. reflexivity.
Defined.

Lemma ack_matches_expected_ack_witness :
  let data :=
    (le32_encode 1234 ++ [x01]) ++ lit "hello" ++ replicate 6 x00 ++ [xff] in
  strlen (lit "hello") <= MAX_TEXT_LEN (MeshEnv := test_env)
  /\ 5 < 5 + strlen (lit "hello") + 6
  /\ 0 <= int_at (BaseChatMesh.matching_peer_indexes chat_with_alice) 0
       < BaseChatMesh.num_contacts chat_with_alice
  /\ calc_ack_hash (H := test_env) (poke data 16 x00) (pub_key alice)
     = snd (BaseChatMesh.composeMsgPacket (H := test_env) alice_node
              bob_contact 1 (lit "hello") 0).
Proof.
  intros data.
  assert (Hfit : strlen (lit "hello") <= MAX_TEXT_LEN (MeshEnv := test_env))
    by by_evaluation.
  assert (Hlen : 5 < 5 + strlen (lit "hello") + Z.of_nat 6) by by_evaluation.
  assert (Hi : 0 <= int_at (BaseChatMesh.matching_peer_indexes chat_with_alice) 0
               < BaseChatMesh.num_contacts chat_with_alice) by by_evaluation.
  split; [exact Hfit|]. split; [exact Hlen|]. split; [exact Hi|].
  destruct (ack_matches_expected_ack (H := test_env) alice_node chat_with_alice
              bob_contact 1 (lit "hello") [xff] [] 6 0
              (direct_packet PAYLOAD_TYPE_TXT_MSG []) 0 Hfit Hlen Hi)
    as (_ & _ & Hsame & _).
  apply Hsame. reflexivity.
Defined.

Lemma onAdvertRecv_contract_witness :
  BaseChatMesh.wf (H := test_env) fresh_chat
  /\ exists m' c,
       BaseChatMesh.onAdvertRecv (H := test_env) fresh_chat
         (direct_packet PAYLOAD_TYPE_ADVERT []) alice 100 (lit "1alice") 6
       = (m', [BaseChatMesh.OnDiscoveredContact c true])
       /\ BaseChatMesh.num_contacts m' = 1
       /\ BaseChatMesh.id c = alice
       /\ BaseChatMesh.name c = lit "alice" ++ replicate 27 x00
       /\ cstr (BaseChatMesh.name c) = lit "alice"
       /\ length (BaseChatMesh.name c) = 32%nat
       /\ BaseChatMesh.last_advert_timestamp c = 100
       /\ BaseChatMesh.out_path_len c = -1.
Proof.
  assert (Hwf : BaseChatMesh.wf (H := test_env) fresh_chat)
    by (split; by_evaluation).
  split; [exact Hwf|].
  pose proof (onAdvertRecv_contract (H := test_env) fresh_chat
                (direct_packet PAYLOAD_TYPE_ADVERT []) alice 100
                (lit "1alice") 6 Hwf) as Hc.
  cbv zeta in Hc.
  destruct (BaseChatMesh.onAdvertRecv fresh_chat
              (direct_packet PAYLOAD_TYPE_ADVERT []) alice 100
              (lit "1alice") 6) as [m' fx].
  destruct Hc as (_ & _ & Hacc).
  destruct Hacc
    as (Hfx & _ & _ & Hid & _ & (Hname & Hshown & Hsize) & _ & Hts & _ & Hnum
        & _ & Hpath);
    [reflexivity|].
  exists m', (BaseChatMesh.contact_at m' 0).
  split; [by rewrite Hfx|]. split; [exact Hnum|]. split; [exact Hid|].
  split; [exact Hname|]. split; [exact Hshown|]. split; [exact Hsize|].
  split; [exact Hts | exact Hpath].
Defined.



Lemma send_timeout_cancellation_witness :
  let ack := direct_packet PAYLOAD_TYPE_ACK [] in
  (forall b, processAck (MeshEnv := test_env) b = true
             <-> take 4 b = le32_encode 1000)
  /\ BaseChatMesh.sendMessage (H := test_env) chat_with_alice 50 alice_contact
       5 (lit "hello") 0
     = (armed_chat,
        [BaseChatMesh.Send
           (SendFlood (test_packet PAYLOAD_TYPE_TXT_MSG false
                         (le32_encode 1000 ++ [x01] ++ lit "hello")) 0)],
        BaseChatMesh.MSG_SEND_SENT_FLOOD, 1000)
  /\ BaseChatMesh.txt_send_timeout armed_chat = 742
  /\ BaseChatMesh.upcall (H := test_env) armed_chat (BaseChatMesh.UpAck ack 1000)
     = Done (BaseChatMesh.with_timeout armed_chat 0,
             [BaseChatMesh.MarkDoNotRetransmit ack])
  /\ BaseChatMesh.upcall (H := test_env) armed_chat (BaseChatMesh.UpAck ack 7)
     = Done (armed_chat, [])
  /\ BaseChatMesh.loop (H := test_env) armed_chat [BaseChatMesh.UpAck ack 1000]
       10000
     = Done (BaseChatMesh.with_timeout armed_chat 0,
             [BaseChatMesh.MarkDoNotRetransmit ack])
  /\ BaseChatMesh.loop (H := test_env) armed_chat [BaseChatMesh.UpAck ack 7]
       10000
     = Done (BaseChatMesh.with_timeout armed_chat 0,
             [BaseChatMesh.OnSendTimeout])
  /\ BaseChatMesh.loop (H := test_env)
       (BaseChatMesh.with_timeout armed_chat 0) [] 20000
     = Done (BaseChatMesh.with_timeout armed_chat 0, []).
Proof.
  intros ack.
  assert (Happ : forall b, processAck (MeshEnv := test_env) b = true
                           <-> take 4 b = le32_encode 1000).
  { intros b. apply bool_decide_eq_true. }
  assert (Hsend : BaseChatMesh.sendMessage (H := test_env) chat_with_alice 50
                    alice_contact 5 (lit "hello") 0
                  = (armed_chat,
                     [BaseChatMesh.Send
                        (SendFlood (test_packet PAYLOAD_TYPE_TXT_MSG false
                                      (le32_encode 1000 ++ [x01] ++ lit "hello"))
                           0)],
                     BaseChatMesh.MSG_SEND_SENT_FLOOD, 1000)) by reflexivity.
  destruct (send_timeout_cancellation (H := test_env) 1000 Happ)
    as (_ & _ & Hcancel & Hfire & _ & _ & Hawaited).
  destruct (Hawaited chat_with_alice armed_chat 50 alice_contact 5
              (lit "hello") 0 _ _ ack Hsend) as [Hyes Hno]; [discriminate|].
  assert (Hother : BaseChatMesh.onAckRecv (H := test_env) armed_chat ack 7
                   = (armed_chat, [])) by (apply Hno; discriminate).
  split; [exact Happ|]. split; [exact Hsend|]. split; [reflexivity|].
  split; [exact (f_equal Done Hyes)|].
  split; [exact (f_equal Done Hother)|].
  split.
  - assert (Hrun : BaseChatMesh.Mesh_loop (H := test_env) armed_chat
                     ([] ++ BaseChatMesh.UpAck ack 1000 :: [])
                   = Done (BaseChatMesh.with_timeout armed_chat 0,
                           [BaseChatMesh.MarkDoNotRetransmit ack]))
      by reflexivity.
    exact (proj2 (Hcancel armed_chat armed_chat _ [] []
                    (BaseChatMesh.UpAck ack 1000) 10000 [] _ eq_refl eq_refl
                    Hrun)).
  - assert (Hrun : BaseChatMesh.Mesh_loop (H := test_env) armed_chat
                     [BaseChatMesh.UpAck ack 7]
                   = Done (armed_chat, []))
      by reflexivity.
    destruct (Hfire armed_chat armed_chat [BaseChatMesh.UpAck ack 7] 10000 []
                Hrun) as [Hloop Hnext]; [discriminate | reflexivity |].
    split; [exact Hloop | exact (Hnext 20000)].
Defined.

Lemma clock_sync_contract_witness :
  Repeater.handleCommand (H := test_env) fresh_repeater 2000
    (lit "  clock sync")
  = (Repeater.with_rtc fresh_repeater {| RTC.tv_sec := 2001 |}, [],
     Some (lit "OK - clock set"))
  /\ Repeater.handleCommand (H := test_env) fresh_repeater 1000
       (lit "clock sync")
     = (fresh_repeater, [], Some (lit "ERR: clock cannot go backwards")).
Proof.
  split.
  - apply (clock_sync_contract (H := test_env) fresh_repeater 2000
             (lit "  clock sync")); [reflexivity | by_evaluation].
  - apply (clock_sync_contract (H := test_env) fresh_repeater 1000
             (lit "clock sync")); [reflexivity | by_evaluation].
Defined.

(** * Further properties of the code *)

Lemma byte_at_drop (buf : bytes) (k i : nat) :
  byte_at (drop k buf) i = byte_at buf (k + i).
Proof.
  unfold byte_at. revert buf. induction k as [|k IH]; intros buf; [done|].
  destruct buf as [|b buf]; simpl; [by destruct i | apply IH].
Qed.

(** Two [memcpy] that fill a buffer from its start. *)
Lemma take_blit_two (buf a b : bytes) :
  take (length a + length b) (blit (blit buf 0 a) (length a) b) = a ++ b.
Proof.
  unfold blit. simpl take at 2. simpl app at 2.
  rewrite take_app_length, app_assoc.
  apply take_app_length'. by rewrite length_app.
Qed.

Lemma valid_index_test (i n : Z) :
  0 <= i < n -> (i <? 0) || (i >=? n) = false.
Proof.
  intros Hi. apply orb_false_iff. split; [apply Z.ltb_ge; lia|].
  rewrite Z.geb_leb. apply Z.leb_gt. lia.
Qed.

Lemma valid_index_test' (i n : Z) :
  0 <= i < n -> (0 <=? i) && (i <? n) = true.
Proof.
  intros Hi. apply andb_true_iff. split; [apply Z.leb_le | apply Z.ltb_lt]; lia.
Qed.

Lemma find_index_map {A B} (f : A -> B) (p : B -> bool) (l : list A) (k : Z) :
  find_index (fun x => p (f x)) l k = find_index p (map f l) k.
Proof.
  revert k. induction l as [|x l IH]; intros k; simpl; [done|].
  destruct (p (f x)); [done | apply IH].
Qed.

(** ** The repeater, continued *)

Section RepeaterMore.
Context `{MeshEnv}.

Import Repeater.

Lemma req_get_stats_run
    (m : MyMesh) (packet : Packet) (sender_idx : Z) (key data : bytes)
    (len : Z) :
  let i := int_at (matching_peer_indexes m) sender_idx in
  let client := client_at m i in
  let timestamp := le32_decode data in
  let reply :=
    le32_encode (RTC.getCurrentTime (rtc_clock m)) ++ repeater_stats in
  wf m ->
  length repeater_stats = Z.to_nat sizeof_RepeaterStats ->
  0 <= i < num_clients m ->
  last_timestamp client < timestamp ->
  byte_at data 4 = CMD_GET_STATS ->
  exists m',
    onPeerDataRecv m packet PAYLOAD_TYPE_REQ sender_idx key data len
    = Done
        (m',
         if route_flood packet then
           match createPathReturn (id client) key (path packet)
                   (path_len packet) PAYLOAD_TYPE_RESPONSE reply with
           | Some p => [Send (SendFlood p 0)]
           | None => []
           end
         else
           match createDatagram PAYLOAD_TYPE_RESPONSE (id client) key reply with
           | Some p =>
               if 0 <=? out_path_len client then
                 [Send (SendDirect p (out_path client) (out_path_len client) 0)]
               else [Send (SendFlood p 0)]
           | None => []
           end)
    /\ client_at m' i = set_last_timestamp client timestamp
    /\ (forall j, 0 <= j -> j <> i -> client_at m' j = client_at m j)
    /\ num_clients m' = num_clients m
    /\ length reply = 48%nat.
Proof.
  intros i client timestamp reply [Hlen Hnum] Hstats Hi Hts Hcmd.
  unfold onPeerDataRecv. fold i. fold client. fold timestamp.
  rewrite valid_index_test by done.
  destruct (decide (PAYLOAD_TYPE_REQ = PAYLOAD_TYPE_REQ)); [|done].
  destruct (Z.gtb_spec timestamp (last_timestamp client)); [|lia].
  unfold handleRequest.
  rewrite (byte_at_drop data 4 0). simpl Nat.add. rewrite Hcmd.
  destruct (decide (CMD_GET_STATS = CMD_GET_STATS)); [|done].
  change (4 + sizeof_RepeaterStats =? 0) with false. cbv iota.
  eexists. split; [do 2 f_equal|].
  - simpl reply_data.
    rewrite (take_ge repeater_stats) by lia.
    change (Z.to_nat (4 + sizeof_RepeaterStats))
      with (length (le32_encode (RTC.getCurrentTime (rtc_clock m)))
            + Z.to_nat sizeof_RepeaterStats)%nat.
    rewrite <- Hstats.
    change (blit ?b 4 repeater_stats)
      with (blit b (length (le32_encode (RTC.getCurrentTime (rtc_clock m))))
              repeater_stats).
    rewrite take_blit_two. fold reply.
    unfold send_response, flood_if, send_to. simpl id. simpl out_path_len.
    simpl out_path.
    destruct (route_flood packet); [done|].
    destruct (createDatagram _ _ _ _); [|done].
    destruct (Z.ltb_spec (out_path_len client) 0),
             (Z.leb_spec 0 (out_path_len client)); done || lia.
  - repeat split.
    + unfold client_at, store_client; simpl.
      rewrite list_lookup_insert_eq by lia. done.
    + intros j Hj Hne. unfold client_at, store_client; simpl.
      rewrite list_lookup_insert_ne by lia. done.
    + subst reply. rewrite length_app, Hstats. done.
Qed.

(** X1.  A stats request from a known client, with a timestamp above the
    stored one: the reply is the 4-byte current time followed by the stats
    record, [last_timestamp] becomes the request's timestamp and no other
    client changes.  The reply travels as a path-return flood when the request
    was a flood, else direct when an out_path is known, else as a flood (and
    not at all when no packet can be built). *)
Theorem req_get_stats_reply
    (m : MyMesh) (packet : Packet) (sender_idx : Z) (key data : bytes)
    (len : Z) :
  let i := int_at (matching_peer_indexes m) sender_idx in
  let client := client_at m i in
  let timestamp := le32_decode data in
  let reply :=
    le32_encode (RTC.getCurrentTime (rtc_clock m)) ++ repeater_stats in
  wf m ->
  length repeater_stats = Z.to_nat sizeof_RepeaterStats ->
  0 <= i < num_clients m ->
  last_timestamp client < timestamp ->
  byte_at data 4 = CMD_GET_STATS ->
  exists m',
    onPeerDataRecv m packet PAYLOAD_TYPE_REQ sender_idx key data len
    = Done
        (m',
         if route_flood packet then
           match createPathReturn (id client) key (path packet)
                   (path_len packet) PAYLOAD_TYPE_RESPONSE reply with
           | Some p => [Send (SendFlood p 0)]
           | None => []
           end
         else
           match createDatagram PAYLOAD_TYPE_RESPONSE (id client) key reply with
           | Some p =>
               if 0 <=? out_path_len client then
                 [Send (SendDirect p (out_path client) (out_path_len client) 0)]
               else [Send (SendFlood p 0)]
           | None => []
           end)
    /\ client_at m' i = set_last_timestamp client timestamp
    /\ (forall j, 0 <= j -> j <> i -> client_at m' j = client_at m j)
    /\ num_clients m' = num_clients m
    /\ length reply = 48%nat.
Proof. exact (req_get_stats_run m packet sender_idx key data len). Qed.

(** X2.  What the repeater ignores.  A packet is dropped without any effect
    and without any change of state when the sender index is not a known
    client, when its type is neither REQ nor TXT_MSG, when it is a TXT_MSG of
    at most 5 bytes, and when it is a TXT_MSG whose flags byte is not 0 (so
    the retries of a chat client, which carry the attempt number there, are
    not acknowledged).  A REQ with a fresh timestamp and an unknown command
    byte is dropped too, without sending and without advancing
    [last_timestamp]; it only leaves the current time in [reply_data]. *)
Theorem repeater_ignored_packets
    (m : MyMesh) (packet : Packet) (type : PayloadType) (sender_idx : Z)
    (key data : bytes) (len : Z) :
  let i := int_at (matching_peer_indexes m) sender_idx in
  let run := onPeerDataRecv m packet type sender_idx key data len in
  (~ 0 <= i < num_clients m -> run = Done (m, []))
  /\ (type <> PAYLOAD_TYPE_REQ -> type <> PAYLOAD_TYPE_TXT_MSG ->
      run = Done (m, []))
  /\ (type = PAYLOAD_TYPE_TXT_MSG -> len <= 5 -> run = Done (m, []))
  /\ (type = PAYLOAD_TYPE_TXT_MSG -> byte_at data 4 <> x00 ->
      run = Done (m, []))
  /\ (type = PAYLOAD_TYPE_REQ -> 0 <= i < num_clients m ->
      last_timestamp (client_at m i) < le32_decode data ->
      byte_at data 4 <> CMD_GET_STATS ->
      run = Done (with_reply_data m
                    (blit (reply_data m) 0
                       (le32_encode (RTC.getCurrentTime (rtc_clock m)))), [])).
Proof.
  intros i run. subst run. unfold onPeerDataRecv. fold i.
  split; [|split; [|split; [|split]]].
  - intros Hbad.
    destruct (Z.ltb_spec i 0); [done|].
    destruct (Z.geb_spec i (num_clients m)); [done | lia].
  - intros Hreq Htxt. destruct (_ || _); [done|].
    destruct (decide (type = PAYLOAD_TYPE_REQ)); [done|].
    by rewrite bool_decide_eq_false_2.
  - intros -> Hlen. destruct (_ || _); [done|].
    destruct (decide _); [done|].
    destruct (Z.gtb_spec len 5); [lia|]. by rewrite andb_false_r.
  - intros -> Hflags. destruct (_ || _); [done|].
    destruct (decide _); [done|].
    destruct (_ && _); [|done].
    assert (Hnz : byte_to_Z (byte_at data 4) <> 0).
    { intros Hz. apply Hflags. by destruct (byte_at data 4). }
    destruct (Z.eqb_spec (byte_to_Z (byte_at data 4)) 0); [lia | done].
  - intros -> Hi Hts Hcmd. rewrite valid_index_test by done.
    destruct (decide _); [|done].
    destruct (Z.gtb_spec (le32_decode data) (last_timestamp (client_at m i)));
      [|lia].
    unfold handleRequest. rewrite (byte_at_drop data 4 0). simpl Nat.add.
    destruct (decide (byte_at data 4 = CMD_GET_STATS)); [done|]. done.
Qed.

(** *** The client table *)

Lemma live_client_at (m : MyMesh) (j : Z) :
  wf m -> 0 <= j < num_clients m ->
  live (num_clients m) (known_clients m) !! Z.to_nat j = Some (client_at m j).
Proof.
  intros [Hlen Hnum] Hj. unfold live, client_at.
  rewrite lookup_take_lt by lia.
  destruct (lookup_lt_is_Some_2 (known_clients m) (Z.to_nat j)) as [c ->];
    [lia | done].
Qed.

(** What the search loop of [putClient] finds. *)
Lemma find_client_spec (m : MyMesh) (sender : Identity) :
  wf m ->
  match find_index (fun c => matches sender (id c))
          (live (num_clients m) (known_clients m)) 0 with
  | Some i =>
      0 <= i < num_clients m /\ id (client_at m i) = sender
      /\ forall j, 0 <= j < i -> id (client_at m j) <> sender
  | None => forall j, 0 <= j < num_clients m -> id (client_at m j) <> sender
  end.
Proof.
  intros Hwf.
  destruct (find_index _ _ _) as [i|] eqn:Hfind.
  - pose proof (find_index_first _ _ _ _ Hfind) as Hfirst.
    apply find_index_Some in Hfind as [Hr (c0 & Hc0 & Hm)].
    rewrite Z.sub_0_r in Hc0.
    assert (Hi : 0 <= i < num_clients m).
    { apply live_lookup in Hc0 as [_ ?]. lia. }
    rewrite live_client_at in Hc0 by done. injection Hc0 as <-.
    split; [done|]. split; [symmetry; by apply matches_eq|].
    intros j Hj Heq. specialize (Hfirst j (client_at m j) ltac:(lia)).
    rewrite Z.sub_0_r, live_client_at in Hfirst by (done || lia).
    specialize (Hfirst eq_refl). apply matches_false in Hfirst. congruence.
  - apply find_index_None in Hfind. intros j Hj Heq.
    rewrite Forall_lookup in Hfind.
    specialize (Hfind _ _ (live_client_at m j Hwf Hj)).
    apply matches_false in Hfind. congruence.
Qed.

(** The search loop reads nothing but the keys of the live entries. *)
Lemma find_client_ext (m m' : MyMesh) (sender : Identity) :
  wf m -> wf m' -> num_clients m' = num_clients m ->
  (forall j, 0 <= j < num_clients m -> id (client_at m' j) = id (client_at m j)) ->
  find_index (fun c => matches sender (id c))
    (live (num_clients m') (known_clients m')) 0
  = find_index (fun c => matches sender (id c))
      (live (num_clients m) (known_clients m)) 0.
Proof.
  intros Hwf Hwf' Hnum Hid.
  rewrite (find_index_map id (matches sender)).
  rewrite (find_index_map id (matches sender)
             (live (num_clients m) (known_clients m))).
  f_equal. apply list_eq. intros k. rewrite !list_lookup_fmap.
  destruct (decide (k < Z.to_nat (num_clients m))%nat) as [Hk|Hk].
  - replace k with (Z.to_nat (Z.of_nat k)) by lia.
    rewrite (live_client_at m') by (done || lia).
    rewrite (live_client_at m) by (done || lia). simpl. f_equal.
    apply Hid. lia.
  - unfold live. rewrite Hnum, !lookup_take_ge by lia. done.
Qed.

(** X3.  Insert, then look up: once [putClient] has returned a slot for a
    sender, asking again returns the same slot and changes nothing, so no
    sender is ever entered twice.  A sender that is not in a full table is
    refused without a change. *)
Theorem putClient_idempotent (m : MyMesh) (sender : Identity) :
  wf m ->
  match putClient m sender with
  | (m1, Some i) =>
      wf m1 /\ 0 <= i < num_clients m1 /\ id (client_at m1 i) = sender
      /\ putClient m1 sender = (m1, Some i)
  | (m1, None) =>
      m1 = m /\ num_clients m = MAX_CLIENTS
      /\ forall j, 0 <= j < num_clients m -> id (client_at m j) <> sender
  end.
Proof.
  intros Hwf. pose proof (find_client_spec m sender Hwf) as Hfind.
  destruct (putClient m sender) as [m1 [i|]] eqn:Hput.
  - destruct (putClient_Some _ _ _ _ Hwf Hput) as (Hwf1 & Hi & Hid & Hkeep & Hcase).
    split; [done|]. split; [done|]. split; [done|].
    pose proof (find_client_spec m1 sender Hwf1) as Hfind1.
    unfold putClient in *.
    destruct (find_index _ (live (num_clients m1) _) 0) as [i1|] eqn:Hf1.
    + f_equal. f_equal. destruct Hfind1 as (Hi1 & Hid1 & Hfirst1).
      destruct (find_index _ (live (num_clients m) _) 0) as [i0|] eqn:Hf0.
      * injection Hput as <- <-. rewrite Hf0 in Hf1. congruence.
      * destruct (num_clients m <? MAX_CLIENTS); [|done].
        injection Hput as <- <-.
        destruct (Z.lt_trichotomy i1 (num_clients m)) as [Hlt|[->|Hgt]];
          [|done|simpl in Hi1; lia].
        exfalso. apply (Hfind i1); [lia|]. rewrite <- (Hkeep i1) by lia. done.
    + exfalso. apply (Hfind1 i Hi). done.
  - unfold putClient in Hput.
    destruct (find_index _ _ _); [done|].
    destruct (Z.ltb_spec (num_clients m) MAX_CLIENTS); [done|].
    injection Hput as <-. destruct Hwf as [_ ?]. split; [done|]. split; [lia|].
    done.
Qed.

(** *** The command handler *)

Lemma memcmp_eq_false buf l n :
  memcmp_eq buf l n = false <-> take n buf <> take n l.
Proof. unfold memcmp_eq. apply bool_decide_eq_false. Qed.

Lemma handleCommand_touches
    (m : MyMesh) (sender_timestamp : Z) (command : bytes) :
  let c := skip_spaces command in
  let '(m', fx, reply) := handleCommand m sender_timestamp command in
  self_id m' = self_id m
  /\ reply_data m' = reply_data m
  /\ num_clients m' = num_clients m
  /\ known_clients m' = known_clients m
  /\ matching_peer_indexes m' = matching_peer_indexes m
  /\ (rtc_clock m' <> rtc_clock m ->
      take 10 c = lit "clock sync"
      /\ RTC.getCurrentTime (rtc_clock m) < sender_timestamp)
  /\ (airtime_factor m' <> airtime_factor m -> take 4 c = lit "set ")
  /\ (fx <> [] -> take 6 c = lit "reboot" \/ take 6 c = lit "advert")
  /\ (reply = None <-> take 6 c = lit "reboot").
Proof.
  intros c. unfold handleCommand. fold c.
  destruct (memcmp_eq c (lit "reboot") 6) eqn:Hreboot.
  { apply memcmp_eq_true in Hreboot. repeat split; try done. auto. }
  apply memcmp_eq_false in Hreboot.
  assert (Hnone : forall r : bytes, Some r = None <-> take 6 c = lit "reboot")
    by (intros r; split; [discriminate | intros ?; by destruct Hreboot]).
  destruct (memcmp_eq c (lit "advert") 6) eqn:Hadvert.
  { apply memcmp_eq_true in Hadvert. repeat split; try done; auto; apply Hnone. }
  destruct (memcmp_eq c (lit "clock sync") 10) eqn:Hsync.
  { apply memcmp_eq_true in Hsync.
    destruct (Z.gtb_spec sender_timestamp (RTC.getCurrentTime (rtc_clock m)));
      repeat split; try done; try lia; apply Hnone. }
  destruct (memcmp_eq c (lit "clock") 5).
  { repeat split; try done; apply Hnone. }
  destruct (memcmp_eq c (lit "set ") 4) eqn:Hset.
  { apply memcmp_eq_true in Hset.
    destruct (_ || _); repeat split; try done; apply Hnone. }
  destruct (memcmp_eq c (lit "ver") 3); repeat split; try done; apply Hnone.
Qed.

(** X4.  What a command can and cannot touch.  [handleCommand] never changes
    the client table, the identity, [reply_data] or the search results.  The
    clock changes only through "clock sync" with a timestamp above the current
    time, the airtime factor only through "set ", a packet is sent only by
    "advert", and control is lost only by "reboot", the one command that
    leaves no reply. *)
Theorem handleCommand_frame
    (m : MyMesh) (sender_timestamp : Z) (command : bytes) :
  let c := skip_spaces command in
  let '(m', fx, reply) := handleCommand m sender_timestamp command in
  self_id m' = self_id m
  /\ reply_data m' = reply_data m
  /\ num_clients m' = num_clients m
  /\ known_clients m' = known_clients m
  /\ matching_peer_indexes m' = matching_peer_indexes m
  /\ (rtc_clock m' <> rtc_clock m ->
      take 10 c = lit "clock sync"
      /\ RTC.getCurrentTime (rtc_clock m) < sender_timestamp)
  /\ (airtime_factor m' <> airtime_factor m -> take 4 c = lit "set ")
  /\ (fx <> [] -> take 6 c = lit "reboot" \/ take 6 c = lit "advert")
  /\ (reply = None <-> take 6 c = lit "reboot").
Proof. exact (handleCommand_touches m sender_timestamp command). Qed.

(** *** How the handlers move the client table *)

Lemma onPeerDataRecv_clients
    (m m' : MyMesh) (packet : Packet) (type : PayloadType) (sender_idx : Z)
    (key data : bytes) (len : Z) (fx : list Effect) :
  let i := int_at (matching_peer_indexes m) sender_idx in
  onPeerDataRecv m packet type sender_idx key data len = Done (m', fx) ->
  self_id m' = self_id m
  /\ num_clients m' = num_clients m
  /\ (known_clients m' = known_clients m
      \/ (0 <= i < num_clients m
          /\ last_timestamp (client_at m i) < le32_decode data
          /\ known_clients m'
             = <[Z.to_nat i :=
                   set_last_timestamp (client_at m i) (le32_decode data)]>
                 (known_clients m))).
Proof.
  intros i. unfold onPeerDataRecv. fold i.
  destruct (Z.ltb_spec i 0); [intros [= <- _]; auto|].
  destruct (Z.geb_spec i (num_clients m)); [intros [= <- _]; auto|].
  simpl orb. cbv iota.
  destruct (decide _).
  - destruct (Z.gtb_spec (le32_decode data) (last_timestamp (client_at m i)));
      [|intros [= <- _]; auto].
    unfold handleRequest. destruct (decide _); simpl; intros [= <- _]; [|auto].
    split; [done|]. split; [done|]. right. split; [lia|]. done.
  - destruct (_ && _); [|intros [= <- _]; auto].
    destruct (negb _); [intros [= <- _]; auto|].
    destruct (Z.gtb_spec (le32_decode data) (last_timestamp (client_at m i)));
      [|intros [= <- _]; auto].
    match goal with
    | |- context [handleCommand ?a ?b ?c] =>
        pose proof (handleCommand_touches a b c) as Hc;
        destruct (handleCommand a b c) as [[m2 fx2] reply]
    end.
    cbv zeta in Hc. destruct Hc as (Hself & _ & Hnum & Htbl & _).
    assert (Hgoal : self_id m2 = self_id m /\ num_clients m2 = num_clients m
      /\ (known_clients m2 = known_clients m
          \/ (0 <= i < num_clients m
              /\ last_timestamp (client_at m i) < le32_decode data
              /\ known_clients m2
                 = <[Z.to_nat i :=
                       set_last_timestamp (client_at m i) (le32_decode data)]>
                     (known_clients m)))).
    { split; [done|]. split; [done|]. right. split; [lia|]. done. }
    destruct reply as [reply|];
      [destruct (_ >? _); [done|]; destruct (_ >? _)|];
      intros [= <- _]; exact Hgoal.
Qed.

Lemma onAnonDataRecv_clients
    (m : MyMesh) (packet : Packet) (type : PayloadType) (sender : Identity)
    (data : bytes) (len : Z) :
  let m' := fst (onAnonDataRecv m packet type sender data len) in
  let m1 := fst (putClient m sender) in
  m' = m
  \/ (self_id m' = self_id m1 /\ num_clients m' = num_clients m1
      /\ (known_clients m' = known_clients m1
          \/ exists i, putClient m sender = (m1, Some i)
               /\ last_timestamp (client_at m1 i) < le32_decode data
               /\ known_clients m'
                  = <[Z.to_nat i :=
                        set_last_timestamp (client_at m1 i) (le32_decode data)]>
                      (known_clients m1))).
Proof.
  intros m' m1. subst m' m1. unfold onAnonDataRecv.
  destruct (decide _); [|by left]. destruct (memcmp_eq _ _ _); [|by left].
  destruct (putClient m sender) as [m1 [i|]] eqn:Hput; simpl; [|right; auto].
  destruct (Z.leb_spec (le32_decode data) (last_timestamp (client_at m1 i)));
    simpl; [right; auto|].
  right. split; [done|]. split; [done|]. right. exists i. done.
Qed.

Lemma putClient_self (m : MyMesh) (sender : Identity) :
  self_id (fst (putClient m sender)) = self_id m.
Proof.
  unfold putClient. destruct (find_index _ _ _); [done|].
  by destruct (_ <? _).
Qed.

(** A slot rewritten with a new timestamp, seen through [client_at]. *)
Lemma client_at_restamped (tbl : list ClientInfo) (i j : nat) (t : Z) :
  let c := default blank_client (tbl !! i) in
  let c' := default blank_client (<[i := set_last_timestamp c t]> tbl !! j) in
  let c0 := default blank_client (tbl !! j) in
  id c' = id c0 /\ secret c' = secret c0
  /\ out_path_len c' = out_path_len c0 /\ out_path c' = out_path c0
  /\ (last_timestamp c' = last_timestamp c0
      \/ (j = i /\ last_timestamp c' = t)).
Proof.
  intros c c' c0. subst c c' c0.
  destruct (decide (i = j)) as [->|Hne].
  - destruct (decide (j < length tbl)%nat).
    + rewrite list_lookup_insert_eq by done. simpl. auto 10.
    + rewrite list_insert_ge by lia. auto 10.
  - rewrite list_lookup_insert_ne by done. auto 10.
Qed.

Lemma step_clients_kept (m m' : MyMesh) (op : Op) (fx : list Effect) :
  wf m ->
  step m op = Done (m', fx) ->
  wf m'
  /\ self_id m' = self_id m
  /\ num_clients m <= num_clients m'
  /\ forall j, 0 <= j < num_clients m ->
       id (client_at m' j) = id (client_at m j)
       /\ secret (client_at m' j) = secret (client_at m j)
       /\ last_timestamp (client_at m j) <= last_timestamp (client_at m' j).
Proof.
  intros Hwf.
  assert (Hstamp : forall (m0 m1 : MyMesh) i t,
    wf m0 -> self_id m1 = self_id m0 -> num_clients m1 = num_clients m0 ->
    last_timestamp (client_at m0 i) < t ->
    known_clients m1
    = <[Z.to_nat i := set_last_timestamp (client_at m0 i) t]> (known_clients m0) ->
    wf m1 /\ forall j, 0 <= j < num_clients m0 ->
      id (client_at m1 j) = id (client_at m0 j)
      /\ secret (client_at m1 j) = secret (client_at m0 j)
      /\ last_timestamp (client_at m0 j) <= last_timestamp (client_at m1 j)).
  { intros m0 m1 i t [Hlen Hnum] Hself Hn Hlt Htbl. split.
    - split; [by rewrite Htbl, length_insert | lia].
    - intros j Hj. unfold client_at in *. rewrite Htbl.
      destruct (client_at_restamped (known_clients m0) (Z.to_nat i)
                  (Z.to_nat j) t) as (Hid & Hsec & _ & _ & Hts).
      split; [exact Hid|]. split; [exact Hsec|].
      destruct Hts as [->|[Hji ->]]; [done|].
      rewrite Hji. lia. }
  assert (Hsame : forall m1 : MyMesh,
    self_id m1 = self_id m -> num_clients m1 = num_clients m ->
    known_clients m1 = known_clients m ->
    wf m1 /\ self_id m1 = self_id m /\ num_clients m <= num_clients m1
    /\ forall j, 0 <= j < num_clients m ->
      id (client_at m1 j) = id (client_at m j)
      /\ secret (client_at m1 j) = secret (client_at m j)
      /\ last_timestamp (client_at m j) <= last_timestamp (client_at m1 j)).
  { intros m1 Hself Hn Htbl. destruct Hwf as [Hlen Hnum].
    split; [split; [by rewrite Htbl | lia]|]. split; [done|]. split; [lia|].
    intros j Hj. unfold client_at. rewrite Htbl. repeat split; done || lia. }
  destruct op as [h|p t s d n|p t i k d n|i np nl|t c|]; simpl step.
  - intros [= <- _]. by apply (Hsame (with_matching m _)).
  - intros [= Hrun].
    assert (m' = fst (onAnonDataRecv m p t s d n)) as -> by (by rewrite Hrun).
    clear Hrun.
    pose proof (onAnonDataRecv_clients m p t s d n) as Hc. cbv zeta in Hc.
    destruct Hc as [->|(Hself & Hn & Htbl)]; [by apply Hsame|].
    destruct (putClient m s) as [m1 r] eqn:Hput. simpl in *.
    assert (Hm1 : wf m1 /\ self_id m1 = self_id m
      /\ num_clients m <= num_clients m1
      /\ forall j, 0 <= j < num_clients m -> client_at m1 j = client_at m j).
    { pose proof (putClient_self m s) as Hs. rewrite Hput in Hs. simpl in Hs.
      destruct r as [i|].
      - destruct (putClient_Some _ _ _ _ Hwf Hput) as (? & ? & ? & ? & Hcase).
        split; [done|]. split; [done|]. split; [|done].
        destruct Hcase as [[_ ->]|(_ & Hn1 & _)]; lia.
      - destruct (anon_req_table_full m m1 p s d n Hput) as [_ ->].
        split; [done|]. split; [done|]. split; [lia | done]. }
    destruct Hm1 as (Hwf1 & Hself1 & Hle & Hkeep).
    destruct Htbl as [Htbl|(i & _ & Hlt & Htbl)].
    + destruct Hwf1 as [Hlen1 Hnum1].
      split; [split; [by rewrite Htbl | lia]|].
      split; [congruence|]. split; [lia|].
      intros j Hj.
      assert (client_at (onAnonDataRecv m p t s d n).1 j = client_at m j) as ->
        by (rewrite <- Hkeep by done; unfold client_at; by rewrite Htbl).
      repeat split; done || lia.
    + destruct (Hstamp m1 _ i _ Hwf1 Hself Hn Hlt Htbl) as [Hwf' Hall].
      split; [done|]. split; [congruence|]. split; [lia|].
      intros j Hj. destruct (Hall j ltac:(lia)) as (Hid & Hsec & Hts).
      rewrite Hkeep in Hid, Hsec, Hts by done. done.
  - intros Hrun.
    pose proof (onPeerDataRecv_clients m m' p t i k d n fx) as Hc.
    cbv zeta in Hc. specialize (Hc Hrun).
    destruct Hc as (Hself & Hn & [Htbl|(_ & Hlt & Htbl)]); [by apply Hsame|].
    destruct (Hstamp m _ _ _ Hwf Hself Hn Hlt Htbl) as [Hwf' Hall].
    split; [done|]. split; [done|]. split; [lia|]. done.
  - destruct (onPeerPathRecv m i np nl) as [[m1 b]|] eqn:Hrun; [|done].
    intros [= <- _].
    apply onPeerPathRecv_Done in Hrun as (_ & [[_ ->]|(Hi & _ & _ & ->)]);
      [by apply Hsame|].
    destruct Hwf as [Hlen Hnum].
    split; [split; [simpl; by rewrite length_insert | simpl; lia]|].
    split; [done|]. split; [simpl; lia|].
    intros j Hj. unfold client_at, store_client; simpl.
    destruct (decide (Z.to_nat (int_at (matching_peer_indexes m) i)
                      = Z.to_nat j)) as [Heq|Hne].
    + rewrite Heq. rewrite list_lookup_insert_eq by lia. simpl.
      repeat split; done || lia.
    + rewrite list_lookup_insert_ne by done. repeat split; done || lia.
  - intros [= Hrun]. pose proof (handleCommand_touches m t c) as Hc.
    destruct (handleCommand m t c) as [[m2 fx2] reply]. cbv zeta in Hc.
    simpl in Hrun. injection Hrun as <- _.
    destruct Hc as (Hself & _ & Hn & Htbl & _). by apply Hsame.
  - intros [= <- _]. by apply Hsame.
Qed.

(** X5.  A call that writes past no array never takes a known client away,
    never changes its key or its shared secret, and never lowers its
    [last_timestamp]; the node's own identity and the shape of the table
    stay as they are.  The only calls that write past an array, after which
    nothing of this is known, are [onPeerPathRecv] from a known client with
    a path of more than [MAX_PATH_SIZE] bytes (or more than the buffer
    holds) and [onPeerDataRecv] with a fresh CLI text from a known client
    whose reply and terminator do not fit [sizeof_temp - 5] bytes. *)
Theorem repeater_clients_stable (m : MyMesh) (op : Op) :
  wf m ->
  match step m op with
  | Done (m', _) =>
      wf m'
      /\ self_id m' = self_id m
      /\ num_clients m <= num_clients m'
      /\ forall j, 0 <= j < num_clients m ->
           id (client_at m' j) = id (client_at m j)
           /\ secret (client_at m' j) = secret (client_at m j)
           /\ last_timestamp (client_at m j) <= last_timestamp (client_at m' j)
  | Overrun =>
      match op with
      | OpPeerPath sender_idx new_path new_path_len =>
          0 <= int_at (matching_peer_indexes m) sender_idx < num_clients m
          /\ ~ (0 <= new_path_len <= MAX_PATH_SIZE
                /\ new_path_len <= Z.of_nat (length new_path))
      | OpPeerData _ type sender_idx _ data len =>
          let i := int_at (matching_peer_indexes m) sender_idx in
          let client := client_at m i in
          0 <= i < num_clients m
          /\ type = PAYLOAD_TYPE_TXT_MSG /\ 5 < len
          /\ byte_at data 4 = x00
          /\ last_timestamp client < le32_decode data
          /\ exists m2 fx reply,
               handleCommand
                 (store_client m i
                    (set_last_timestamp client (le32_decode data)))
                 (le32_decode data) (drop 5 (poke data len x00))
               = (m2, fx, Some reply)
               /\ sizeof_temp - 5 < Z.of_nat (length reply) + 1
      | _ => False
      end
  end.
Proof.
  intros Hwf. destruct (step m op) as [[m' fx]|] eqn:Hstep.
  { exact (step_clients_kept m m' op fx Hwf Hstep). }
  destruct op as [h|p t s d n|p t i k d n|i np nl|t c|]; simpl in Hstep;
    try done.
  - revert Hstep. unfold onPeerDataRecv.
    set (idx := int_at (matching_peer_indexes m) i).
    destruct (Z.ltb_spec idx 0); [done|].
    destruct (Z.geb_spec idx (num_clients m)); [done|]. simpl orb. cbv iota.
    destruct (decide (t = PAYLOAD_TYPE_REQ)) as [->|Hreq].
    { destruct (_ >? _); [|done].
      destruct (handleRequest _ _ _) as [m1 reply_len].
      by destruct (_ =? _). }
    destruct (decide (t = PAYLOAD_TYPE_TXT_MSG)) as [->|Htxt].
    2: { by rewrite bool_decide_eq_false_2. }
    rewrite bool_decide_eq_true_2 by done. simpl andb.
    destruct (Z.gtb_spec n 5); [|done].
    destruct (Z.eqb_spec (byte_to_Z (byte_at d 4)) 0) as [Hflags|]; [|done].
    simpl negb. cbv iota.
    destruct (Z.gtb_spec (le32_decode d) (last_timestamp (client_at m idx)));
      [|done].
    destruct (handleCommand _ _ _) as [[m2 fx2] [reply|]] eqn:Hcmd; [|done].
    destruct (Z.gtb_spec (Z.of_nat (length reply) + 1) (sizeof_temp - 5));
      [|by destruct (_ >? _)].
    intros _. split; [lia|]. split; [done|]. split; [lia|].
    split; [by destruct (byte_at d 4)|]. split; [lia|].
    exists m2, fx2, reply. split; [reflexivity | lia].
  - revert Hstep. unfold onPeerPathRecv.
    set (idx := int_at (matching_peer_indexes m) i).
    destruct (Z.leb_spec 0 idx); [|done].
    destruct (Z.ltb_spec idx (num_clients m)); [|done]. simpl andb. cbv iota.
    destruct (set_out_path _ _ _) as [c'|] eqn:Hset; [done|].
    intros _. split; [lia|]. intros [Hn Hp].
    by rewrite set_out_path_fits in Hset.
Qed.

(** The entry that a login adds to the table. *)
Lemma onAnonDataRecv_new_client
    (m : MyMesh) (packet : Packet) (type : PayloadType) (sender : Identity)
    (data : bytes) (len : Z) :
  wf m ->
  let m' := fst (onAnonDataRecv m packet type sender data len) in
  num_clients m' = num_clients m + 1 ->
  let c := client_at m' (num_clients m) in
  id c = sender
  /\ secret c = calcSharedSecret (self_id m) sender
  /\ forall j, 0 <= j < num_clients m -> id (client_at m j) <> sender.
Proof.
  intros Hwf m' Hgrow c. subst c.
  pose proof (onAnonDataRecv_clients m packet type sender data len) as Hc.
  cbv zeta in Hc. fold m' in Hc.
  destruct Hc as [Heq|(Hself & Hn & Htbl)]; [rewrite Heq in Hgrow; lia|].
  pose proof (find_client_spec m sender Hwf) as Hfind.
  destruct (putClient m sender) as [m1 r] eqn:Hput. simpl in *.
  destruct r as [i|];
    [|destruct (anon_req_table_full m m1 packet sender data len Hput)
        as [_ ->]; lia].
  destruct (putClient_Some _ _ _ _ Hwf Hput)
    as ([Hlen1 Hnum1] & Hi & Hid & Hkeep & Hcase).
  destruct Hcase as [[_ ->]|(-> & Hn1 & Hts0 & _ & Hsec)]; [lia|].
  assert (Hnone : forall j, 0 <= j < num_clients m ->
            id (client_at m j) <> sender).
  { unfold putClient in Hput. destruct (find_index _ _ _) as [i0|]; [|done].
    injection Hput as <- Hi0. lia. }
  assert (Hc : id (client_at m' (num_clients m)) = id (client_at m1 (num_clients m))
               /\ secret (client_at m' (num_clients m))
                  = secret (client_at m1 (num_clients m))).
  { destruct Htbl as [Htbl|(i0 & Heq & _ & Htbl)].
    - unfold client_at. by rewrite Htbl.
    - injection Heq as <-. unfold client_at at 1 3. rewrite Htbl.
      rewrite list_lookup_insert_eq by lia. done. }
  destruct Hc as [-> ->]. done.
Qed.

Lemma step_grows_by_login (m m' : MyMesh) (op : Op) (fx : list Effect) :
  step m op = Done (m', fx) ->
  num_clients m' <> num_clients m ->
  exists p t s d n, op = OpAnonData p t s d n.
Proof.
  destruct op as [h|p t s d n|p t i k d n|i np nl|t c|]; simpl;
    intros Hrun Hne.
  - by injection Hrun as <- _.
  - by eexists _, _, _, _, _.
  - by apply onPeerDataRecv_count in Hrun.
  - destruct (onPeerPathRecv m i np nl) as [[m1 b]|] eqn:Hpath; [|done].
    injection Hrun as <- _.
    by apply onPeerPathRecv_Done in Hpath
      as (_ & [[_ ->]|(_ & _ & _ & ->)]).
  - pose proof (handleCommand_count m t c) as Hc.
    destruct (handleCommand m t c) as [[m2 fx2] reply]. simpl in *.
    injection Hrun as <- _. done.
  - by injection Hrun as <- _.
Qed.

(** X6.  What holds of every state a repeater can reach by calls that write
    past no array (see X5 for the calls that do): the table has its
    [MAX_CLIENTS] slots and at most that many clients, every stored secret is
    the ECDH secret of the node's own identity and the client's key, and no
    two clients have the same key. *)
Theorem repeater_reachable_invariant (m : MyMesh) :
  reachable m ->
  wf m
  /\ (forall j, 0 <= j < num_clients m ->
        secret (client_at m j)
        = calcSharedSecret (self_id m) (id (client_at m j)))
  /\ (forall j k, 0 <= j < num_clients m -> 0 <= k < num_clients m ->
        id (client_at m j) = id (client_at m k) -> j = k).
Proof.
  induction 1 as [self clock|m op m' fx _ (Hwf & Hsec & Hdistinct) Hstep].
  { split; [by split|]. split; simpl; intros; lia. }
  destruct (step_clients_kept m m' op fx Hwf Hstep)
    as (Hwf' & Hself & Hle & Hkeep).
  assert (Hnew : num_clients m' = num_clients m
    \/ (num_clients m' = num_clients m + 1
        /\ secret (client_at m' (num_clients m))
           = calcSharedSecret (self_id m) (id (client_at m' (num_clients m)))
        /\ forall j, 0 <= j < num_clients m ->
             id (client_at m j) <> id (client_at m' (num_clients m)))).
  { destruct (Z.eq_dec (num_clients m') (num_clients m)) as [|Hne]; [by left|].
    right.
    destruct (step_grows_by_login m m' op fx Hstep Hne)
      as (p & t & s & d & n & ->).
    simpl in Hstep. injection Hstep as Hrun.
    assert (m' = fst (onAnonDataRecv m p t s d n)) as -> by (by rewrite Hrun).
    destruct (onAnonDataRecv_count m p t s d n) as [?|[_ Hgrow]]; [done|].
    destruct (onAnonDataRecv_new_client m p t s d n Hwf Hgrow)
      as (Hid & Hs & Hnone).
    split; [done|]. rewrite Hid. done. }
  split; [done|]. split.
  - intros j Hj. rewrite Hself.
    destruct (Z.lt_ge_cases j (num_clients m)) as [Hold|Hge].
    + destruct (Hkeep j ltac:(lia)) as (-> & -> & _). apply Hsec. lia.
    + destruct Hnew as [?|(Hn & Hs & _)]; [lia|].
      assert (j = num_clients m) as -> by lia. done.
  - intros j k Hj Hk Heq.
    destruct (Z.lt_ge_cases j (num_clients m)) as [Hjo|Hjn],
             (Z.lt_ge_cases k (num_clients m)) as [Hko|Hkn].
    + apply Hdistinct; [lia | lia |].
      destruct (Hkeep j ltac:(lia)) as (<- & _), (Hkeep k ltac:(lia)) as (<- & _).
      done.
    + destruct Hnew as [?|(Hn & _ & Hnone)]; [lia|].
      assert (k = num_clients m) as -> by lia.
      exfalso. apply (Hnone j ltac:(lia)).
      destruct (Hkeep j ltac:(lia)) as (<- & _). done.
    + destruct Hnew as [?|(Hn & _ & Hnone)]; [lia|].
      assert (j = num_clients m) as -> by lia.
      exfalso. apply (Hnone k ltac:(lia)).
      destruct (Hkeep k ltac:(lia)) as (<- & _). done.
    + destruct Hnew as [?|(Hn & _)]; lia.
Qed.

(** *** Logging in twice *)

Lemma putClient_found (m m1 : MyMesh) (sender : Identity) (i : Z) :
  wf m -> putClient m sender = (m1, Some i) ->
  find_index (fun c => matches sender (id c))
    (live (num_clients m1) (known_clients m1)) 0 = Some i.
Proof.
  intros Hwf Hput.
  destruct (putClient_Some _ _ _ _ Hwf Hput) as (Hwf1 & Hi & Hid & Hkeep & Hcase).
  pose proof (find_client_spec m1 sender Hwf1) as Hfind1.
  pose proof (find_client_spec m sender Hwf) as Hfind.
  unfold putClient in Hput.
  destruct (find_index _ (live (num_clients m1) _) 0) as [i1|] eqn:Hf1;
    [|exfalso; by apply (Hfind1 i Hi)].
  destruct Hfind1 as (Hi1 & Hid1 & Hfirst1). f_equal.
  destruct (find_index _ (live (num_clients m) _) 0) as [i0|] eqn:Hf0.
  - injection Hput as <- <-. rewrite Hf0 in Hf1. congruence.
  - destruct (num_clients m <? MAX_CLIENTS); [|done].
    injection Hput as <- <-.
    destruct (Z.lt_trichotomy i1 (num_clients m)) as [Hlt|[->|Hgt]];
      [|done|simpl in Hi1; lia].
    exfalso. apply (Hfind i1); [lia|]. rewrite <- (Hkeep i1) by lia. done.
Qed.

(** X7.  Replay of a login.  After a login that was accepted with timestamp
    [t], any further ANON_REQ of the same sender with the right password and a
    timestamp of at most [t], the same request sent again included, is
    dropped: nothing is sent and the state stays exactly as the first login
    left it. *)
Theorem login_replay_rejected
    (m m1 : MyMesh) (packet packet2 : Packet) (sender : Identity)
    (data data2 : bytes) (len len2 i : Z) :
  wf m ->
  take 8 (drop 4 data) = ADMIN_PASSWORD ->
  take 8 (drop 4 data2) = ADMIN_PASSWORD ->
  putClient m sender = (m1, Some i) ->
  last_timestamp (client_at m1 i) < le32_decode data ->
  le32_decode data2 <= le32_decode data ->
  let m' := fst (onAnonDataRecv m packet PAYLOAD_TYPE_ANON_REQ sender data len) in
  last_timestamp (client_at m' i) = le32_decode data
  /\ onAnonDataRecv m' packet2 PAYLOAD_TYPE_ANON_REQ sender data2 len2 = (m', []).
Proof.
  intros Hwf Hpw Hpw2 Hput Hts Hle m'.
  destruct (putClient_Some _ _ _ _ Hwf Hput) as (Hwf1 & Hi & Hid & Hkeep & Hcase).
  pose proof (putClient_found _ _ _ _ Hwf Hput) as Hfound.
  set (c := set_last_timestamp (client_at m1 i) (le32_decode data)).
  assert (Hm' : exists r, m' = with_reply_data (store_client m1 i c) r).
  { subst m'. unfold onAnonDataRecv.
    destruct (decide _); [|done].
    assert (memcmp_eq (drop 4 data) ADMIN_PASSWORD
              (Z.to_nat (strlen ADMIN_PASSWORD)) = true) as ->
      by (apply memcmp_eq_true; exact Hpw).
    rewrite Hput.
    destruct (Z.leb_spec (le32_decode data) (last_timestamp (client_at m1 i)));
      [lia|]. simpl. by eexists. }
  destruct Hm' as [r Hm']. clearbody m'. subst m'.
  destruct Hwf1 as [Hlen1 Hnum1].
  assert (Hat : client_at (with_reply_data (store_client m1 i c) r) i = c).
  { unfold client_at; simpl. by rewrite list_lookup_insert_eq by lia. }
  assert (Hwf' : wf (with_reply_data (store_client m1 i c) r)).
  { split; simpl; [by rewrite length_insert | lia]. }
  assert (Hfind' :
    find_index (fun x => matches sender (id x))
      (live (num_clients (with_reply_data (store_client m1 i c) r))
         (known_clients (with_reply_data (store_client m1 i c) r))) 0 = Some i).
  { rewrite <- Hfound. apply find_client_ext; [by split | done | done |].
    intros j Hj. unfold client_at; simpl.
    destruct (decide (Z.to_nat i = Z.to_nat j)) as [Heq|Hne].
    - rewrite Heq, list_lookup_insert_eq by lia. subst c. simpl.
      unfold client_at. by rewrite Heq.
    - by rewrite list_lookup_insert_ne. }
  split; [by rewrite Hat|].
  unfold onAnonDataRecv. destruct (decide _); [|done].
  assert (memcmp_eq (drop 4 data2) ADMIN_PASSWORD
            (Z.to_nat (strlen ADMIN_PASSWORD)) = true) as ->
    by (apply memcmp_eq_true; exact Hpw2).
  unfold putClient. rewrite Hfind'. rewrite Hat. subst c. simpl last_timestamp.
  destruct (Z.leb_spec (le32_decode data2) (le32_decode data)); [done | lia].
Qed.

(** *** Searching peers by hash *)

Lemma search_from_spec (h : bytes) (l : list ClientInfo) (k i : Z) :
  i ∈ search_from h l k <->
  k <= i /\ exists c, l !! Z.to_nat (i - k) = Some c
                      /\ isHashMatch (id c) h = true.
Proof.
  revert k. induction l as [|c l IH]; intros k; simpl.
  - split; [by intros ?%elem_of_nil | by intros (_ & ? & ? & _)].
  - assert (Hrest : i ∈ search_from h l (k + 1) <->
      k < i /\ exists c', (c :: l) !! Z.to_nat (i - k) = Some c'
                          /\ isHashMatch (id c') h = true).
    { rewrite IH. split.
      - intros (Hk & c' & Hc' & Hm). split; [lia|]. exists c'. split; [|done].
        replace (Z.to_nat (i - k)) with (S (Z.to_nat (i - (k + 1)))) by lia.
        done.
      - intros (Hk & c' & Hc' & Hm). split; [lia|]. exists c'. split; [|done].
        replace (Z.to_nat (i - k)) with (S (Z.to_nat (i - (k + 1)))) in Hc'
          by lia. done. }
    destruct (isHashMatch (id c) h) eqn:Hc.
    + rewrite elem_of_cons, Hrest. split.
      * intros [->|(Hk & Hex)]; [|split; [lia | done]].
        split; [lia|]. exists c. by rewrite Z.sub_diag.
      * intros (Hk & Hex). destruct (Z.eq_dec i k) as [->|]; [by left|].
        right. split; [lia | done].
    + rewrite Hrest. split.
      * intros (Hk & Hex). split; [lia | done].
      * intros (Hk & c' & Hc' & Hm). split; [|by exists c'].
        destruct (Z.eq_dec i k) as [->|]; [|lia].
        rewrite Z.sub_diag in Hc'. simpl in Hc'. congruence.
Qed.

Lemma search_from_length (h : bytes) (l : list ClientInfo) (k : Z) :
  (length (search_from h l k) <= length l)%nat.
Proof.
  revert k. induction l as [|c l IH]; intros k; simpl; [done|].
  destruct (isHashMatch _ _); simpl; specialize (IH (k + 1)); lia.
Qed.

Lemma search_from_increasing (h : bytes) (l : list ClientInfo) (k : Z)
    (a b : nat) (x y : Z) :
  search_from h l k !! a = Some x -> search_from h l k !! b = Some y ->
  (a < b)%nat -> k <= x < y.
Proof.
  revert k a b. induction l as [|c l IH]; intros k a b Ha Hb Hab; simpl in *;
    [done|].
  assert (Hlow : forall n z, search_from h l (k + 1) !! n = Some z -> k < z).
  { intros n z Hz. apply list_elem_of_lookup_2, search_from_spec in Hz. lia. }
  destruct (isHashMatch _ _).
  - destruct b as [|b]; [lia|]. simpl in Hb. destruct a as [|a].
    + injection Ha as <-. apply Hlow in Hb. lia.
    + simpl in Ha. destruct (IH (k + 1) a b Ha Hb); lia.
  - destruct (IH (k + 1) a b Ha Hb); lia.
Qed.

Lemma int_at_app_l (found rest : list Z) (k : Z) :
  0 <= k < Z.of_nat (length found) ->
  found !! Z.to_nat k = Some (int_at (found ++ rest) k).
Proof.
  intros Hk. unfold int_at. destruct (Z.ltb_spec k 0); [lia|].
  rewrite lookup_app_l by lia.
  destruct (lookup_lt_is_Some_2 found (Z.to_nat k)) as [x ->]; [lia | done].
Qed.

(** X8.  [searchPeersByHash], then [getPeerSharedSecret].  The search returns
    [n], at most [num_clients], and leaves in [matching_peer_indexes[0..n)]
    exactly the indexes of the known clients whose key starts with the hash
    byte, in increasing order; the table itself is not touched.  For each of
    these positions [getPeerSharedSecret] then copies the first [PUB_KEY_SIZE]
    bytes of that client's stored secret. *)
Theorem repeater_search_then_secret (m : MyMesh) (h dest : bytes) :
  wf m ->
  let m' := fst (searchPeersByHash m h) in
  let n := snd (searchPeersByHash m h) in
  let found k := int_at (matching_peer_indexes m') k in
  0 <= n <= num_clients m
  /\ known_clients m' = known_clients m /\ num_clients m' = num_clients m
  /\ (forall k, 0 <= k < n ->
        0 <= found k < num_clients m
        /\ isHashMatch (id (client_at m (found k))) h = true
        /\ getPeerSharedSecret m' dest k
           = blit dest 0
               (take (Z.to_nat PUB_KEY_SIZE) (secret (client_at m (found k)))))
  /\ (forall i, 0 <= i < num_clients m ->
        isHashMatch (id (client_at m i)) h = true ->
        exists k, 0 <= k < n /\ found k = i)
  /\ (forall k k', 0 <= k < k' -> k' < n -> found k < found k').
Proof.
  intros Hwf m' n found. subst m' n found. unfold searchPeersByHash. simpl.
  set (l := search_from h (live (num_clients m) (known_clients m)) 0).
  set (rest := drop (length l) (matching_peer_indexes m)).
  pose proof (search_from_length h (live (num_clients m) (known_clients m)) 0)
    as Hlen.
  pose proof (live_length (num_clients m) (known_clients m)) as Hll.
  fold l in Hlen. destruct Hwf as [Htbl Hnum].
  assert (Hin : forall k, 0 <= k < Z.of_nat (length l) ->
    0 <= int_at (l ++ rest) k < num_clients m
    /\ isHashMatch (id (client_at m (int_at (l ++ rest) k))) h = true).
  { intros k Hk. pose proof (int_at_app_l l rest k Hk) as Hx.
    apply list_elem_of_lookup_2, search_from_spec in Hx
      as (Hlow & c & Hc & Hm).
    rewrite Z.sub_0_r in Hc. pose proof Hc as Hc'.
    apply live_lookup in Hc as [Hc Hlt].
    split; [lia|]. by rewrite (client_at_lookup _ _ _ Hc). }
  split; [lia|]. split; [done|]. split; [done|]. split; [|split].
  - intros k Hk. destruct (Hin k Hk) as [Hr Hm]. split; [done|]. split; [done|].
    unfold getPeerSharedSecret. simpl.
    by rewrite valid_index_test'.
  - intros i Hi Hm.
    assert (Hel : i ∈ l).
    { apply search_from_spec. split; [lia|]. exists (client_at m i).
      rewrite Z.sub_0_r. split; [|done]. by apply live_client_at. }
    apply list_elem_of_lookup_1 in Hel as [a Ha].
    pose proof (lookup_lt_Some _ _ _ Ha) as Hlt.
    exists (Z.of_nat a). split; [lia|].
    pose proof (int_at_app_l l rest (Z.of_nat a) ltac:(lia)) as Hx.
    rewrite Nat2Z.id in Hx. congruence.
  - intros k k' Hk Hk'.
    pose proof (int_at_app_l l rest k ltac:(lia)) as Hx.
    pose proof (int_at_app_l l rest k' ltac:(lia)) as Hy.
    destruct (search_from_increasing _ _ _ _ _ _ _ Hx Hy); lia.
Qed.

(** *** Learning a path *)

(** X9.  [onPeerPathRecv] from a known client with a path of at most
    [MAX_PATH_SIZE] bytes stores the path:  [out_path_len] becomes the length
    received, [out_path] starts with the path and keeps its bytes behind it,
    while the client's key, secret and [last_timestamp] and all other clients
    stay as they are; the handler answers [false] (no reciprocal path).  From
    then on the reply to a stats request that did not arrive as a flood is
    sent direct along that path, not flooded.  From an unknown sender index
    nothing is stored.  A longer path from a known client is copied past the
    end of [out_path]. *)
Theorem repeater_path_then_direct
    (m : MyMesh) (sender_idx : Z) (new_path : bytes) (new_path_len : Z) :
  let i := int_at (matching_peer_indexes m) sender_idx in
  let c := client_at m i in
  (~ 0 <= i < num_clients m ->
     onPeerPathRecv m sender_idx new_path new_path_len = Done (m, false))
  /\ (0 <= i < num_clients m ->
      ~ (0 <= new_path_len <= MAX_PATH_SIZE
         /\ new_path_len <= Z.of_nat (length new_path)) ->
      onPeerPathRecv m sender_idx new_path new_path_len = Overrun)
  /\ (wf m -> 0 <= i < num_clients m ->
      0 <= new_path_len <= MAX_PATH_SIZE ->
      new_path_len <= Z.of_nat (length new_path) ->
      exists m1,
        onPeerPathRecv m sender_idx new_path new_path_len = Done (m1, false)
        /\ let c1 := client_at m1 i in
           out_path_len c1 = new_path_len
           /\ take (Z.to_nat new_path_len) (out_path c1)
              = take (Z.to_nat new_path_len) new_path
           /\ drop (Z.to_nat new_path_len) (out_path c1)
              = drop (Z.to_nat new_path_len) (out_path c)
           /\ id c1 = id c /\ secret c1 = secret c
           /\ last_timestamp c1 = last_timestamp c
           /\ (forall j, 0 <= j -> j <> i -> client_at m1 j = client_at m j)
           /\ self_id m1 = self_id m /\ num_clients m1 = num_clients m
           /\ rtc_clock m1 = rtc_clock m
           /\ matching_peer_indexes m1 = matching_peer_indexes m
           /\ forall (packet p : Packet) (key data : bytes) (len : Z),
                route_flood packet = false ->
                length repeater_stats = Z.to_nat sizeof_RepeaterStats ->
                last_timestamp c < le32_decode data ->
                byte_at data 4 = CMD_GET_STATS ->
                createDatagram PAYLOAD_TYPE_RESPONSE (id c) key
                  (le32_encode (RTC.getCurrentTime (rtc_clock m))
                   ++ repeater_stats)
                = Some p ->
                exists m2,
                  onPeerDataRecv m1 packet PAYLOAD_TYPE_REQ sender_idx key
                    data len
                  = Done (m2,
                          [Send (SendDirect p (out_path c1) new_path_len 0)])).
Proof.
  intros i c. subst c. split; [|split].
  - intros Hbad. unfold onPeerPathRecv. fold i.
    destruct (Z.leb_spec 0 i); [|done].
    destruct (Z.ltb_spec i (num_clients m)); [lia | done].
  - intros Hi Hbad. unfold onPeerPathRecv. fold i.
    rewrite valid_index_test' by done.
    destruct (set_out_path _ _ _) as [c'|] eqn:Hset; [|done].
    apply set_out_path_Done in Hset as (? & ? & _). by destruct Hbad.
  - intros [Hlen Hnum] Hi Hn Hfit.
    set (c1 := with_out_path (client_at m i) new_path_len
                 (blit (out_path (client_at m i)) 0
                    (take (Z.to_nat new_path_len) new_path))).
    exists (store_client m i c1). split.
    { unfold onPeerPathRecv. fold i. rewrite valid_index_test' by done.
      by rewrite set_out_path_fits. }
    assert (Hat : client_at (store_client m i c1) i = c1).
    { unfold client_at, store_client; simpl.
      by rewrite list_lookup_insert_eq by lia. }
    cbv zeta. rewrite Hat.
    assert (Htake : length (take (Z.to_nat new_path_len) new_path)
                    = Z.to_nat new_path_len) by (rewrite length_take; lia).
    split; [done|]. split.
    { unfold c1, blit. simpl. by apply take_app_length'. }
    split.
    { unfold c1, blit. simpl. rewrite drop_app_length' by done.
      by rewrite Htake. }
    split; [done|]. split; [done|]. split; [done|]. split.
    { intros j Hj Hne. unfold client_at, store_client; simpl.
      by rewrite list_lookup_insert_ne by lia. }
    split; [done|]. split; [done|]. split; [done|]. split; [done|].
    intros packet p key data len Hdirect Hstats Hts Hcmd Hbuilt.
    set (m1 := store_client m i c1) in *.
    assert (Hwf1 : wf m1) by (split; simpl; [by rewrite length_insert | lia]).
    assert (Hi1 : 0 <= int_at (matching_peer_indexes m1) sender_idx
                  < num_clients m1) by done.
    assert (Hts1 : last_timestamp
                     (client_at m1 (int_at (matching_peer_indexes m1) sender_idx))
                   < le32_decode data).
    { change (int_at (matching_peer_indexes m1) sender_idx) with i.
      by rewrite Hat. }
    destruct (req_get_stats_run m1 packet sender_idx key data len Hwf1 Hstats
                Hi1 Hts1 Hcmd) as (m2 & Hrun & _).
    exists m2. rewrite Hrun.
    change (int_at (matching_peer_indexes m1) sender_idx) with i.
    rewrite Hat. rewrite Hdirect.
    change (rtc_clock m1) with (rtc_clock m).
    change (id c1) with (id (client_at m i)). rewrite Hbuilt.
    change (out_path_len c1) with new_path_len.
    destruct (Z.leb_spec 0 new_path_len); [done | lia].
Qed.

(** *** The clock *)

(** X10.  A "clock sync" that is accepted moves the clock strictly forward, to
    one second past the sender's timestamp, unless that timestamp is the
    largest 32-bit value, in which case the clock wraps to 0.  After an
    accepted sync the same command with the same or an older timestamp is
    refused and changes nothing.  With timestamp 0, which is what the serial
    console passes, "clock sync" is always refused. *)
Theorem clock_sync_advances
    (m : MyMesh) (sender_timestamp : Z) (command : bytes) :
  take 10 (skip_spaces command) = lit "clock sync" ->
  let curr := RTC.getCurrentTime (rtc_clock m) in
  let m1 := fst (fst (handleCommand m sender_timestamp command)) in
  let curr1 := RTC.getCurrentTime (rtc_clock m1) in
  (curr < sender_timestamp < 2 ^ 32 - 1 ->
     curr1 = sender_timestamp + 1 /\ curr < curr1
     /\ forall t, t <= sender_timestamp + 1 ->
          handleCommand m1 t command
          = (m1, [], Some (lit "ERR: clock cannot go backwards")))
  /\ (curr < sender_timestamp -> sender_timestamp = 2 ^ 32 - 1 -> curr1 = 0)
  /\ handleCommand m 0 command
     = (m, [], Some (lit "ERR: clock cannot go backwards")).
Proof.
  intros Hcmd curr m1 curr1.
  assert (Hsync : memcmp_eq (skip_spaces command) (lit "clock sync") 10 = true)
    by (apply memcmp_eq_true; exact Hcmd).
  assert (Hrun : forall (m0 : MyMesh) t,
    handleCommand m0 t command
    = if t >? RTC.getCurrentTime (rtc_clock m0) then
        (with_rtc m0 (RTC.setCurrentTime (rtc_clock m0) (wrap32 (t + 1))), [],
         Some (lit "OK - clock set"))
      else (m0, [], Some (lit "ERR: clock cannot go backwards"))).
  { intros m0 t. unfold handleCommand.
    rewrite (memcmp_eq_shorter _ _ 10 (lit "reboot") 6) by (lia || exact Hsync).
    rewrite (memcmp_eq_shorter _ _ 10 (lit "advert") 6) by (lia || exact Hsync).
    rewrite Hsync. done. }
  pose proof (wrap32_range (RTC.tv_sec (rtc_clock m))) as Hcurr.
  fold (RTC.getCurrentTime (rtc_clock m)) in Hcurr. fold curr in Hcurr.
  subst m1 curr1. rewrite !Hrun. fold curr.
  split; [|split].
  - intros Hts. destruct (Z.gtb_spec sender_timestamp curr); [|lia]. simpl.
    unfold RTC.getCurrentTime at 1 2. simpl.
    rewrite !wrap32_small by (rewrite ?wrap32_small; lia).
    split; [done|]. split; [lia|].
    intros t Ht. rewrite Hrun. unfold RTC.getCurrentTime. simpl.
    rewrite !wrap32_small by (rewrite ?wrap32_small; lia).
    destruct (Z.gtb_spec t (sender_timestamp + 1)); [lia | done].
  - intros Hts ->. destruct (Z.gtb_spec (2 ^ 32 - 1) curr); [|lia]. done.
  - destruct (Z.gtb_spec 0 curr); [lia | done].
Qed.

(** *** The serial console *)

Lemma take_strlen (buf : bytes) : take (length (cstr buf)) buf = cstr buf.
Proof.
  induction buf as [|b buf IH]; simpl; [done|].
  destruct (decide (b = x00)); simpl; [done | by rewrite IH].
Qed.

Lemma cstr_length_le (buf : bytes) : (length (cstr buf) <= length buf)%nat.
Proof.
  induction buf as [|b buf IH]; simpl; [done|].
  destruct (decide (b = x00)); simpl; lia.
Qed.

(** The byte that ends the C string, when it lies inside the buffer. *)
Lemma cstr_terminator (buf : bytes) :
  (length (cstr buf) < length buf)%nat ->
  buf !! length (cstr buf) = Some x00.
Proof.
  induction buf as [|b buf IH]; simpl; [lia|].
  destruct (decide (b = x00)) as [->|]; simpl; [done|]. intros. apply IH. lia.
Qed.

Lemma poke_two (buf : bytes) (n : nat) (x y : byte) :
  (S n < length buf)%nat ->
  poke (poke buf (Z.of_nat n) x) (Z.of_nat n + 1) y
  = take n buf ++ x :: y :: drop (S (S n)) buf.
Proof.
  intros Hn. unfold poke.
  destruct (Z.leb_spec 0 (Z.of_nat n)); [|lia].
  destruct (Z.leb_spec 0 (Z.of_nat n + 1)); [|lia].
  rewrite Nat2Z.id. replace (Z.to_nat (Z.of_nat n + 1)) with (S n) by lia.
  rewrite (insert_take_drop buf n x) by lia.
  rewrite insert_take_drop by (rewrite length_app, length_take; simpl;
                               rewrite length_drop; lia).
  rewrite take_app_ge by (rewrite length_take; lia).
  rewrite drop_app_ge by (rewrite length_take; lia).
  rewrite length_take. replace (S n - n `min` length buf)%nat with 1%nat by lia.
  replace (S (S n) - n `min` length buf)%nat with 2%nat by lia.
  change (take 1 (x :: drop (S n) buf)) with [x].
  change (drop 2 (x :: drop (S n) buf)) with (drop 1 (drop (S n) buf)).
  rewrite drop_drop, <- app_assoc. simpl app.
  by replace (S (n + 1)) with (S (S n)) by lia.
Qed.

(** Reading while the buffer has room: the stored characters are appended
    at [len], followed by a terminator; everything is consumed and
    echoed. *)
Lemma read_serial_fits (pending command : bytes) (n : nat) :
  command !! n = Some x00 ->
  (n + length (stored_chars pending) < length command)%nat ->
  Z.of_nat (n + length (stored_chars pending)) < sizeof_command - 1 ->
  read_serial command (Z.of_nat n) pending
  = (take n command ++ stored_chars pending
       ++ x00 :: drop (S (n + length (stored_chars pending))) command,
     Z.of_nat (n + length (stored_chars pending)), [], pending).
Proof.
  revert command n. induction pending as [|c pending IH];
    intros command n Hterm Hfit Hroom.
  - simpl. rewrite Nat.add_0_r.
    rewrite <- (take_drop_middle command n x00 Hterm) at 1. done.
  - simpl read_serial.
    destruct (Z.ltb_spec (Z.of_nat n) (sizeof_command - 1)) as [_|Hfull].
    2:{ unfold stored_chars in Hroom. lia. }
    unfold stored_chars in *. rewrite filter_cons in *.
    destruct (decide (c = x0a)) as [->|Hc].
    + destruct (decide (x0a <> x0a)); [done|].
      rewrite (IH command n) by done. done.
    + destruct (decide (c <> x0a)); [|done]. simpl length in *.
      rewrite poke_two by lia.
      replace (Z.of_nat n + 1) with (Z.of_nat (S n)) by lia.
      rewrite IH.
      * set (k := length (filter (fun c0 => c0 <> x0a) pending)) in *.
        assert (Hn : length (take n command) = n)
          by (rewrite length_take; lia).
        rewrite take_app_ge by lia. rewrite drop_app_ge by lia. rewrite Hn.
        replace (S n - n)%nat with 1%nat by lia.
        replace (S (S n + k) - n)%nat with (S (S k)) by lia.
        change (take 1 (c :: ?l)) with [c].
        change (drop (S (S k)) (c :: x00 :: ?l)) with (drop k l).
        rewrite drop_drop, <- app_assoc. simpl app.
        replace (S n + k)%nat with (n + S k)%nat by lia.
        by replace (S (S (n + k))) with (S (n + S k)) by lia.
      * rewrite lookup_app_r by (rewrite length_take; lia).
        rewrite length_take. by replace (S n - n `min` length command)%nat
          with 1%nat by lia.
      * rewrite length_app, length_take. simpl. rewrite length_drop. lia.
      * lia.
Qed.

(** X11.  One pass of the console over input that fits into the command
    buffer.  Line feeds are echoed but not stored.  When the stored text, old
    and new together, ends with a carriage return, the text before it is run
    as a command with timestamp 0, the reply (if not empty) is printed after "
    -> ", and the buffer is emptied; a reboot ends the run.  Otherwise no
    command runs, the text stays in the buffer for the next pass, and the mesh
    state is untouched.  Either way all input is consumed and echoed. *)
Theorem serial_console_line
    (m : MyMesh) (command pending : bytes) :
  let text := cstr command ++ stored_chars pending in
  length command = Z.to_nat sizeof_command ->
  Z.of_nat (length text) < sizeof_command - 1 ->
  let rest := drop (S (length text)) command in
  (forall line, text = line ++ [x0d] ->
     let buf := line ++ x00 :: x00 :: rest in
     serial_console m command pending
     = match handleCommand m 0 buf with
       | (_, _, None) => None
       | (m1, fx, Some reply) =>
           Some (m1, poke buf 0 x00, [],
                 pending ++ (if decide (byte_at reply 0 = x00) then []
                             else lit "  -> " ++ cstr reply ++ [x0d; x0a]),
                 fx)
       end)
  /\ ((forall line, text <> line ++ [x0d]) ->
      serial_console m command pending
      = Some (m, text ++ x00 :: rest, [], pending, [])
      /\ (x00 ∉ pending -> cstr (text ++ x00 :: rest) = text)).
Proof.
  intros text Hsize Hroom rest.
  pose proof (cstr_length_le command) as Hle.
  assert (Hlen : length text
                 = (length (cstr command) + length (stored_chars pending))%nat)
    by (subst text; by rewrite length_app).
  assert (Hterm : command !! length (cstr command) = Some x00).
  { apply cstr_terminator. unfold sizeof_command in *. lia. }
  assert (Hread : read_serial command (strlen command) pending
                  = (text ++ x00 :: rest, Z.of_nat (length text), [], pending)).
  { unfold strlen. rewrite read_serial_fits; try done.
    - subst text rest. rewrite take_strlen, Hlen, <- app_assoc. done.
    - unfold sizeof_command in *. lia.
    - lia. }
  unfold serial_console. rewrite Hread.
  destruct (Z.eqb_spec (Z.of_nat (length text)) (sizeof_command - 1)); [lia|].
  split.
  - intros line Htext. set (buf := line ++ x00 :: x00 :: rest).
    assert (Hn : length text = S (length line))
      by (rewrite Htext, length_app; simpl; lia).
    destruct (Z.gtb_spec (Z.of_nat (length text)) 0); [|lia].
    assert (Hlast : byte_at (text ++ x00 :: rest)
                      (Z.to_nat (Z.of_nat (length text) - 1)) = x0d).
    { unfold byte_at. rewrite Hn, Htext, <- app_assoc.
      replace (Z.to_nat (Z.of_nat (S (length line)) - 1)) with (length line)
        by lia.
      rewrite app_nth2 by lia. by rewrite Nat.sub_diag. }
    rewrite Hlast, bool_decide_eq_true_2 by done. simpl andb. cbv iota.
    assert (Hbuf : poke (text ++ x00 :: rest) (Z.of_nat (length text) - 1) x00
                   = buf).
    { unfold poke. destruct (Z.leb_spec 0 (Z.of_nat (length text) - 1)); [|lia].
      rewrite Hn, Htext, <- app_assoc.
      replace (Z.to_nat (Z.of_nat (S (length line)) - 1))
        with (length line + 0)%nat by lia.
      by rewrite insert_app_r. }
    rewrite Hbuf. done.
  - intros Hnocr.
    assert (Hnot : (Z.of_nat (length text) >? 0)
                   && bool_decide (byte_at (text ++ x00 :: rest)
                        (Z.to_nat (Z.of_nat (length text) - 1)) = x0d) = false).
    { destruct (Z.gtb_spec (Z.of_nat (length text)) 0); [|done]. simpl.
      apply bool_decide_eq_false_2. intros Hcr.
      destruct (exists_last (l := text)) as (line & b & Htext);
        [by destruct text|].
      apply (Hnocr line). rewrite Htext. f_equal. f_equal.
      unfold byte_at in Hcr. rewrite Htext, <- app_assoc in Hcr.
      rewrite length_app in Hcr. simpl in Hcr.
      replace (Z.to_nat (Z.of_nat (length line + 1) - 1)) with (length line)
        in Hcr by lia.
      rewrite app_nth2 in Hcr by lia. by rewrite Nat.sub_diag in Hcr. }
    rewrite Hnot. split; [done|].
    intros Hnul. apply cstr_app_no_nul. subst text.
    apply not_elem_of_app. split; [apply cstr_no_nul|].
    unfold stored_chars. intros Hin. apply list_elem_of_filter in Hin as [_ ?].
    done.
Qed.


(** *** The airtime factor *)

(** A comparison of a longer prefix fails when a shorter prefix already
    differs. *)
Lemma memcmp_eq_longer buf l l' n n' :
  (n <= n')%nat ->
  take n buf = take n l -> take n l' <> take n l ->
  memcmp_eq buf l' n' = false.
Proof.
  intros Hle Hbuf Hne. apply memcmp_eq_false. intros Heq.
  apply (f_equal (take n)) in Heq.
  rewrite !take_take, !Nat.min_l in Heq by done. congruence.
Qed.

(** X12.  "set" changes the airtime factor, which [getAirtimeBudgetFactor]
    hands to the router.  The key is recognised by its first two letters
    alone, "AF" or "af", and the number is read from the eighth character of
    the command whatever the seventh is; the reply is "OK".  Any other key
    leaves the factor as it is and is answered with "unknown config:  ". *)
Theorem set_airtime_factor
    (m : MyMesh) (sender_timestamp : Z) (command : bytes) :
  let c := skip_spaces command in
  take 4 c = lit "set " ->
  let run := handleCommand m sender_timestamp command in
  (take 2 (drop 4 c) = lit "AF" \/ take 2 (drop 4 c) = lit "af" ->
   run = (with_airtime_factor m (atof (drop 7 c)), [], Some (lit "OK"))
   /\ getAirtimeBudgetFactor (fst (fst run)) = atof (drop 7 c))
  /\ (take 2 (drop 4 c) <> lit "AF" -> take 2 (drop 4 c) <> lit "af" ->
      run = (m, [], Some (lit "unknown config: " ++ cstr (drop 4 c)))
      /\ getAirtimeBudgetFactor (fst (fst run)) = getAirtimeBudgetFactor m).
Proof.
  intros c Hset run. subst run. unfold handleCommand. fold c.
  rewrite (memcmp_eq_longer c (lit "set ") (lit "reboot") 4 6)
    by (lia || done).
  rewrite (memcmp_eq_longer c (lit "set ") (lit "advert") 4 6)
    by (lia || done).
  rewrite (memcmp_eq_longer c (lit "set ") (lit "clock sync") 4 10)
    by (lia || done).
  rewrite (memcmp_eq_longer c (lit "set ") (lit "clock") 4 5)
    by (lia || done).
  assert (memcmp_eq c (lit "set ") 4 = true) as ->
    by (by apply memcmp_eq_true).
  split.
  - intros Hkey.
    assert (memcmp_eq (drop 4 c) (lit "AF") 2
            || memcmp_eq (drop 4 c) (lit "af=") 2 = true) as ->.
    { apply orb_true_iff.
      destruct Hkey as [Hk|Hk]; [left | right]; by apply memcmp_eq_true. }
    done.
  - intros Hupper Hlower.
    assert (memcmp_eq (drop 4 c) (lit "AF") 2
            || memcmp_eq (drop 4 c) (lit "af=") 2 = false) as ->.
    { apply orb_false_iff. split; by apply memcmp_eq_false. }
    done.
Qed.


(** *** The clock of the board *)

(** X13.  The board's clock returns what was set, for any 32-bit time.
    [begin] keeps the time over a reset that is not a power-on and starts at
    1715770351 (15 May 2024) after a power-on; a repeater that has just been
    powered on therefore accepts a "clock sync" exactly from senders whose
    timestamp is later than that date. *)
Theorem power_on_clock
    (m : MyMesh) (t sender_timestamp : Z) (command : bytes) :
  0 <= t < 2 ^ 32 ->
  let c := rtc_clock m in
  let m0 := with_rtc m (RTC.begin c true) in
  RTC.getCurrentTime (RTC.setCurrentTime c t) = t
  /\ RTC.getCurrentTime (RTC.begin c false) = RTC.getCurrentTime c
  /\ RTC.getCurrentTime (RTC.begin c true) = 1715770351
  /\ (take 10 (skip_spaces command) = lit "clock sync" ->
      (sender_timestamp <= 1715770351 ->
       handleCommand m0 sender_timestamp command
       = (m0, [], Some (lit "ERR: clock cannot go backwards")))
      /\ (1715770351 < sender_timestamp ->
          handleCommand m0 sender_timestamp command
          = (with_rtc m0
               (RTC.setCurrentTime (rtc_clock m0) (wrap32 (sender_timestamp + 1))),
             [], Some (lit "OK - clock set")))).
Proof.
  intros Ht c m0.
  split; [unfold RTC.getCurrentTime; simpl; by apply wrap32_small|].
  split; [done|]. split; [done|].
  intros Hcmd.
  assert (Hsync : memcmp_eq (skip_spaces command) (lit "clock sync") 10 = true)
    by (apply memcmp_eq_true; exact Hcmd).
  assert (Hrun : handleCommand m0 sender_timestamp command
    = if sender_timestamp >? 1715770351 then
        (with_rtc m0
           (RTC.setCurrentTime (rtc_clock m0) (wrap32 (sender_timestamp + 1))),
         [], Some (lit "OK - clock set"))
      else (m0, [], Some (lit "ERR: clock cannot go backwards"))).
  { unfold handleCommand.
    rewrite (memcmp_eq_shorter _ _ 10 (lit "reboot") 6) by (lia || exact Hsync).
    rewrite (memcmp_eq_shorter _ _ 10 (lit "advert") 6) by (lia || exact Hsync).
    rewrite Hsync. done. }
  rewrite Hrun. split; intros Hts.
  - destruct (Z.gtb_spec sender_timestamp 1715770351); [lia | done].
  - destruct (Z.gtb_spec sender_timestamp 1715770351); [done | lia].
Qed.

End RepeaterMore.

(** ** The chat mesh, continued *)

Section ChatMore.
Context `{MeshEnv}.

Import BaseChatMesh.

(** *** The contact table *)

Lemma live_contact_at (m : State) (j : Z) :
  wf m -> 0 <= j < num_contacts m ->
  live (num_contacts m) (contacts m) !! Z.to_nat j = Some (contact_at m j).
Proof.
  intros [Hlen Hnum] Hj. unfold live, contact_at.
  rewrite lookup_take_lt by lia.
  destruct (lookup_lt_is_Some_2 (contacts m) (Z.to_nat j)) as [c ->];
    [lia | done].
Qed.

Lemma contacts_kept_refl (m m' : State) :
  wf m -> self_id m' = self_id m -> num_contacts m' = num_contacts m ->
  contacts m' = contacts m -> contacts_kept m m'.
Proof.
  intros [Hlen Hnum] Hself Hn Htbl.
  split; [split; [by rewrite Htbl | lia]|]. split; [done|]. split; [lia|].
  intros j Hj. unfold contact_at. rewrite Htbl. repeat split; done || lia.
Qed.

Lemma contacts_kept_trans (m1 m2 m3 : State) :
  contacts_kept m1 m2 -> contacts_kept m2 m3 -> contacts_kept m1 m3.
Proof.
  intros (_ & Hs12 & Hn12 & H12) (Hwf3 & Hs23 & Hn23 & H23).
  split; [done|]. split; [congruence|]. split; [lia|].
  intros j Hj. destruct (H12 j Hj) as (<- & <- & Ht12).
  destruct (H23 j ltac:(lia)) as (-> & -> & Ht23). repeat split; lia || done.
Qed.

(** Rewriting a slot with a contact of the same key and secret, and an
    advert timestamp that is not older. *)
Lemma contacts_kept_store (m : State) (i : Z) (c : ContactInfo) :
  wf m ->
  id c = id (contact_at m i) ->
  shared_secret c = shared_secret (contact_at m i) ->
  last_advert_timestamp (contact_at m i) <= last_advert_timestamp c ->
  contacts_kept m (store_contact m i c).
Proof.
  intros [Hlen Hnum] Hid Hsec Hts.
  split; [split; simpl; [by rewrite length_insert | lia]|].
  split; [done|]. split; [simpl; lia|].
  intros j Hj. unfold contact_at, store_contact in *; simpl.
  destruct (decide (Z.to_nat i = Z.to_nat j)) as [Heq|Hne].
  - destruct (decide (Z.to_nat j < length (contacts m))%nat); [|lia].
    rewrite Heq in *. rewrite list_lookup_insert_eq by done. simpl. done.
  - rewrite list_lookup_insert_ne by done. repeat split; done || lia.
Qed.

(** Filling the next free slot. *)
Lemma contacts_kept_append (m : State) (c : ContactInfo) :
  wf m -> num_contacts m < MAX_CONTACTS ->
  contacts_kept m
    (with_contacts m (num_contacts m + 1)
       (<[Z.to_nat (num_contacts m) := c]> (contacts m))).
Proof.
  intros [Hlen Hnum] Hroom.
  split; [split; simpl; [by rewrite length_insert | lia]|].
  split; [done|]. split; [simpl; lia|].
  intros j Hj. unfold contact_at; simpl.
  rewrite list_lookup_insert_ne by lia. repeat split; done || lia.
Qed.

Lemma secrets_cached_ext (m m' : State) :
  self_id m' = self_id m -> num_contacts m' = num_contacts m ->
  (forall j, 0 <= j < num_contacts m ->
     id (contact_at m' j) = id (contact_at m j)
     /\ shared_secret (contact_at m' j) = shared_secret (contact_at m j)) ->
  secrets_cached m -> secrets_cached m'.
Proof.
  intros Hself Hn Hkeep Hinv j Hj. rewrite Hself.
  destruct (Hkeep j ltac:(lia)) as [-> ->]. apply Hinv. lia.
Qed.

Lemma secrets_cached_append (m : State) (c : ContactInfo) :
  wf m -> num_contacts m < MAX_CONTACTS ->
  shared_secret c = calcSharedSecret (self_id m) (id c) ->
  secrets_cached m ->
  secrets_cached
    (with_contacts m (num_contacts m + 1)
       (<[Z.to_nat (num_contacts m) := c]> (contacts m))).
Proof.
  intros [Hlen Hnum] Hroom Hsec Hinv j Hj. simpl in Hj. simpl self_id.
  destruct (Z.eq_dec j (num_contacts m)) as [->|Hne].
  - rewrite contact_at_insert by lia. done.
  - rewrite contact_at_insert_ne by lia. apply Hinv. lia.
Qed.

Lemma secrets_cached_store (m : State) (i : Z) (c : ContactInfo) :
  wf m ->
  id c = id (contact_at m i) ->
  shared_secret c = shared_secret (contact_at m i) ->
  secrets_cached m -> secrets_cached (store_contact m i c).
Proof.
  intros [Hlen Hnum] Hid Hsec. apply secrets_cached_ext; [done | done|].
  intros j Hj. unfold contact_at, store_contact in *; simpl.
  destruct (decide (Z.to_nat i = Z.to_nat j)) as [Heq|Hne].
  - rewrite Heq in *. rewrite list_lookup_insert_eq by lia. done.
  - by rewrite list_lookup_insert_ne.
Qed.

(** What an advert does to the table, in the two terms above. *)
Lemma onAdvertRecv_kept
    (m : State) (packet : Packet) (sender : Identity) (timestamp : Z)
    (app_data : bytes) (app_data_len : Z) :
  wf m ->
  let m' := fst (onAdvertRecv m packet sender timestamp app_data app_data_len) in
  contacts_kept m m' /\ (secrets_cached m -> secrets_cached m').
Proof.
  intros Hwf m'. subst m'. unfold onAdvertRecv.
  assert (Hrefl : contacts_kept m m /\ (secrets_cached m -> secrets_cached m))
    by (split; [by apply contacts_kept_refl | done]).
  destruct (negb _); [done|].
  destruct (find_index _ _ _) as [i|] eqn:Hfind.
  - destruct (Z.leb_spec timestamp (last_advert_timestamp (contact_at m i)));
      [done|]. simpl fst.
    apply find_index_Some in Hfind as [Hr (c0 & Hc0 & _)].
    rewrite Z.sub_0_r in Hc0. apply live_lookup in Hc0 as [_ Hlt].
    split.
    + apply contacts_kept_store; simpl; done || lia.
    + by apply secrets_cached_store.
  - destruct (Z.ltb_spec (num_contacts m) MAX_CONTACTS); [|done]. simpl fst.
    split; [by apply contacts_kept_append|].
    by apply secrets_cached_append.
Qed.

Lemma upcall_kept (m m' : State) (u : Upcall) (fx : list Effect) :
  wf m ->
  upcall m u = Done (m', fx) ->
  contacts_kept m m' /\ (secrets_cached m -> secrets_cached m').
Proof.
  intros Hwf.
  assert (Hrefl : forall m1 : State,
    self_id m1 = self_id m -> num_contacts m1 = num_contacts m ->
    contacts m1 = contacts m ->
    contacts_kept m m1 /\ (secrets_cached m -> secrets_cached m1)).
  { intros m1 Hs Hn Ht. split; [by apply contacts_kept_refl|].
    apply secrets_cached_ext; [done | done|].
    intros j Hj. unfold contact_at. by rewrite Ht. }
  destruct u as [h|p s t d n|p ty i k d n|p i k np nl et e el|p c|p ty ch d n];
    simpl.
  - intros [= <- _]. by apply (Hrefl (with_matching m _)).
  - intros [= Hrun].
    assert (m' = fst (onAdvertRecv m p s t d n)) as -> by (by rewrite Hrun).
    by apply onAdvertRecv_kept.
  - intros [= Hrun]. pose proof (onPeerDataRecv_state m p ty i k d n) as Hs.
    rewrite Hrun in Hs. simpl in Hs. subst m'. by apply Hrefl.
  - destruct (onPeerPathRecv m p i k np nl et e el) as [[[m1 fx1] b]|] eqn:Hrun;
      [|done].
    intros [= <- <-].
    apply chat_onPeerPathRecv_Done in Hrun
      as [(_ & -> & _)|(_ & _ & _ & -> & _)]; [by apply Hrefl|].
    unfold path_stored. set (c := with_out_path _ _ _).
    assert (Hstore : contacts_kept m (store_contact m
                        (int_at (matching_peer_indexes m) i) c)
      /\ (secrets_cached m ->
          secrets_cached (store_contact m
                            (int_at (matching_peer_indexes m) i) c))).
    { split; [apply contacts_kept_store; simpl; done || lia|].
      by apply secrets_cached_store. }
    destruct (_ && _); [destruct (processAck e)|]; exact Hstore.
  - intros [= Hrun]. unfold onAckRecv in Hrun.
    destruct (processAck _); injection Hrun as <- _; by apply Hrefl.
  - intros [= Hrun]. pose proof (onGroupDataRecv_state m p ty ch d n) as Hs.
    rewrite Hrun in Hs. simpl in Hs. subst m'. by apply Hrefl.
Qed.

Lemma Mesh_loop_kept (inbound : list Upcall) (m m' : State)
    (fx : list Effect) :
  wf m ->
  Mesh_loop m inbound = Done (m', fx) ->
  contacts_kept m m' /\ (secrets_cached m -> secrets_cached m').
Proof.
  revert m fx. induction inbound as [|u rest IH]; intros m fx Hwf.
  - intros [= <- _]. split; [by apply contacts_kept_refl | done].
  - intros (m1 & fx1 & fx2 & Hu & Hrest & _)%Mesh_loop_cons.
    destruct (upcall_kept m m1 u fx1 Hwf Hu) as [Hk1 Hs1].
    destruct (IH m1 fx2 (proj1 Hk1) Hrest) as [Hk2 Hs2].
    split; [by eapply contacts_kept_trans | auto].
Qed.

Lemma step_kept (m m' : State) (op : Op) (fx : list Effect) :
  wf m ->
  step m op = Done (m', fx) ->
  contacts_kept m m' /\ (secrets_cached m -> secrets_cached m').
Proof.
  intros Hwf.
  assert (Hrefl : forall m1 : State,
    self_id m1 = self_id m -> num_contacts m1 = num_contacts m ->
    contacts m1 = contacts m ->
    contacts_kept m m1 /\ (secrets_cached m -> secrets_cached m1)).
  { intros m1 Hs Hn Ht. split; [by apply contacts_kept_refl|].
    apply secrets_cached_ext; [done | done|].
    intros j Hj. unfold contact_at. by rewrite Ht. }
  destruct op as [inbound millis|millis r a t e|i|c|psk|last_n|prefix|nm];
    simpl.
  - intros (m1 & fx1 & Hrun & -> & _)%loop_Done.
    destruct (Mesh_loop_kept inbound m m1 fx1 Hwf Hrun) as [Hk Hs].
    destruct (check_send_timeout_cases m1 millis)
      as [(_ & _ & ->)|[_ ->]]; [|done]. simpl fst.
    split.
    + eapply contacts_kept_trans; [exact Hk|].
      apply contacts_kept_refl; try done. apply Hk.
    + intros Hinv j Hj. exact (Hs Hinv j Hj).
  - unfold sendMessage.
    destruct (composeMsgPacket _ _ _ _ _) as [[pkt|] ack];
      [|intros [= <- _]; by apply Hrefl].
    destruct (_ <? _); intros [= <- _]; by apply Hrefl.
  - intros [= <- _].
    unfold resetPathTo_at. destruct (_ && _); [|by apply Hrefl].
    assert (Hr : id (resetPathTo (contact_at m i)) = id (contact_at m i)
      /\ shared_secret (resetPathTo (contact_at m i))
         = shared_secret (contact_at m i)
      /\ last_advert_timestamp (resetPathTo (contact_at m i))
         = last_advert_timestamp (contact_at m i)).
    { unfold resetPathTo. by destruct (_ >=? _). }
    destruct Hr as (Hid & Hsec & Hts).
    split; [apply contacts_kept_store; done || lia|].
    by apply secrets_cached_store.
  - intros [= <- _]. unfold addContact.
    destruct (Z.ltb_spec (num_contacts m) MAX_CONTACTS); [|by apply Hrefl].
    simpl fst. split; [by apply contacts_kept_append|].
    by apply secrets_cached_append.
  - destruct (addChannel m psk) as [[m1 r]|] eqn:Hadd; [|done].
    intros [= <- _].
    apply addChannel_Done in Hadd as (? & ? & ? & _). by apply Hrefl.
  - intros [= <- _]. by apply (Hrefl (with_sort_array m _)).
  - intros [= <- _]. by apply Hrefl.
  - intros [= <- _]. by apply Hrefl.
Qed.

(** X14.  A call that writes past no array (a [loop] iteration with all its
    upcalls included) never drops a contact, never changes a contact's key or
    shared secret, and never lowers a contact's [last_advert_timestamp]; the
    node's identity and the shape of the table stay as they are.  The only
    calls that write past an array, after which nothing of this is known, are
    [addChannel] with a key that decodes to more than the [sizeof_secret]
    bytes of [secret] while a slot is free, and a [loop] iteration that
    delivers, after upcalls that went well, a path from a known contact of
    more than [MAX_PATH_SIZE] bytes (or more than the buffer holds). *)
Theorem chat_contacts_stable (m : State) (op : Op) :
  wf m ->
  match step m op with
  | Done (m', _) =>
      wf m'
      /\ self_id m' = self_id m
      /\ num_contacts m <= num_contacts m'
      /\ forall j, 0 <= j < num_contacts m ->
           id (contact_at m' j) = id (contact_at m j)
           /\ shared_secret (contact_at m' j) = shared_secret (contact_at m j)
           /\ last_advert_timestamp (contact_at m j)
              <= last_advert_timestamp (contact_at m' j)
  | Overrun =>
      match op with
      | OpAddChannel psk_base64 =>
          num_channels m < MAX_GROUP_CHANNELS
          /\ (sizeof_secret < length (decode_base64 (cstr psk_base64)))%nat
      | OpLoop inbound _ =>
          exists pre m1 fx1 packet sender_idx key new_path new_path_len
                 extra_type extra extra_len post,
            inbound
            = pre ++ UpPeerPath packet sender_idx key new_path new_path_len
                       extra_type extra extra_len :: post
            /\ Mesh_loop m pre = Done (m1, fx1)
            /\ 0 <= int_at (matching_peer_indexes m1) sender_idx
                < num_contacts m1
            /\ ~ (0 <= new_path_len <= MAX_PATH_SIZE
                  /\ new_path_len <= Z.of_nat (length new_path))
      | _ => False
      end
  end.
Proof.
  intros Hwf. destruct (step m op) as [[m' fx]|] eqn:Hstep.
  { exact (proj1 (step_kept m m' op fx Hwf Hstep)). }
  destruct op as [inbound millis|millis r a t e|i|c|psk|last_n|prefix|nm];
    simpl in Hstep; try done.
  - apply loop_Overrun in Hstep. by apply Mesh_loop_Overrun.
  - by destruct (sendMessage _ _ _ _ _ _) as [[[m1 fx1] rc] ack].
  - destruct (addChannel m psk) as [[m1 r]|] eqn:Hadd; [done|].
    by apply addChannel_Overrun.
Qed.

(** X15.  What holds of every state a chat node can reach by calls that
    write past no array (see X14 for the calls that do): the contact table
    has its [MAX_CONTACTS] slots and at most that many contacts, and every
    stored shared secret is the ECDH secret of the node's own identity and the
    contact's key, whether the contact came from an advert or from
    [addContact]. *)
Theorem chat_reachable_invariant (m : State) :
  0 <= MAX_CONTACTS ->
  reachable m ->
  wf m
  /\ forall j, 0 <= j < num_contacts m ->
       shared_secret (contact_at m j)
       = calcSharedSecret (self_id m) (id (contact_at m j)).
Proof.
  intros Hmax. induction 1 as [self clock|m op m' fx _ [Hwf Hinv] Hstep].
  - split; [split; simpl; [by rewrite length_replicate | lia]|].
    simpl. intros; lia.
  - destruct (step_kept m m' op fx Hwf Hstep) as [Hk Hs]. split; [apply Hk|].
    by apply Hs.
Qed.


(** *** Searching contacts by hash *)

Lemma chat_search_from_spec (h : bytes) (l : list ContactInfo) (k i : Z) :
  i ∈ search_from h l k <->
  k <= i /\ exists c, l !! Z.to_nat (i - k) = Some c
                      /\ isHashMatch (id c) h = true.
Proof.
  revert k. induction l as [|c l IH]; intros k; simpl.
  - split; [by intros ?%elem_of_nil | by intros (_ & ? & ? & _)].
  - assert (Hrest : i ∈ search_from h l (k + 1) <->
      k < i /\ exists c', (c :: l) !! Z.to_nat (i - k) = Some c'
                          /\ isHashMatch (id c') h = true).
    { rewrite IH. split.
      - intros (Hk & c' & Hc' & Hm). split; [lia|]. exists c'. split; [|done].
        replace (Z.to_nat (i - k)) with (S (Z.to_nat (i - (k + 1)))) by lia.
        done.
      - intros (Hk & c' & Hc' & Hm). split; [lia|]. exists c'. split; [|done].
        replace (Z.to_nat (i - k)) with (S (Z.to_nat (i - (k + 1)))) in Hc'
          by lia. done. }
    destruct (isHashMatch (id c) h) eqn:Hc.
    + rewrite elem_of_cons, Hrest. split.
      * intros [->|(Hk & Hex)]; [|split; [lia | done]].
        split; [lia|]. exists c. by rewrite Z.sub_diag.
      * intros (Hk & Hex). destruct (Z.eq_dec i k) as [->|]; [by left|].
        right. split; [lia | done].
    + rewrite Hrest. split.
      * intros (Hk & Hex). split; [lia | done].
      * intros (Hk & c' & Hc' & Hm). split; [|by exists c'].
        destruct (Z.eq_dec i k) as [->|]; [|lia].
        rewrite Z.sub_diag in Hc'. simpl in Hc'. congruence.
Qed.

Lemma chat_search_from_length (h : bytes) (l : list ContactInfo) (k : Z) :
  (length (search_from h l k) <= length l)%nat.
Proof.
  revert k. induction l as [|c l IH]; intros k; simpl; [done|].
  destruct (isHashMatch _ _); simpl; specialize (IH (k + 1)); lia.
Qed.

Lemma chat_search_from_increasing (h : bytes) (l : list ContactInfo) (k : Z)
    (a b : nat) (x y : Z) :
  search_from h l k !! a = Some x -> search_from h l k !! b = Some y ->
  (a < b)%nat -> k <= x < y.
Proof.
  revert k a b. induction l as [|c l IH]; intros k a b Ha Hb Hab; simpl in *;
    [done|].
  assert (Hlow : forall n z, search_from h l (k + 1) !! n = Some z -> k < z).
  { intros n z Hz. apply list_elem_of_lookup_2, chat_search_from_spec in Hz.
    lia. }
  destruct (isHashMatch _ _).
  - destruct b as [|b]; [lia|]. simpl in Hb. destruct a as [|a].
    + injection Ha as <-. apply Hlow in Hb. lia.
    + simpl in Ha. destruct (IH (k + 1) a b Ha Hb); lia.
  - destruct (IH (k + 1) a b Ha Hb); lia.
Qed.

(** X16.  [searchPeersByHash], then [getPeerSharedSecret], on the chat node.
    The search stops at [MAX_SEARCH_RESULTS] matches: it returns [n] and
    leaves in [matching_peer_indexes[0..n)] the indexes of the first [n]
    contacts whose key starts with the hash byte, in increasing order, without
    touching the contact table; a matching contact is left out only when [n]
    has reached [MAX_SEARCH_RESULTS], and then it comes after all those found.
    For each position below [n], [getPeerSharedSecret] copies the first
    [PUB_KEY_SIZE] bytes of that contact's stored secret. *)
Theorem chat_search_then_secret (m : State) (h dest : bytes) :
  wf m ->
  let m' := fst (searchPeersByHash m h) in
  let n := snd (searchPeersByHash m h) in
  let found k := int_at (matching_peer_indexes m') k in
  0 <= n <= num_contacts m
  /\ n <= Z.max 0 MAX_SEARCH_RESULTS
  /\ contacts m' = contacts m /\ num_contacts m' = num_contacts m
  /\ (forall k, 0 <= k < n ->
        0 <= found k < num_contacts m
        /\ isHashMatch (id (contact_at m (found k))) h = true
        /\ getPeerSharedSecret m' dest k
           = blit dest 0
               (take (Z.to_nat PUB_KEY_SIZE)
                  (shared_secret (contact_at m (found k)))))
  /\ (forall k k', 0 <= k < k' -> k' < n -> found k < found k')
  /\ (forall i, 0 <= i < num_contacts m ->
        isHashMatch (id (contact_at m i)) h = true ->
        (exists k, 0 <= k < n /\ found k = i)
        \/ (n = Z.max 0 MAX_SEARCH_RESULTS
            /\ forall k, 0 <= k < n -> found k < i)).
Proof.
  intros Hwf m' n found. subst m' n found. unfold searchPeersByHash. simpl.
  set (all := search_from h (live (num_contacts m) (contacts m)) 0).
  set (l := take (Z.to_nat MAX_SEARCH_RESULTS) all).
  set (rest := drop (length l) (matching_peer_indexes m)).
  pose proof (chat_search_from_length h
                (live (num_contacts m) (contacts m)) 0) as Hlen.
  pose proof (live_length (num_contacts m) (contacts m)) as Hll.
  fold all in Hlen. destruct Hwf as [Htbl Hnum].
  assert (Hl : (length l <= length all)%nat
               /\ (length l <= Z.to_nat MAX_SEARCH_RESULTS)%nat)
    by (subst l; rewrite length_take; lia).
  assert (Hsub : forall a x, l !! a = Some x -> all !! a = Some x).
  { intros a x Ha. subst l. by apply lookup_take_Some in Ha as [? _]. }
  assert (Hin : forall k, 0 <= k < Z.of_nat (length l) ->
    0 <= int_at (l ++ rest) k < num_contacts m
    /\ isHashMatch (id (contact_at m (int_at (l ++ rest) k))) h = true).
  { intros k Hk. pose proof (int_at_app_l l rest k Hk) as Hx.
    apply Hsub, list_elem_of_lookup_2, chat_search_from_spec in Hx
      as (Hlow & c & Hc & Hm).
    rewrite Z.sub_0_r in Hc. pose proof Hc as Hc'.
    apply live_lookup in Hc as [Hc Hlt].
    split; [lia|]. by rewrite (contact_at_lookup _ _ _ Hc). }
  split; [lia|]. split; [lia|]. split; [done|]. split; [done|].
  split; [|split].
  - intros k Hk. destruct (Hin k Hk) as [Hr Hm]. split; [done|]. split; [done|].
    unfold getPeerSharedSecret. simpl.
    by rewrite valid_index_test'.
  - intros k k' Hk Hk'.
    pose proof (int_at_app_l l rest k ltac:(lia)) as Hx.
    pose proof (int_at_app_l l rest k' ltac:(lia)) as Hy.
    apply Hsub in Hx, Hy.
    destruct (chat_search_from_increasing _ _ _ _ _ _ _ Hx Hy); lia.
  - intros i Hi Hm.
    assert (Hel : i ∈ all).
    { apply chat_search_from_spec. split; [lia|]. exists (contact_at m i).
      rewrite Z.sub_0_r. split; [|done].
      by apply live_contact_at. }
    apply list_elem_of_lookup_1 in Hel as [a Ha].
    destruct (decide (a < length l)%nat) as [Hlt|Hge].
    + left. exists (Z.of_nat a). split; [lia|].
      pose proof (int_at_app_l l rest (Z.of_nat a) ltac:(lia)) as Hx.
      rewrite Nat2Z.id in Hx. apply Hsub in Hx. congruence.
    + right. pose proof (lookup_lt_Some _ _ _ Ha) as Hall.
      assert (Hfull : length l = Z.to_nat MAX_SEARCH_RESULTS)
        by (subst l; rewrite length_take in *; lia).
      split; [lia|]. intros k Hk.
      pose proof (int_at_app_l l rest k ltac:(lia)) as Hx. apply Hsub in Hx.
      destruct (chat_search_from_increasing _ _ _ _ _ _ _ Hx Ha); lia.
Qed.

(** *** Text that is not delivered *)

(** X17.  [onPeerDataRecv] of the chat node leaves the call without any effect
    (no [onMessageRecv], no ACK) exactly when the payload is not a TXT_MSG, or
    has at most 5 bytes, or [sender_idx] does not lead to a contact, or the
    upper six bits of the flags byte are not zero. *)
Theorem chat_ignored_packets
    (m : State) (packet : Packet) (ty : PayloadType) (sender_idx : Z)
    (key data : bytes) (len : Z) :
  let i := int_at (matching_peer_indexes m) sender_idx in
  snd (onPeerDataRecv m packet ty sender_idx key data len) = []
  <-> (ty <> PAYLOAD_TYPE_TXT_MSG \/ len <= 5
       \/ ~ (0 <= i < num_contacts m)
       \/ Z.shiftr (byte_to_Z (byte_at data 4)) 2 <> 0).
Proof.
  intros i. subst i. unfold onPeerDataRecv.
  destruct (decide (ty = PAYLOAD_TYPE_TXT_MSG)) as [->|Hty].
  2: { rewrite bool_decide_eq_false_2 by done. simpl. split; auto. }
  rewrite bool_decide_eq_true_2 by done. simpl andb.
  destruct (Z.gtb_spec len 5) as [Hlen|Hlen].
  2: { simpl. split; auto. }
  destruct (Z.ltb_spec (int_at (matching_peer_indexes m) sender_idx) 0) as [Hneg|Hpos];
    simpl orb.
  { simpl. split; [intros _|done]. right. right. left. lia. }
  destruct (Z.geb_spec (int_at (matching_peer_indexes m) sender_idx)
              (num_contacts m)) as [Hbig|Hsmall].
  { simpl. split; [intros _|done]. right. right. left. lia. }
  destruct (Z.eqb_spec (Z.shiftr (byte_to_Z (byte_at data 4)) 2) 0) as [Hf|Hf].
  - simpl. split; [done|]. intros [?|[?|[?|?]]]; try done; lia.
  - simpl. split; auto.
Qed.

(** *** Group text *)

Lemma le32_decode_app (hdr rest : bytes) :
  (4 <= length hdr)%nat -> le32_decode (hdr ++ rest) = le32_decode hdr.
Proof.
  intros Hh. unfold le32_decode, byte_at.
  by rewrite !app_nth1 by lia.
Qed.

(** X18.  [onGroupDataRecv] never sends a packet and never changes the state.
    A GRP_TXT payload of more than 5 bytes whose type bits are zero is handed
    to [onChannelMessageRecv] once, with the packet's path length for a flood
    and -1 otherwise, the timestamp of its first four bytes and, when the
    payload is five header bytes, a text and zero padding, exactly that text;
    any other payload is ignored. *)
Theorem group_text_delivery
    (m : State) (packet : Packet) (ty : PayloadType) (channel : GroupChannel) :
  (forall (hdr text junk : bytes) (k : nat),
     length hdr = 5%nat ->
     Z.shiftr (byte_to_Z (byte_at hdr 4)) 2 = 0 ->
     0 < strlen text + Z.of_nat k ->
     onGroupDataRecv m packet PAYLOAD_TYPE_GRP_TXT channel
       (hdr ++ cstr text ++ replicate k x00 ++ junk)
       (5 + strlen text + Z.of_nat k)
     = (m, [OnChannelMessageRecv channel
              (if route_flood packet then path_len packet else -1)
              (le32_decode hdr) (cstr text)]))
  /\ (forall (data : bytes) (len : Z),
        ty <> PAYLOAD_TYPE_GRP_TXT \/ len <= 5
        \/ Z.shiftr (byte_to_Z (byte_at data 4)) 2 <> 0 ->
        onGroupDataRecv m packet ty channel data len = (m, []))
  /\ (forall (data : bytes) (len : Z) (tx : Tx),
        fst (onGroupDataRecv m packet ty channel data len) = m
        /\ Send tx ∉ snd (onGroupDataRecv m packet ty channel data len)).
Proof.
  split; [|split].
  - intros hdr text junk k Hh Hflags Hlen. unfold onGroupDataRecv.
    assert (Hb : byte_at (hdr ++ cstr text ++ replicate k x00 ++ junk) 4
                 = byte_at hdr 4)
      by (unfold byte_at; rewrite app_nth1 by lia; done).
    rewrite Hb, Hflags. rewrite bool_decide_eq_true_2 by done.
    destruct (Z.gtb_spec (5 + strlen text + Z.of_nat k) 5); [|lia]. simpl.
    destruct (received_text hdr text junk k Hh) as [-> _].
    by rewrite le32_decode_app by lia.
  - intros data len Hor. unfold onGroupDataRecv.
    destruct Hor as [Hty|[Hlen|Hf]].
    + by rewrite bool_decide_eq_false_2.
    + destruct (Z.gtb_spec len 5); [lia|]. by rewrite andb_false_r.
    + destruct (Z.eqb_spec (Z.shiftr (byte_to_Z (byte_at data 4)) 2) 0);
        [done|]. by rewrite andb_false_r.
  - intros data len tx. unfold onGroupDataRecv.
    destruct (_ && _); simpl; split; try done.
    + by intros [?|?%elem_of_nil]%elem_of_cons.
    + by intros ?%elem_of_nil.
Qed.


(** *** Learning a path, then sending *)

(** X19.  [onPeerPathRecv] from a known contact with a path of at most
    [MAX_PATH_SIZE] bytes stores the path (the length, and the path at the
    start of [out_path] with the bytes behind it kept), reports the contact
    to [onContactPathUpdated], leaves the contact's key, name and secret and
    all other contacts as they are, and asks for a reciprocal path.  A
    message sent to that contact afterwards goes direct along the stored path
    with the direct timeout armed; after [resetPathTo] the same message is
    flooded with the flood timeout.  A longer path from a known contact is
    copied past the end of [out_path]. *)
Theorem chat_path_then_direct
    (m : State) (packet : Packet) (sender_idx : Z) (key new_path : bytes)
    (new_path_len : Z) (extra_type : PayloadType) (extra : bytes)
    (extra_len : Z) :
  wf m ->
  let i := int_at (matching_peer_indexes m) sender_idx in
  0 <= i < num_contacts m ->
  (~ (0 <= new_path_len <= MAX_PATH_SIZE
      /\ new_path_len <= Z.of_nat (length new_path)) ->
   onPeerPathRecv m packet sender_idx key new_path new_path_len extra_type
     extra extra_len = Overrun)
  /\ (0 <= new_path_len <= MAX_PATH_SIZE ->
      new_path_len <= Z.of_nat (length new_path) ->
      exists m1,
        let c := contact_at m1 i in
        onPeerPathRecv m packet sender_idx key new_path new_path_len
          extra_type extra extra_len
        = Done (m1, [OnContactPathUpdated c], true)
        /\ out_path_len c = new_path_len
        /\ take (Z.to_nat new_path_len) (out_path c)
           = take (Z.to_nat new_path_len) new_path
        /\ drop (Z.to_nat new_path_len) (out_path c)
           = drop (Z.to_nat new_path_len) (out_path (contact_at m i))
        /\ id c = id (contact_at m i) /\ name c = name (contact_at m i)
        /\ shared_secret c = shared_secret (contact_at m i)
        /\ last_advert_timestamp c = last_advert_timestamp (contact_at m i)
        /\ (forall j, 0 <= j -> j <> i -> contact_at m1 j = contact_at m j)
        /\ num_contacts m1 = num_contacts m
        /\ forall (millis attempt : Z) (text : bytes) (e : Z) (pkt : Packet)
                  (ack : Z),
             composeMsgPacket m1 c attempt text e = (Some pkt, ack) ->
             let t := getEstAirtimeFor (payload_len pkt + path_len pkt + 2) in
             sendMessage m1 millis c attempt text e
             = (with_timeout m1
                  (futureMillis millis
                     (calcDirectTimeoutMillisFor t new_path_len)),
                [Send (SendDirect pkt (out_path c) new_path_len 0)],
                MSG_SEND_SENT_DIRECT, ack)
             /\ sendMessage m1 millis (resetPathTo c) attempt text e
                = (with_timeout m1
                     (futureMillis millis (calcFloodTimeoutMillisFor t)),
                   [Send (SendFlood pkt 0)], MSG_SEND_SENT_FLOOD, ack)).
Proof.
  intros [Hlen Hnum] i Hi. split.
  { intros Hbad.
    destruct (onPeerPathRecv m packet sender_idx key new_path new_path_len
                extra_type extra extra_len) as [[[m1 fx] b]|] eqn:Hrun;
      [|done].
    apply chat_onPeerPathRecv_Done in Hrun
      as [(Hno & _)|(_ & Hn & Hp & _)]; [by destruct Hno | by destruct Hbad]. }
  intros Hn Hfit.
  set (from := with_out_path (contact_at m i) new_path_len
                 (blit (out_path (contact_at m i)) 0
                    (take (Z.to_nat new_path_len) new_path))).
  set (m1 := path_stored m i new_path new_path_len extra_type extra extra_len).
  assert (Hfields : num_contacts m1 = num_contacts m
                    /\ contacts m1 = <[Z.to_nat i := from]> (contacts m)).
  { pose proof (path_stored_fields m i new_path new_path_len extra_type extra
                  extra_len) as (_ & ? & _ & _ & ? & _). done. }
  destruct Hfields as [Hnum1 Htbl].
  assert (Hat : contact_at m1 i = from).
  { unfold contact_at. rewrite Htbl.
    by rewrite list_lookup_insert_eq by lia. }
  exists m1. cbv zeta. rewrite Hat.
  split; [by apply chat_onPeerPathRecv_fits|].
  assert (Htake : length (take (Z.to_nat new_path_len) new_path)
                  = Z.to_nat new_path_len) by (rewrite length_take; lia).
  split; [done|]. split.
  { unfold from, blit. simpl. by apply take_app_length'. }
  split.
  { unfold from, blit. simpl. rewrite drop_app_length' by done.
    by rewrite Htake. }
  split; [done|]. split; [done|]. split; [done|]. split; [done|]. split.
  { intros j Hj Hne. unfold contact_at. rewrite Htbl.
    by rewrite list_lookup_insert_ne by lia. }
  split; [done|].
  intros millis attempt text e pkt ack Hpkt. split.
  - unfold sendMessage. rewrite Hpkt.
    change (out_path_len from) with new_path_len.
    destruct (Z.ltb_spec new_path_len 0); [lia | done].
  - assert (Hcompose : composeMsgPacket m1 (resetPathTo from) attempt text e
                       = composeMsgPacket m1 from attempt text e).
    { unfold composeMsgPacket, resetPathTo.
      destruct (out_path_len from >=? 0); reflexivity. }
    unfold sendMessage. rewrite Hcompose, Hpkt.
    assert (Hneg : out_path_len (resetPathTo from) < 0).
    { unfold resetPathTo.
      destruct (Z.geb_spec (out_path_len from) 0) as [Hge|Hlt];
        [simpl out_path_len; lia | exact Hlt]. }
    destruct (Z.ltb_spec (out_path_len (resetPathTo from)) 0); [done | lia].
Qed.

(** *** Adverts from a contact that is already known *)

(** What the search loop of [onAdvertRecv] finds. *)
Lemma find_contact_spec (m : State) (sender : Identity) :
  wf m ->
  match find_index (fun c => matches sender (id c))
          (live (num_contacts m) (contacts m)) 0 with
  | Some i =>
      0 <= i < num_contacts m /\ id (contact_at m i) = sender
      /\ forall j, 0 <= j < i -> id (contact_at m j) <> sender
  | None => forall j, 0 <= j < num_contacts m -> id (contact_at m j) <> sender
  end.
Proof.
  intros Hwf.
  destruct (find_index _ _ _) as [i|] eqn:Hfind.
  - pose proof (find_index_first _ _ _ _ Hfind) as Hfirst.
    apply find_index_Some in Hfind as [Hr (c0 & Hc0 & Hm)].
    rewrite Z.sub_0_r in Hc0.
    assert (Hi : 0 <= i < num_contacts m).
    { apply live_lookup in Hc0 as [_ ?]. lia. }
    rewrite live_contact_at in Hc0 by done. injection Hc0 as <-.
    split; [done|]. split; [symmetry; by apply matches_eq|].
    intros j Hj Heq. specialize (Hfirst j (contact_at m j) ltac:(lia)).
    rewrite Z.sub_0_r, live_contact_at in Hfirst by (done || lia).
    specialize (Hfirst eq_refl). apply matches_false in Hfirst. congruence.
  - apply find_index_None in Hfind. intros j Hj Heq.
    rewrite Forall_lookup in Hfind.
    specialize (Hfind _ _ (live_contact_at m j Hwf Hj)).
    apply matches_false in Hfind. congruence.
Qed.

(** An advert from a key that is in the table never takes a new slot. *)
Lemma advert_from_known
    (m : State) (packet : Packet) (sender : Identity) (timestamp : Z)
    (app_data : bytes) (app_data_len : Z) (j : Z) :
  wf m -> 0 <= j < num_contacts m -> id (contact_at m j) = sender ->
  let r := onAdvertRecv m packet sender timestamp app_data app_data_len in
  num_contacts (fst r) = num_contacts m
  /\ forall e, e ∈ snd r -> exists c, e = OnDiscoveredContact c false.
Proof.
  intros Hwf Hj Hid r. subst r. unfold onAdvertRecv.
  assert (Hnone : forall e : Effect,
            e ∈ [] -> exists c, e = OnDiscoveredContact c false)
    by (by intros e ?%elem_of_nil).
  destruct (negb _); [done|].
  pose proof (find_contact_spec m sender Hwf) as Hspec.
  destruct (find_index _ _ _) as [i|].
  - destruct (_ <=? _); [done|]. simpl. split; [done|].
    intros e [->|?%elem_of_nil]%elem_of_cons; [by eexists | done].
  - by destruct (Hspec j Hj).
Qed.

(** After an advert has been taken, the sender is the first match of the
    search, with the advert's timestamp and name. *)
Lemma onAdvertRecv_accepted
    (m : State) (packet : Packet) (sender : Identity) (timestamp : Z)
    (app_data : bytes) (app_data_len : Z) :
  wf m ->
  snd (onAdvertRecv m packet sender timestamp app_data app_data_len) <> [] ->
  let m1 := fst (onAdvertRecv m packet sender timestamp app_data
                   app_data_len) in
  wf m1
  /\ exists i,
       find_index (fun c => matches sender (id c))
         (live (num_contacts m1) (contacts m1)) 0 = Some i
       /\ 0 <= i < num_contacts m1
       /\ id (contact_at m1 i) = sender
       /\ last_advert_timestamp (contact_at m1 i) = timestamp
       /\ name (contact_at m1 i)
          = copy_name (advert_getName
                         (take (Z.to_nat app_data_len) app_data)).
Proof.
  intros Hwf Hfx m1.
  assert (Hwf1 : wf m1) by (apply onAdvertRecv_kept; done).
  split; [done|]. subst m1. revert Hfx Hwf1. unfold onAdvertRecv.
  destruct (negb _); [done|].
  pose proof (find_contact_spec m sender Hwf) as Hspec.
  destruct (find_index _ _ _) as [i|] eqn:Hfind.
  - destruct Hspec as (Hi & Hid & Hfirst).
    destruct (_ <=? _); [done|]. simpl. intros _ Hwf1.
    set (c := update_contact _ _ _) in *.
    set (m1 := store_contact m i c) in *.
    assert (Hat : contact_at m1 i = c).
    { unfold contact_at, m1, store_contact; simpl. destruct Hwf.
      by rewrite list_lookup_insert_eq by lia. }
    assert (Hother : forall j, 0 <= j -> j <> i ->
              contact_at m1 j = contact_at m j).
    { intros j Hj Hne. unfold contact_at, m1, store_contact; simpl.
      by rewrite list_lookup_insert_ne by lia. }
    pose proof (find_contact_spec m1 sender Hwf1) as Hspec1.
    destruct (find_index _ (live (num_contacts m1) (contacts m1)) 0)
      as [i'|] eqn:Hfind1.
    + destruct Hspec1 as (Hi' & Hid' & Hfirst').
      assert (i' = i) as ->.
      { destruct (Z.lt_trichotomy i' i) as [Hlt|[->|Hgt]]; [|done|].
        - rewrite Hother in Hid' by lia. by destruct (Hfirst i' ltac:(lia)).
        - destruct (Hfirst' i ltac:(lia)). by rewrite Hat. }
      exists i. split; [exact Hfind1|]. rewrite Hat. done.
    + destruct (Hspec1 i Hi). by rewrite Hat.
  - destruct (Z.ltb_spec (num_contacts m) MAX_CONTACTS) as [Hroom|];
      [|done]. simpl. intros _ Hwf1.
    set (c := update_contact _ _ _) in *.
    set (m1 := with_contacts m _ _) in *.
    assert (Hat : contact_at m1 (num_contacts m) = c).
    { unfold m1. apply contact_at_insert. destruct Hwf. lia. }
    assert (Hother : forall j, 0 <= j < num_contacts m ->
              contact_at m1 j = contact_at m j).
    { intros j Hj. unfold m1. apply contact_at_insert_ne. lia. }
    destruct Hwf as [Hlen Hnum].
    pose proof (find_contact_spec m1 sender Hwf1) as Hspec1.
    destruct (find_index _ (live (num_contacts m1) (contacts m1)) 0)
      as [i'|] eqn:Hfind1.
    + destruct Hspec1 as (Hi' & Hid' & Hfirst'). simpl in Hi'.
      assert (i' = num_contacts m) as ->.
      { destruct (Z.eq_dec i' (num_contacts m)); [done|].
        rewrite Hother in Hid' by lia. by destruct (Hspec i' ltac:(lia)). }
      exists (num_contacts m). split; [exact Hfind1|]. rewrite Hat. simpl.
      done.
    + destruct (Hspec1 (num_contacts m)); [simpl; lia|]. by rewrite Hat.
Qed.

(** X20.  Once an advert has been taken, an advert of the same sender whose
    timestamp is not newer (the same advert heard again, or an older one) is
    rejected without any change and without a call of [onDiscoveredContact];
    and no later advert of that sender, whatever it holds, takes another slot
    or is reported as new. *)
Theorem advert_replay_rejected
    (m : State) (packet : Packet) (sender : Identity) (timestamp : Z)
    (app_data : bytes) (app_data_len : Z) :
  wf m ->
  snd (onAdvertRecv m packet sender timestamp app_data app_data_len) <> [] ->
  let m1 := fst (onAdvertRecv m packet sender timestamp app_data
                   app_data_len) in
  forall (packet' : Packet) (timestamp' : Z) (app_data' : bytes)
         (app_data_len' : Z),
    let r := onAdvertRecv m1 packet' sender timestamp' app_data'
               app_data_len' in
    (timestamp' <= timestamp -> r = (m1, []))
    /\ num_contacts (fst r) = num_contacts m1
    /\ forall e, e ∈ snd r -> exists c, e = OnDiscoveredContact c false.
Proof.
  intros Hwf Hfx m1 packet' timestamp' app_data' app_data_len' r.
  destruct (onAdvertRecv_accepted m packet sender timestamp app_data
              app_data_len Hwf Hfx)
    as (Hwf1 & i & Hfind & Hi & Hid & Hts & _).
  fold m1 in Hwf1, Hfind, Hi, Hid, Hts.
  split.
  - intros Hold. subst r. unfold onAdvertRecv. destruct (negb _); [done|].
    rewrite Hfind, Hts. by destruct (Z.leb_spec timestamp' timestamp); [|lia].
  - by apply (advert_from_known m1 _ _ _ _ _ i).
Qed.

(** *** Adding a contact by hand *)

(** X21.  [addContact] succeeds exactly when the table has room; it never
    looks for the key among the contacts it has.  On success the contact is
    stored as given in the next free slot, but with the shared secret computed
    from the node's identity (the one supplied is overwritten), every other
    slot is as before, and from then on an advert of that contact is an
    update, never a new contact.  Without room nothing changes. *)
Theorem addContact_contract (m : State) (contact : ContactInfo) :
  wf m ->
  let m1 := fst (addContact m contact) in
  let n := num_contacts m in
  (snd (addContact m contact) = true <-> n < MAX_CONTACTS)
  /\ (snd (addContact m contact) = false -> m1 = m)
  /\ (snd (addContact m contact) = true ->
      num_contacts m1 = n + 1
      /\ contact_at m1 n
         = {| id := id contact; name := name contact; type := type contact;
              out_path_len := out_path_len contact;
              out_path := out_path contact;
              last_advert_timestamp := last_advert_timestamp contact;
              shared_secret := calcSharedSecret (self_id m) (id contact) |}
      /\ (forall j, 0 <= j -> j <> n -> contact_at m1 j = contact_at m j)
      /\ forall (packet : Packet) (timestamp : Z) (app_data : bytes)
                (app_data_len : Z),
           let r := onAdvertRecv m1 packet (id contact) timestamp app_data
                      app_data_len in
           num_contacts (fst r) = n + 1
           /\ forall e, e ∈ snd r -> exists c, e = OnDiscoveredContact c false).
Proof.
  intros Hwf m1 n. subst m1 n. unfold addContact.
  destruct (Z.ltb_spec (num_contacts m) MAX_CONTACTS) as [Hroom|Hfull];
    simpl fst; simpl snd.
  - split; [done|]. split; [done|]. intros _.
    set (c := Build_ContactInfo _ _ _ _ _ _ _).
    set (m1 := with_contacts m _ _).
    assert (Hat : contact_at m1 (num_contacts m) = c).
    { unfold m1. apply contact_at_insert. destruct Hwf. lia. }
    split; [done|]. split; [done|]. split.
    { intros j Hj Hne. unfold m1. apply contact_at_insert_ne.
      destruct Hwf. lia. }
    intros packet timestamp app_data app_data_len.
    assert (Hwf1 : wf m1).
    { destruct Hwf. split; simpl; [by rewrite length_insert | lia]. }
    destruct (advert_from_known m1 packet (id contact) timestamp app_data
                app_data_len (num_contacts m) Hwf1) as [Hn Hfx].
    + simpl. destruct Hwf. lia.
    + by rewrite Hat.
    + done.
  - split; [split; [done | lia]|]. split; [done | done].
Qed.


(** *** Group channels *)

(** X22.  [searchChannelsByHash] copies to [dest[0..n)] the first [n] channels
    in use whose hash starts with the byte asked for, in table order, stopping
    at [max_matches]:  [n] is the number of such channels or [max_matches],
    whichever is less, and [dest[0..n)] is the list of all such channels in
    table order cut after [n] of them.  It leaves the rest of [dest] alone
    and misses a matching channel only when [max_matches] was reached. *)
Theorem search_channels_by_hash
    (m : State) (h : bytes) (dest : list GroupChannel) (max_matches : Z) :
  let found := fst (searchChannelsByHash m h dest max_matches) in
  let n := snd (searchChannelsByHash m h dest max_matches) in
  let hits := take (Z.to_nat n) found in
  let matching :=
    filter (fun ch => byte_at (hash ch) 0 = byte_at h 0)
      (live (num_channels m) (channels m)) in
  0 <= n /\ n <= Z.max 0 max_matches /\ n <= Z.max 0 (num_channels m)
  /\ length hits = Z.to_nat n
  /\ drop (Z.to_nat n) found = drop (Z.to_nat n) dest
  /\ hits `sublist_of` live (num_channels m) (channels m)
  /\ (forall ch, ch ∈ hits -> byte_at (hash ch) 0 = byte_at h 0)
  /\ (n < max_matches ->
      forall ch, ch ∈ live (num_channels m) (channels m) ->
        byte_at (hash ch) 0 = byte_at h 0 -> ch ∈ hits)
  /\ n = Z.min (Z.max 0 max_matches) (Z.of_nat (length matching))
  /\ hits = take (Z.to_nat n) matching
  /\ (exists rest, matching = hits ++ rest /\ (n < max_matches -> rest = [])).
Proof.
  intros found n hits matching. subst found n hits matching.
  unfold searchChannelsByHash.
  simpl fst. simpl snd.
  set (P := fun ch : GroupChannel => byte_at (hash ch) 0 = byte_at h 0).
  set (all := filter P (live (num_channels m) (channels m))).
  set (l := take (Z.to_nat max_matches) all).
  rewrite Nat2Z.id, take_app_length, drop_app_length.
  pose proof (length_filter P (live (num_channels m) (channels m))) as Hall.
  pose proof (live_length (num_channels m) (channels m)) as Hlive.
  fold all in Hall.
  assert (Hl : length l = (Z.to_nat max_matches `min` length all)%nat)
    by (subst l; apply length_take).
  split; [lia|]. split; [lia|]. split; [lia|]. split; [done|].
  split; [done|]. split; [|split; [|split; [|split; [|split]]]].
  - transitivity all; [apply sublist_take | apply sublist_filter].
  - intros ch Hch. apply list_elem_of_lookup_1 in Hch as [a Ha].
    subst l. apply lookup_take_Some in Ha as [Ha _].
    apply list_elem_of_lookup_2 in Ha. subst all.
    by apply list_elem_of_filter in Ha as [? _].
  - intros Hroom ch Hch Hm.
    assert (Hwhole : l = all) by (subst l; apply take_ge; lia).
    rewrite Hwhole. subst all. by apply list_elem_of_filter.
  - lia.
  - rewrite Hl. unfold l.
    destruct (Nat.le_ge_cases (Z.to_nat max_matches) (length all)).
    + by rewrite Nat.min_l.
    + rewrite Nat.min_r by done. by rewrite !take_ge by lia.
  - exists (drop (Z.to_nat max_matches) all). split.
    + unfold l. by rewrite take_drop.
    + intros Hroom. apply drop_ge. lia.
Qed.

(** X23.  [addChannel] with a text that decodes to at most the
    [sizeof_secret] bytes of [secret] returns a channel exactly when the table
    has room and the text decodes to 16 or 32 bytes.  The channel then takes
    the next free slot: its secret is the decoded key, zero-padded to 32 bytes,
    and its hash the first byte of the SHA-256 of the key, and a search for
    that hash finds it unless [max_matches] earlier channels share the hash.
    When no channel is returned the channels in use are as before; with room
    in the table the free slot behind them has nevertheless had its secret
    overwritten with the decoded bytes, zero-padded.  Contacts are never
    touched.  With room in the table, a text that decodes to more than
    [sizeof_secret] bytes is written past the end of [secret]. *)
Theorem addChannel_then_search (m : State) (psk_base64 : bytes) :
  length (channels m) = Z.to_nat MAX_GROUP_CHANNELS ->
  0 <= num_channels m ->
  let decoded := decode_base64 (cstr psk_base64) in
  let len := Z.of_nat (length decoded) in
  let padded := decoded ++ replicate (sizeof_secret - length decoded) x00 in
  let ch :=
    {| hash := Utils_sha256_1 PATH_HASH_SIZE padded len; secret := padded |} in
  let old := live (num_channels m) (channels m) in
  (addChannel m psk_base64 = Overrun
   <-> num_channels m < MAX_GROUP_CHANNELS
       /\ (sizeof_secret < length decoded)%nat)
  /\ forall (m1 : State) (r : option Z),
       addChannel m psk_base64 = Done (m1, r) ->
       contacts m1 = contacts m /\ num_contacts m1 = num_contacts m
       /\ (r <> None
           <-> num_channels m < MAX_GROUP_CHANNELS /\ (len = 32 \/ len = 16))
       /\ (r = None ->
           num_channels m1 = num_channels m
           /\ live (num_channels m1) (channels m1) = old
           /\ (MAX_GROUP_CHANNELS <= num_channels m -> m1 = m)
           /\ (num_channels m < MAX_GROUP_CHANNELS ->
               channels m1
               = <[Z.to_nat (num_channels m) :=
                     {| hash :=
                          hash (default blank_channel
                                  (channels m !! Z.to_nat (num_channels m)));
                        secret := padded |}]> (channels m)))
       /\ (r <> None ->
           r = Some (num_channels m)
           /\ num_channels m1 = num_channels m + 1
           /\ live (num_channels m1) (channels m1) = old ++ [ch]
           /\ forall (dest : list GroupChannel) (max_matches : Z),
                Z.of_nat (length (filter (fun c => byte_at (hash c) 0
                                                   = byte_at (hash ch) 0) old))
                < max_matches ->
                let r := searchChannelsByHash m1 (hash ch) dest max_matches in
                ch ∈ take (Z.to_nat (snd r)) (fst r)).
Proof.
  intros Htbl Hnum decoded len padded ch old. split.
  { split; [apply addChannel_Overrun|].
    intros [Hroom Hbig]. unfold addChannel. fold decoded.
    destruct (Z.ltb_spec (num_channels m) MAX_GROUP_CHANNELS); [|lia].
    destruct (Nat.ltb_spec sizeof_secret (length decoded)); [done | lia]. }
  intros m1 r. unfold addChannel. fold decoded. fold len.
  destruct (Z.ltb_spec (num_channels m) MAX_GROUP_CHANNELS) as [Hroom|Hfull].
  2: { intros [= <- <-]. split; [done|]. split; [done|].
       split; [split; [done | lia]|]. split; [|done].
       intros _. split; [done|]. split; [done|]. split; [done | lia]. }
  destruct (Nat.ltb_spec sizeof_secret (length decoded)) as [|Hfits]; [done|].
  assert (Hkey : blit (replicate sizeof_secret x00) 0 decoded = padded).
  { unfold blit, padded.
    by rewrite take_0, app_nil_l, Nat.add_0_l, drop_replicate. }
  assert (Hkeep : forall c : GroupChannel,
            live (num_channels m)
              (<[Z.to_nat (num_channels m) := c]> (channels m)) = old).
  { intros c. unfold live. by rewrite take_insert_ge. }
  rewrite Hkey.
  destruct ((len =? 32) || (len =? 16)) eqn:Hok; intros [= <- <-].
  - assert (Hlen : len = 32 \/ len = 16).
    { apply orb_true_iff in Hok as [?%Z.eqb_eq|?%Z.eqb_eq]; auto. }
    fold ch. cbn [fst snd].
    split; [done|]. split; [done|]. split; [done|].
    split; [done|]. intros _. split; [done|]. split; [done|].
    assert (Hlive : live (num_channels m + 1)
                      (<[Z.to_nat (num_channels m) := ch]> (channels m))
                    = old ++ [ch]).
    { unfold live. replace (Z.to_nat (num_channels m + 1))
        with (S (Z.to_nat (num_channels m))) by lia.
      rewrite (take_S_r _ _ ch) by (apply list_lookup_insert_eq; lia).
      by rewrite take_insert_ge. }
    split; [exact Hlive|].
    intros dest max_matches Hcount. unfold searchChannelsByHash.
    cbn [fst snd num_channels channels with_channels].
    rewrite Nat2Z.id, take_app_length, Hlive, filter_app.
    rewrite (filter_cons_True _ ch), filter_nil by done.
    rewrite take_ge.
    + apply elem_of_app. right. apply list_elem_of_here.
    + rewrite length_app. change (length [ch]) with 1%nat. lia.
  - assert (Hlen : ~ (len = 32 \/ len = 16)).
    { apply orb_false_iff in Hok as [?%Z.eqb_neq ?%Z.eqb_neq]. lia. }
    cbn [fst snd num_channels channels with_channels].
    split; [done|]. split; [done|].
    split; [split; [done | tauto]|]. split; [|done].
    intros _. split; [done|]. split; [apply Hkeep|]. split; [lia | done].
Qed.


(** *** Recent contacts *)

Lemma cmp_adv_timestamp_le (tbl : list ContactInfo) (a b : Z) :
  cmp_adv_timestamp tbl a b <= 0
  <-> last_advert_timestamp (default blank_contact (tbl !! Z.to_nat b))
      <= last_advert_timestamp (default blank_contact (tbl !! Z.to_nat a)).
Proof.
  unfold cmp_adv_timestamp.
  destruct (Z.gtb_spec
              (last_advert_timestamp (default blank_contact (tbl !! Z.to_nat b)))
              (last_advert_timestamp (default blank_contact (tbl !! Z.to_nat a))));
    [lia|].
  destruct (Z.ltb_spec
              (last_advert_timestamp (default blank_contact (tbl !! Z.to_nat b)))
              (last_advert_timestamp (default blank_contact (tbl !! Z.to_nat a))));
    lia.
Qed.

(** X24.  The comparator handed to [qsort] is a consistent one: swapping the
    arguments flips the sign, it answers 0 exactly for equal timestamps, a
    negative value exactly when the first contact advertised later, and "not
    after" is transitive. *)
Theorem cmp_adv_timestamp_consistent (tbl : list ContactInfo) (a b c : Z) :
  let stamp i :=
    last_advert_timestamp (default blank_contact (tbl !! Z.to_nat i)) in
  cmp_adv_timestamp tbl a b = - cmp_adv_timestamp tbl b a
  /\ (cmp_adv_timestamp tbl a b < 0 <-> stamp b < stamp a)
  /\ (cmp_adv_timestamp tbl a b = 0 <-> stamp a = stamp b)
  /\ (cmp_adv_timestamp tbl a b <= 0 -> cmp_adv_timestamp tbl b c <= 0 ->
      cmp_adv_timestamp tbl a c <= 0).
Proof.
  intros stamp.
  split; [|split; [|split]].
  - unfold cmp_adv_timestamp. fold (stamp a) (stamp b).
    destruct (Z.gtb_spec (stamp b) (stamp a)), (Z.ltb_spec (stamp b) (stamp a)),
      (Z.gtb_spec (stamp a) (stamp b)), (Z.ltb_spec (stamp a) (stamp b)); lia.
  - unfold cmp_adv_timestamp. fold (stamp a) (stamp b).
    destruct (Z.gtb_spec (stamp b) (stamp a)), (Z.ltb_spec (stamp b) (stamp a));
      lia.
  - unfold cmp_adv_timestamp. fold (stamp a) (stamp b).
    destruct (Z.gtb_spec (stamp b) (stamp a)), (Z.ltb_spec (stamp b) (stamp a));
      lia.
  - rewrite !cmp_adv_timestamp_le. lia.
Qed.

(** X25.  [scanRecentContacts], given a [qsort] that returns its input sorted
    by the comparator: the contact table is not touched, and the visitor is
    called on the [last_n] contacts that advertised last (on all of them when
    [last_n] is 0 or more than there are, on none when it is negative), each
    once, newest first. *)
Theorem scan_recent_contacts (m : State) (last_n : Z) :
  wf m ->
  let idx := map Z.of_nat (seq 0 (Z.to_nat (num_contacts m))) in
  let sorted := qsort (cmp_adv_timestamp (contacts m)) idx in
  let stamp i := last_advert_timestamp (contact_at m i) in
  sorted ≡ₚ idx ->
  (forall (a b : nat) (x y : Z),
     sorted !! a = Some x -> sorted !! b = Some y -> (a < b)%nat ->
     cmp_adv_timestamp (contacts m) x y <= 0) ->
  let r := scanRecentContacts m last_n in
  let count :=
    if last_n =? 0 then num_contacts m
    else Z.max 0 (Z.min last_n (num_contacts m)) in
  contacts (fst r) = contacts m /\ num_contacts (fst r) = num_contacts m
  /\ exists visited : list Z,
       snd r = map (fun i => OnContactVisit (contact_at m i)) visited
       /\ Z.of_nat (length visited) = count
       /\ NoDup visited
       /\ (forall i, i ∈ visited -> 0 <= i < num_contacts m)
       /\ (forall (a b : nat) (x y : Z),
             visited !! a = Some x -> visited !! b = Some y -> (a < b)%nat ->
             stamp y <= stamp x)
       /\ (forall i x, 0 <= i < num_contacts m -> i ∉ visited ->
             x ∈ visited -> stamp i <= stamp x).
Proof.
  intros [Hlen Hnum] idx sorted stamp Hperm Hsorted r count.
  subst r. unfold scanRecentContacts. fold idx. fold sorted.
  cbn [fst snd contacts num_contacts with_sort_array sort_array].
  split; [done|]. split; [done|].
  assert (Hidx : idx = Z.of_nat <$> seq 0 (Z.to_nat (num_contacts m)))
    by reflexivity.
  assert (Hsl : length sorted = Z.to_nat (num_contacts m)).
  { rewrite Hperm, Hidx, length_fmap, length_seq. done. }
  assert (Hmem : forall i, i ∈ sorted <-> 0 <= i < num_contacts m).
  { intros i. rewrite Hperm, Hidx, list_elem_of_fmap. split.
    - intros (k & -> & Hk%elem_of_seq). lia.
    - intros Hi. exists (Z.to_nat i). split; [lia|]. apply elem_of_seq. lia. }
  assert (Hnd : NoDup sorted).
  { rewrite Hperm, Hidx. apply NoDup_fmap_2; [|apply NoDup_seq].
    intros x y. lia. }
  set (k := Z.to_nat (if last_n =? 0 then num_contacts m
                      else if last_n >? num_contacts m then num_contacts m
                           else last_n)).
  assert (Hk : Z.of_nat k = count /\ (k <= length sorted)%nat).
  { subst k count. destruct (Z.eqb_spec last_n 0); [lia|].
    destruct (Z.gtb_spec last_n (num_contacts m)); lia. }
  exists (take k sorted).
  rewrite take_app_le by lia.
  split; [|split; [|split; [|split; [|split]]]].
  - done.
  - rewrite length_take. lia.
  - eapply sublist_NoDup; [exact Hnd | apply sublist_take].
  - intros i Hi. apply Hmem. apply elem_of_take in Hi as (a & Ha & _).
    by eapply list_elem_of_lookup_2.
  - intros a b x y Ha Hb Hab.
    apply lookup_take_Some in Ha as [Ha _], Hb as [Hb _].
    pose proof (Hsorted a b x y Ha Hb Hab) as Hcmp.
    by apply cmp_adv_timestamp_le in Hcmp.
  - intros i x Hi Hout Hx.
    apply Hmem, list_elem_of_lookup_1 in Hi as [b Hb].
    apply elem_of_take in Hx as (a & Ha & Hak).
    assert (Hbk : (k <= b)%nat).
    { destruct (decide (k <= b)%nat); [done|]. destruct Hout.
      apply elem_of_take. exists b. split; [done | lia]. }
    pose proof (Hsorted a b x i Ha Hb ltac:(lia)) as Hcmp.
    by apply cmp_adv_timestamp_le in Hcmp.
Qed.

(** *** Looking a contact up by name *)

Lemma searchContactsByPrefix_first (m : State) (name_prefix : bytes) :
  wf m ->
  let len := Z.to_nat (strlen name_prefix) in
  let has_prefix j := take len (name (contact_at m j)) = cstr name_prefix in
  match searchContactsByPrefix m name_prefix with
  | Some i =>
      0 <= i < num_contacts m /\ has_prefix i
      /\ forall j, 0 <= j < i -> ~ has_prefix j
  | None => forall j, 0 <= j < num_contacts m -> ~ has_prefix j
  end
  /\ (strlen name_prefix = 0 -> 0 < num_contacts m ->
      searchContactsByPrefix m name_prefix = Some 0).
Proof.
  intros Hwf len has_prefix.
  assert (Hspec :
    match searchContactsByPrefix m name_prefix with
    | Some i =>
        0 <= i < num_contacts m /\ has_prefix i
        /\ forall j, 0 <= j < i -> ~ has_prefix j
    | None => forall j, 0 <= j < num_contacts m -> ~ has_prefix j
    end).
  { unfold searchContactsByPrefix. fold len.
    destruct (find_index _ _ _) as [i|] eqn:Hfind.
    - pose proof (find_index_first _ _ _ _ Hfind) as Hfirst.
      apply find_index_Some in Hfind as [Hr (c0 & Hc0 & Hm)].
      rewrite Z.sub_0_r in Hc0.
      assert (Hi : 0 <= i < num_contacts m).
      { apply live_lookup in Hc0 as [_ ?]. lia. }
      rewrite live_contact_at in Hc0 by done. injection Hc0 as <-.
      split; [done|]. split; [by apply bool_decide_eq_true in Hm|].
      intros j Hj Hp. specialize (Hfirst j (contact_at m j) ltac:(lia)).
      rewrite Z.sub_0_r, live_contact_at in Hfirst by (done || lia).
      specialize (Hfirst eq_refl). by apply bool_decide_eq_false in Hfirst.
    - apply find_index_None in Hfind. intros j Hj Hp.
      rewrite Forall_lookup in Hfind.
      specialize (Hfind _ _ (live_contact_at m j Hwf Hj)).
      by apply bool_decide_eq_false in Hfind. }
  split; [exact Hspec|].
  intros Hempty Hsome.
  assert (Hp0 : has_prefix 0).
  { unfold has_prefix, len. rewrite Hempty. simpl. unfold strlen in Hempty.
    destruct (cstr name_prefix); [done | simpl in Hempty; lia]. }
  destruct (searchContactsByPrefix m name_prefix) as [i|].
  - destruct Hspec as (Hi & _ & Hfirst).
    destruct (Z.eq_dec i 0) as [->|]; [done|].
    by destruct (Hfirst 0 ltac:(lia)).
  - by destruct (Hspec 0 ltac:(lia)).
Qed.

(** X26.  [searchContactsByPrefix] returns the first contact in use whose name
    starts with the prefix, and nothing when there is none; the empty prefix
    matches the first contact. *)
Theorem search_contacts_by_prefix (m : State) (name_prefix : bytes) :
  wf m ->
  let len := Z.to_nat (strlen name_prefix) in
  let has_prefix j := take len (name (contact_at m j)) = cstr name_prefix in
  match searchContactsByPrefix m name_prefix with
  | Some i =>
      0 <= i < num_contacts m /\ has_prefix i
      /\ forall j, 0 <= j < i -> ~ has_prefix j
  | None => forall j, 0 <= j < num_contacts m -> ~ has_prefix j
  end
  /\ (strlen name_prefix = 0 -> 0 < num_contacts m ->
      searchContactsByPrefix m name_prefix = Some 0).
Proof. exact (searchContactsByPrefix_first m name_prefix). Qed.

(** X27.  A contact learnt from an advert can be looked up by name: when the
    advertised name fits the name field, [searchContactsByPrefix] with any
    prefix of that name returns a contact. *)
Theorem advert_then_search_by_prefix
    (m : State) (packet : Packet) (sender : Identity) (timestamp : Z)
    (app_data : bytes) (app_data_len : Z) (k : nat) (junk : bytes) :
  wf m ->
  snd (onAdvertRecv m packet sender timestamp app_data app_data_len) <> [] ->
  let m1 := fst (onAdvertRecv m packet sender timestamp app_data
                   app_data_len) in
  let nm := cstr (advert_getName (take (Z.to_nat app_data_len) app_data)) in
  Z.of_nat (length nm) <= NAME_SIZE - 1 ->
  exists i,
    searchContactsByPrefix m1 (take k nm ++ x00 :: junk) = Some i
    /\ 0 <= i < num_contacts m1
    /\ take (length (take k nm)) (name (contact_at m1 i)) = take k nm.
Proof.
  intros Hwf Hfx m1 nm Hfit.
  destruct (onAdvertRecv_accepted m packet sender timestamp app_data
              app_data_len Hwf Hfx)
    as (Hwf1 & i0 & _ & Hi0 & _ & _ & Hname).
  fold m1 in Hwf1, Hi0, Hname.
  assert (Hnul : x00 ∉ take k nm).
  { intros (a & Ha & _)%elem_of_take. apply list_elem_of_lookup_2 in Ha.
    by apply cstr_no_nul in Ha. }
  assert (Hc : cstr (take k nm ++ x00 :: junk) = take k nm)
    by (by apply cstr_app_no_nul).
  assert (Hp0 : take (length (take k nm)) (name (contact_at m1 i0))
                = take k nm).
  { rewrite Hname. unfold copy_name. fold nm.
    rewrite length_take.
    rewrite take_app_le by (rewrite length_take, length_app, length_replicate; lia).
    rewrite take_take.
    rewrite take_app_le by lia.
    replace ((k `min` length nm) `min` Z.to_nat (NAME_SIZE - 1))%nat
      with (k `min` length nm)%nat by lia.
    destruct (decide (k <= length nm)%nat).
    - by replace (k `min` length nm)%nat with k by lia.
    - rewrite !take_ge by lia. done. }
  destruct (searchContactsByPrefix_first m1 (take k nm ++ x00 :: junk) Hwf1)
    as [Hspec _].
  unfold strlen in Hspec. rewrite Hc, Nat2Z.id in Hspec.
  destruct (searchContactsByPrefix m1 (take k nm ++ x00 :: junk)) as [i|].
  - exists i. destruct Hspec as (Hi & Hp & _). done.
  - by destruct (Hspec i0 Hi0).
Qed.

(** *** Iterating over the contacts *)

Lemma drain_from (m : State) (fuel : nat) (k : Z) :
  wf m -> 0 <= k <= num_contacts m ->
  (Z.to_nat (num_contacts m - k) <= fuel)%nat ->
  drain fuel {| next_idx := k |} m
  = drop (Z.to_nat k) (live (num_contacts m) (contacts m)).
Proof.
  intros Hwf. revert k. induction fuel as [|fuel IH]; intros k Hk Hfuel.
  - simpl. rewrite drop_ge; [done|].
    pose proof (live_length (num_contacts m) (contacts m)). lia.
  - simpl. unfold hasNext. simpl next_idx.
    destruct (Z.geb_spec k (num_contacts m)) as [Hend|Hmore].
    + rewrite drop_ge; [done|].
      pose proof (live_length (num_contacts m) (contacts m)). lia.
    + rewrite IH by lia.
      rewrite (drop_S _ (contact_at m k) (Z.to_nat k))
        by (apply live_contact_at; done || lia).
      by replace (Z.to_nat (k + 1)) with (S (Z.to_nat k)) by lia.
Qed.

(** X28.  A [ContactsIterator] started at 0 and asked [hasNext] until it
    answers false yields the contacts in use, each once, in table order, after
    at most [num_contacts] rounds; once it has answered false it keeps doing
    so and does not move. *)
Theorem contacts_iterator_enumerates (m : State) (fuel : nat) :
  wf m -> (Z.to_nat (num_contacts m) <= fuel)%nat ->
  drain fuel {| next_idx := 0 |} m = live (num_contacts m) (contacts m)
  /\ length (drain fuel {| next_idx := 0 |} m) = Z.to_nat (num_contacts m)
  /\ forall it, num_contacts m <= next_idx it -> hasNext it m = (it, None).
Proof.
  intros Hwf Hfuel.
  assert (Hall : drain fuel {| next_idx := 0 |} m
                 = live (num_contacts m) (contacts m)).
  { destruct Hwf as [Hlen Hnum].
    rewrite drain_from by (done || lia). done. }
  split; [exact Hall|]. split.
  - rewrite Hall. unfold live. rewrite length_take. destruct Hwf. lia.
  - intros it Hit. unfold hasNext.
    destruct (Z.geb_spec (next_idx it) (num_contacts m)); [done | lia].
Qed.

End ChatMore.

(** ** Concrete runs, continued *)

Lemma repeater_with_alice_wf : Repeater.wf (H := test_env) repeater_with_alice.
Proof. split; by_evaluation. Qed.

Lemma repeater_with_alice_reachable :
  Repeater.reachable (H := test_env) repeater_with_alice.
Proof.
  exact (Repeater.reach_step fresh_repeater
           (Repeater.OpAnonData
              (direct_packet PAYLOAD_TYPE_ANON_REQ (login_request 5))
              PAYLOAD_TYPE_ANON_REQ alice (login_request 5) 12)
           repeater_with_alice _
           (Repeater.reach_init bob {| RTC.tv_sec := 1000 |}) eq_refl).
Qed.

Lemma req_get_stats_reply_witness :
  let data := stats_request 2000 in
  Repeater.wf (H := test_env) repeater_with_alice
  /\ length (repeater_stats (MeshEnv := test_env))
     = Z.to_nat Repeater.sizeof_RepeaterStats
  /\ Repeater.last_timestamp (Repeater.client_at repeater_with_alice 0)
     < le32_decode data
  /\ exists m',
       Repeater.onPeerDataRecv (H := test_env) repeater_with_alice
         (direct_packet PAYLOAD_TYPE_REQ data) PAYLOAD_TYPE_REQ 0 [] data 5
       = Done
           (m', [Repeater.Send
                   (SendFlood (test_packet PAYLOAD_TYPE_RESPONSE false
                                 (le32_encode 1000 ++ replicate 44 x00)) 0)])
       /\ Repeater.last_timestamp (Repeater.client_at m' 0) = 2000.
Proof.
  intros data.
  pose proof repeater_with_alice_wf as Hwf.
  assert (Hstats : length (repeater_stats (MeshEnv := test_env))
                   = Z.to_nat Repeater.sizeof_RepeaterStats) by reflexivity.
  assert (Hi : 0 <= int_at (Repeater.matching_peer_indexes repeater_with_alice) 0
               < Repeater.num_clients repeater_with_alice) by by_evaluation.
  assert (Hts : Repeater.last_timestamp
                  (Repeater.client_at repeater_with_alice
                     (int_at (Repeater.matching_peer_indexes
                                repeater_with_alice) 0))
                < le32_decode data) by by_evaluation.
  assert (Hcmd : byte_at data 4 = Repeater.CMD_GET_STATS) by reflexivity.
  split; [exact Hwf|]. split; [exact Hstats|]. split; [exact Hts|].
  destruct (req_get_stats_reply (H := test_env) repeater_with_alice
              (direct_packet PAYLOAD_TYPE_REQ data) 0 [] data 5
              Hwf Hstats Hi Hts Hcmd) as (m' & Hrun & Hat & _).
  exists m'. split; [exact Hrun|].
  exact (f_equal Repeater.last_timestamp Hat).
Defined.

Lemma repeater_ignored_packets_witness :
  let retry := text_payload 2000 x01 "ver" in
  byte_at retry 4 <> x00
  /\ Repeater.onPeerDataRecv (H := test_env) repeater_with_alice
       (direct_packet PAYLOAD_TYPE_TXT_MSG retry) PAYLOAD_TYPE_TXT_MSG 0 []
       retry 8
     = Done (repeater_with_alice, []).
Proof.
  intros retry.
  assert (Hflags : byte_at retry 4 <> x00) by discriminate.
  split; [exact Hflags|].
  destruct (repeater_ignored_packets (H := test_env) repeater_with_alice
              (direct_packet PAYLOAD_TYPE_TXT_MSG retry) PAYLOAD_TYPE_TXT_MSG
              0 [] retry 8) as (_ & _ & _ & Hretry & _).
  exact (Hretry eq_refl Hflags).
Defined.

Lemma putClient_idempotent_witness :
  Repeater.wf (H := test_env) fresh_repeater
  /\ exists m1 i,
       Repeater.putClient (H := test_env) fresh_repeater alice = (m1, Some i)
       /\ Repeater.putClient (H := test_env) m1 alice = (m1, Some i).
Proof.
  assert (Hwf : Repeater.wf (H := test_env) fresh_repeater)
    by (split; by_evaluation).
  split; [exact Hwf|].
  pose proof (putClient_idempotent (H := test_env) fresh_repeater alice Hwf)
    as Hp.
  destruct (Repeater.putClient fresh_repeater alice) as [m1 [i|]].
  - exists m1, i. split; [reflexivity|]. apply Hp.
  - destruct Hp as (_ & Hfull & _). vm_compute in Hfull. discriminate.
Defined.

Lemma repeater_clients_stable_witness :
  let op :=
    Repeater.OpPeerData (direct_packet PAYLOAD_TYPE_REQ (stats_request 2000))
      PAYLOAD_TYPE_REQ 0 [] (stats_request 2000) 5 in
  Repeater.wf (H := test_env) repeater_with_alice
  /\ exists m' fx,
       Repeater.step (H := test_env) repeater_with_alice op = Done (m', fx)
       /\ Repeater.id (Repeater.client_at m' 0) = alice
       /\ 5 <= Repeater.last_timestamp (Repeater.client_at m' 0).
Proof.
  intros op.
  pose proof repeater_with_alice_wf as Hwf.
  split; [exact Hwf|].
  pose proof (repeater_clients_stable (H := test_env) repeater_with_alice op
                Hwf) as Hstable.
  destruct (Repeater.step (H := test_env) repeater_with_alice op)
    as [[m' fx]|].
  - exists m', fx. split; [reflexivity|].
    destruct Hstable as (_ & _ & _ & Hkept).
    destruct (Hkept 0) as (Hid & _ & Hts); [by_evaluation|].
    split; [exact Hid | exact Hts].
  - destruct Hstable as (_ & Htype & _). discriminate Htype.
Defined.

Lemma repeater_reachable_invariant_witness :
  Repeater.reachable (H := test_env) repeater_with_alice
  /\ Repeater.secret (Repeater.client_at repeater_with_alice 0)
     = calcSharedSecret (MeshEnv := test_env) bob alice.
Proof.
  pose proof repeater_with_alice_reachable as Hreach.
  split; [exact Hreach|].
  destruct (repeater_reachable_invariant (H := test_env) repeater_with_alice
              Hreach) as (_ & Hsecret & _).
  apply (Hsecret 0). by_evaluation.
Defined.

Lemma login_replay_rejected_witness :
  let data := login_request 5 in
  let packet := direct_packet PAYLOAD_TYPE_ANON_REQ data in
  Repeater.wf (H := test_env) fresh_repeater
  /\ take 8 (drop 4 data) = Repeater.ADMIN_PASSWORD
  /\ Repeater.onAnonDataRecv (H := test_env) repeater_with_alice packet
       PAYLOAD_TYPE_ANON_REQ alice data 12
     = (repeater_with_alice, []).
Proof.
  intros data packet.
  assert (Hwf : Repeater.wf (H := test_env) fresh_repeater)
    by (split; by_evaluation).
  assert (Hpw : take 8 (drop 4 data) = Repeater.ADMIN_PASSWORD) by reflexivity.
  assert (Hput : Repeater.putClient (H := test_env) fresh_repeater alice
                 = (fst (Repeater.putClient (H := test_env) fresh_repeater alice),
                    Some 0)) by reflexivity.
  assert (Hts : Repeater.last_timestamp
                  (Repeater.client_at
                     (fst (Repeater.putClient (H := test_env) fresh_repeater
                             alice)) 0)
                < le32_decode data) by by_evaluation.
  assert (Hold : le32_decode data <= le32_decode data) by by_evaluation.
  split; [exact Hwf|]. split; [exact Hpw|].
  exact (proj2 (login_replay_rejected (H := test_env) fresh_repeater _ packet
                  packet alice data data 12 12 0 Hwf Hpw Hpw Hput Hts Hold)).
Defined.

Lemma repeater_search_then_secret_witness :
  let run := Repeater.searchPeersByHash (H := test_env) repeater_with_alice [xaa] in
  Repeater.wf (H := test_env) repeater_with_alice
  /\ snd run = 1
  /\ Repeater.getPeerSharedSecret (H := test_env) (fst run) (replicate 32 x00) 0
     = take 32 (Repeater.secret (Repeater.client_at repeater_with_alice 0)).
Proof.
  intros run.
  pose proof repeater_with_alice_wf as Hwf.
  split; [exact Hwf|]. split; [reflexivity|].
  destruct (repeater_search_then_secret (H := test_env) repeater_with_alice
              [xaa] (replicate 32 x00) Hwf) as (_ & _ & _ & Hfound & _).
  destruct (Hfound 0) as (_ & _ & Hcopy); [by_evaluation|].
  etransitivity; [exact Hcopy | vm_compute; reflexivity].
Defined.

Lemma repeater_path_then_direct_witness :
  let data := stats_request 2000 in
  Repeater.wf (H := test_env) repeater_with_alice
  /\ exists m1 m2,
       Repeater.onPeerPathRecv (H := test_env) repeater_with_alice 0
         [x01; x02] 2 = Done (m1, false)
       /\ Repeater.out_path_len (Repeater.client_at m1 0) = 2
       /\ take 2 (Repeater.out_path (Repeater.client_at m1 0)) = [x01; x02]
       /\ Repeater.onPeerDataRecv (H := test_env) m1
            (direct_packet PAYLOAD_TYPE_REQ data) PAYLOAD_TYPE_REQ 0 [] data 5
          = Done
              (m2,
               [Repeater.Send
                  (SendDirect (test_packet PAYLOAD_TYPE_RESPONSE false
                                 (le32_encode 1000 ++ replicate 44 x00))
                     (Repeater.out_path (Repeater.client_at m1 0)) 2 0)]).
Proof.
  intros data.
  pose proof repeater_with_alice_wf as Hwf.
  split; [exact Hwf|].
  destruct (repeater_path_then_direct (H := test_env) repeater_with_alice 0
              [x01; x02] 2) as (_ & _ & Hlearn).
  destruct Hlearn as (m1 & Hrun & Hstored);
    [exact Hwf | by_evaluation | by_evaluation | by_evaluation |].
  cbv zeta in Hstored.
  destruct Hstored
    as (Hlen & Hpath & _ & _ & _ & _ & _ & _ & _ & _ & _ & Hdirect).
  destruct (Hdirect (direct_packet PAYLOAD_TYPE_REQ data)
              (test_packet PAYLOAD_TYPE_RESPONSE false
                 (le32_encode 1000 ++ replicate 44 x00)) [] data 5)
    as [m2 Hreq];
    [reflexivity | reflexivity | by_evaluation | reflexivity | reflexivity|].
  exists m1, m2. split; [exact Hrun|]. split; [exact Hlen|].
  split; [exact Hpath | exact Hreq].
Defined.

Lemma clock_sync_advances_witness :
  take 10 (skip_spaces (lit "clock sync")) = lit "clock sync"
  /\ RTC.getCurrentTime
       (Repeater.rtc_clock
          (fst (fst (Repeater.handleCommand (H := test_env) fresh_repeater 2000
                       (lit "clock sync"))))) = 2001.
Proof.
  assert (Hcmd : take 10 (skip_spaces (lit "clock sync")) = lit "clock sync")
    by reflexivity.
  split; [exact Hcmd|].
  destruct (clock_sync_advances (H := test_env) fresh_repeater 2000
              (lit "clock sync") Hcmd) as (Hadv & _).
  destruct Hadv as (Hnew & _); [by_evaluation|]. exact Hnew.
Defined.

Lemma serial_console_line_witness :
  let command := replicate 80 x00 in
  let pending := lit "ver" ++ [x0d] in
  length command = Z.to_nat Repeater.sizeof_command
  /\ Z.of_nat (length (cstr command ++ Repeater.stored_chars pending))
     < Repeater.sizeof_command - 1
  /\ Repeater.serial_console (H := test_env) fresh_repeater command pending
     = Some (fresh_repeater, x00 :: lit "er" ++ replicate 77 x00, [],
             pending ++ lit "  -> " ++ Repeater.FIRMWARE_VER_TEXT ++ [x0d; x0a],
             []).
Proof.
  intros command pending.
  assert (Hlen : length command = Z.to_nat Repeater.sizeof_command)
    by reflexivity.
  assert (Hfit : Z.of_nat (length (cstr command ++ Repeater.stored_chars pending))
                 < Repeater.sizeof_command - 1) by by_evaluation.
  split; [exact Hlen|]. split; [exact Hfit|].
  destruct (serial_console_line (H := test_env) fresh_repeater command pending
              Hlen Hfit) as (Hline & _).
  assert (Htext : cstr command ++ Repeater.stored_chars pending
                  = lit "ver" ++ [x0d]) by (vm_compute; reflexivity).
  rewrite (Hline (lit "ver") Htext). reflexivity.
Defined.

Lemma chat_with_alice_wf : BaseChatMesh.wf (H := test_env) chat_with_alice.
Proof. split; by_evaluation. Qed.

Lemma fresh_chat_wf : BaseChatMesh.wf (H := test_env) fresh_chat.
Proof. split; by_evaluation. Qed.

Lemma chat_contacts_stable_witness :
  let op :=
    BaseChatMesh.OpLoop
      [BaseChatMesh.UpAdvert (direct_packet PAYLOAD_TYPE_ADVERT []) alice 2000
         (lit "1alice") 6] 0 in
  BaseChatMesh.wf (H := test_env) chat_with_alice
  /\ exists m' fx,
       BaseChatMesh.step (H := test_env) chat_with_alice op = Done (m', fx)
       /\ BaseChatMesh.id (BaseChatMesh.contact_at m' 0) = alice
       /\ 1000 <= BaseChatMesh.last_advert_timestamp
                    (BaseChatMesh.contact_at m' 0).
Proof.
  intros op.
  pose proof chat_with_alice_wf as Hwf.
  split; [exact Hwf|].
  assert (Hstep : exists m' fx,
            BaseChatMesh.step (H := test_env) chat_with_alice op
            = Done (m', fx)) by (eexists _, _; reflexivity).
  destruct Hstep as (m' & fx & Hstep).
  pose proof (chat_contacts_stable (H := test_env) chat_with_alice op Hwf)
    as Hstable.
  rewrite Hstep in Hstable. destruct Hstable as (_ & _ & _ & Hkept).
  destruct (Hkept 0) as (Hid & _ & Hts); [by_evaluation|].
  exists m', fx. split; [exact Hstep|]. split; [exact Hid | exact Hts].
Defined.

Lemma chat_reachable_invariant_witness :
  0 <= MAX_CONTACTS (MeshEnv := test_env)
  /\ BaseChatMesh.reachable (H := test_env) chat_with_alice
  /\ BaseChatMesh.shared_secret (BaseChatMesh.contact_at chat_with_alice 0)
     = calcSharedSecret (MeshEnv := test_env) bob alice.
Proof.
  assert (Hmax : 0 <= MAX_CONTACTS (MeshEnv := test_env)) by by_evaluation.
  assert (Hreach : BaseChatMesh.reachable (H := test_env) chat_with_alice).
  { exact (BaseChatMesh.reach_step fresh_chat
             (BaseChatMesh.OpAddContact alice_contact) chat_with_alice []
             (BaseChatMesh.reach_init bob {| RTC.tv_sec := 1000 |}) eq_refl). }
  split; [exact Hmax|]. split; [exact Hreach|].
  destruct (chat_reachable_invariant (H := test_env) chat_with_alice Hmax
              Hreach) as (_ & Hsecret).
  apply (Hsecret 0). by_evaluation.
Defined.

Lemma chat_search_then_secret_witness :
  let run := BaseChatMesh.searchPeersByHash (H := test_env) chat_with_alice [xaa] in
  BaseChatMesh.wf (H := test_env) chat_with_alice
  /\ snd run = 1
  /\ BaseChatMesh.getPeerSharedSecret (H := test_env) (fst run)
       (replicate 32 x00) 0
     = take 32 (BaseChatMesh.shared_secret
                  (BaseChatMesh.contact_at chat_with_alice 0)).
Proof.
  intros run.
  pose proof chat_with_alice_wf as Hwf.
  split; [exact Hwf|]. split; [reflexivity|].
  destruct (chat_search_then_secret (H := test_env) chat_with_alice [xaa]
              (replicate 32 x00) Hwf) as (_ & _ & _ & _ & Hfound & _).
  destruct (Hfound 0) as (_ & _ & Hcopy); [by_evaluation|].
  etransitivity; [exact Hcopy | vm_compute; reflexivity].
Defined.

Lemma group_text_delivery_witness :
  let hdr := le32_encode 77 ++ [x00] in
  length hdr = 5%nat
  /\ BaseChatMesh.onGroupDataRecv chat_with_alice
       (direct_packet PAYLOAD_TYPE_GRP_TXT []) PAYLOAD_TYPE_GRP_TXT
       BaseChatMesh.blank_channel
       (hdr ++ lit "hi all" ++ replicate 2 x00 ++ [xff]) 13
     = (chat_with_alice,
        [BaseChatMesh.OnChannelMessageRecv BaseChatMesh.blank_channel (-1) 77
           (lit "hi all")]).
Proof.
  intros hdr.
  assert (Hh : length hdr = 5%nat) by reflexivity.
  split; [exact Hh|].
  destruct (group_text_delivery chat_with_alice
              (direct_packet PAYLOAD_TYPE_GRP_TXT []) PAYLOAD_TYPE_GRP_TXT
              BaseChatMesh.blank_channel) as (Hdeliver & _).
  apply (Hdeliver hdr (lit "hi all") [xff] 2%nat Hh); by_evaluation.
Defined.

Lemma chat_path_then_direct_witness :
  BaseChatMesh.wf (H := test_env) chat_with_alice
  /\ exists m1 pkt ack t,
       let c := BaseChatMesh.contact_at m1 0 in
       BaseChatMesh.onPeerPathRecv (H := test_env) chat_with_alice
         (direct_packet PAYLOAD_TYPE_PATH []) 0 [] [x01; x02] 2
         PAYLOAD_TYPE_ACK [] 0
       = Done (m1, [BaseChatMesh.OnContactPathUpdated c], true)
       /\ BaseChatMesh.out_path_len c = 2
       /\ take 2 (BaseChatMesh.out_path c) = [x01; x02]
       /\ BaseChatMesh.sendMessage (H := test_env) m1 50 c 0 (lit "hello") 0
          = (BaseChatMesh.with_timeout m1 t,
             [BaseChatMesh.Send
                (SendDirect pkt (BaseChatMesh.out_path c) 2 0)],
             BaseChatMesh.MSG_SEND_SENT_DIRECT, ack).
Proof.
  pose proof chat_with_alice_wf as Hwf.
  split; [exact Hwf|].
  destruct (chat_path_then_direct (H := test_env) chat_with_alice
              (direct_packet PAYLOAD_TYPE_PATH []) 0 [] [x01; x02] 2
              PAYLOAD_TYPE_ACK [] 0 Hwf) as (_ & Hlearn); [by_evaluation|].
  destruct Hlearn as (m1 & Hstored); [by_evaluation | by_evaluation|].
  cbv zeta in Hstored.
  destruct Hstored
    as (Hrun & Hlen & Hpath & _ & Hid & Hname & _ & _ & _ & _ & Hsend).
  assert (Hpkt : exists pkt ack,
            BaseChatMesh.composeMsgPacket (H := test_env) m1
              (BaseChatMesh.contact_at m1 0) 0 (lit "hello") 0
            = (Some pkt, ack)) by (eexists _, _; reflexivity).
  destruct Hpkt as (pkt & ack & Hpkt).
  destruct (Hsend 50 0 (lit "hello") 0 pkt ack Hpkt) as (Hdirect & _).
  exists m1, pkt, ack. eexists. cbv zeta.
  split; [exact Hrun|]. split; [exact Hlen|]. split; [exact Hpath|].
  exact Hdirect.
Defined.

Lemma advert_replay_rejected_witness :
  let advert := direct_packet PAYLOAD_TYPE_ADVERT [] in
  let m1 :=
    fst (BaseChatMesh.onAdvertRecv (H := test_env) fresh_chat advert alice 100
           (lit "1alice") 6) in
  BaseChatMesh.wf (H := test_env) fresh_chat
  /\ snd (BaseChatMesh.onAdvertRecv (H := test_env) fresh_chat advert alice 100
            (lit "1alice") 6) <> []
  /\ BaseChatMesh.onAdvertRecv (H := test_env) m1 advert alice 100
       (lit "1alice") 6
     = (m1, []).
Proof.
  intros advert m1.
  pose proof fresh_chat_wf as Hwf.
  assert (Hfx : snd (BaseChatMesh.onAdvertRecv (H := test_env) fresh_chat
                       advert alice 100 (lit "1alice") 6) <> [])
    by (vm_compute; discriminate).
  split; [exact Hwf|]. split; [exact Hfx|].
  destruct (advert_replay_rejected (H := test_env) fresh_chat advert alice 100
              (lit "1alice") 6 Hwf Hfx advert 100 (lit "1alice") 6)
    as (Hold & _).
  apply Hold. by_evaluation.
Defined.

Lemma addContact_contract_witness :
  BaseChatMesh.wf (H := test_env) fresh_chat
  /\ snd (BaseChatMesh.addContact (H := test_env) fresh_chat alice_contact)
     = true
  /\ BaseChatMesh.shared_secret (BaseChatMesh.contact_at chat_with_alice 0)
     = calcSharedSecret (MeshEnv := test_env) bob alice.
Proof.
  pose proof fresh_chat_wf as Hwf.
  split; [exact Hwf|]. split; [reflexivity|].
  destruct (addContact_contract (H := test_env) fresh_chat alice_contact Hwf)
    as (_ & _ & Hadded).
  destruct Hadded as (_ & Hslot & _); [reflexivity|].
  exact (f_equal BaseChatMesh.shared_secret Hslot).
Defined.

Lemma addChannel_then_search_witness :
  let psk := replicate 16 x41 in
  length (BaseChatMesh.channels fresh_chat)
  = Z.to_nat (MAX_GROUP_CHANNELS (MeshEnv := test_env))
  /\ 0 <= BaseChatMesh.num_channels fresh_chat
  /\ (exists m1,
        BaseChatMesh.addChannel (H := test_env) fresh_chat psk
        = Done (m1, Some 0)
        /\ BaseChatMesh.num_channels m1 = 1)
  /\ BaseChatMesh.addChannel (H := test_env) fresh_chat (replicate 33 x41)
     = Overrun.
Proof.
  intros psk.
  assert (Hlen : length (BaseChatMesh.channels fresh_chat)
                 = Z.to_nat (MAX_GROUP_CHANNELS (MeshEnv := test_env)))
    by reflexivity.
  assert (Hnum : 0 <= BaseChatMesh.num_channels fresh_chat) by by_evaluation.
  split; [exact Hlen|]. split; [exact Hnum|]. split.
  - destruct (addChannel_then_search (H := test_env) fresh_chat psk Hlen Hnum)
      as (_ & Hdone).
    assert (Hrun : exists m1 r,
              BaseChatMesh.addChannel (H := test_env) fresh_chat psk
              = Done (m1, r)) by (eexists _, _; reflexivity).
    destruct Hrun as (m1 & r & Hrun).
    destruct (Hdone m1 r Hrun) as (_ & _ & Hiff & _ & Hadded).
    destruct Hadded as (Hidx & Hcount & _).
    { apply Hiff. split; [by_evaluation | right; reflexivity]. }
    exists m1. split; [|exact Hcount].
    rewrite Hrun. f_equal. f_equal. exact Hidx.
  - destruct (addChannel_then_search (H := test_env) fresh_chat
                (replicate 33 x41) Hlen Hnum) as (Hover & _).
    apply Hover. split; [by_evaluation | vm_compute; lia].
Defined.

Lemma scan_recent_contacts_witness :
  let idx := [0; 1] in
  let sorted :=
    qsort (MeshEnv := test_env)
      (BaseChatMesh.cmp_adv_timestamp (BaseChatMesh.contacts alice_with_two))
      idx in
  BaseChatMesh.wf (H := test_env) alice_with_two
  /\ sorted = [1; 0]
  /\ exists visited,
       snd (BaseChatMesh.scanRecentContacts (H := test_env) alice_with_two 1)
       = map (fun i => BaseChatMesh.OnContactVisit
                         (BaseChatMesh.contact_at alice_with_two i)) visited
       /\ Z.of_nat (length visited) = 1
       /\ forall i, i ∈ visited -> 0 <= i < 2.
Proof.
  intros idx sorted.
  assert (Hwf : BaseChatMesh.wf (H := test_env) alice_with_two)
    by (split; by_evaluation).
  assert (Hsorted : sorted = [1; 0]) by reflexivity.
  split; [exact Hwf|]. split; [exact Hsorted|].
  assert (Hperm : sorted ≡ₚ idx) by (rewrite Hsorted; apply perm_swap).
  assert (Horder : forall (a b : nat) (x y : Z),
            sorted !! a = Some x -> sorted !! b = Some y -> (a < b)%nat ->
            BaseChatMesh.cmp_adv_timestamp
              (BaseChatMesh.contacts alice_with_two) x y <= 0).
  { rewrite Hsorted. intros a b x y Ha Hb Hab.
    destruct a as [|[|a]]; destruct b as [|[|b]]; try lia;
      simpl in Ha, Hb; try discriminate.
    injection Ha as <-. injection Hb as <-. by_evaluation. }
  destruct (scan_recent_contacts (H := test_env) alice_with_two 1 Hwf Hperm
              Horder) as (_ & _ & visited & Hrun & Hcount & _ & Hrange & _).
  exists visited. split; [exact Hrun|]. split; [exact Hcount|]. exact Hrange.
Defined.

Lemma search_contacts_by_prefix_witness :
  BaseChatMesh.wf (H := test_env) chat_with_alice
  /\ BaseChatMesh.searchContactsByPrefix chat_with_alice [x00] = Some 0.
Proof.
  pose proof chat_with_alice_wf as Hwf.
  split; [exact Hwf|].
  destruct (search_contacts_by_prefix (H := test_env) chat_with_alice [x00]
              Hwf) as (_ & Hempty).
  apply Hempty; by_evaluation.
Defined.

Lemma advert_then_search_by_prefix_witness :
  let advert := direct_packet PAYLOAD_TYPE_ADVERT [] in
  let m1 :=
    fst (BaseChatMesh.onAdvertRecv (H := test_env) fresh_chat advert alice 100
           (lit "1alice") 6) in
  BaseChatMesh.wf (H := test_env) fresh_chat
  /\ snd (BaseChatMesh.onAdvertRecv (H := test_env) fresh_chat advert alice 100
            (lit "1alice") 6) <> []
  /\ exists i,
       BaseChatMesh.searchContactsByPrefix m1 (lit "al" ++ [x00]) = Some i
       /\ 0 <= i < BaseChatMesh.num_contacts m1.
Proof.
  intros advert m1.
  pose proof fresh_chat_wf as Hwf.
  assert (Hfx : snd (BaseChatMesh.onAdvertRecv (H := test_env) fresh_chat
                       advert alice 100 (lit "1alice") 6) <> [])
    by (vm_compute; discriminate).
  split; [exact Hwf|]. split; [exact Hfx|].
  destruct (advert_then_search_by_prefix (H := test_env) fresh_chat advert
              alice 100 (lit "1alice") 6 2%nat [] Hwf Hfx)
    as (i & Hfound & Hi & _); [by_evaluation|].
  exists i. split; [exact Hfound | exact Hi].
Defined.

Lemma contacts_iterator_enumerates_witness :
  BaseChatMesh.wf (H := test_env) chat_with_alice
  /\ (Z.to_nat (BaseChatMesh.num_contacts chat_with_alice) <= 5)%nat
  /\ BaseChatMesh.drain 5 {| BaseChatMesh.next_idx := 0 |} chat_with_alice
     = [BaseChatMesh.contact_at chat_with_alice 0].
Proof.
  pose proof chat_with_alice_wf as Hwf.
  assert (Hfuel : (Z.to_nat (BaseChatMesh.num_contacts chat_with_alice) <= 5)%nat)
    by (apply Nat.leb_le; reflexivity).
  split; [exact Hwf|]. split; [exact Hfuel|].
  destruct (contacts_iterator_enumerates (H := test_env) chat_with_alice 5 Hwf
              Hfuel) as (Hall & _).
  etransitivity; [exact Hall | reflexivity].
Defined.

Lemma set_airtime_factor_witness :
  let command := lit " set afterburner" in
  take 4 (skip_spaces command) = lit "set "
  /\ Repeater.handleCommand (H := test_env) fresh_repeater 0 command
     = (Repeater.with_airtime_factor fresh_repeater
          (atof (MeshEnv := test_env) (lit "erburner")),
        [], Some (lit "OK")).
Proof.
  intros command.
  assert (Hset : take 4 (skip_spaces command) = lit "set ") by reflexivity.
  split; [exact Hset|].
  destruct (set_airtime_factor (H := test_env) fresh_repeater 0 command Hset)
    as (Haf & _).
  destruct Haf as (Hrun & _); [right; reflexivity|]. exact Hrun.
Defined.

Lemma power_on_clock_witness :
  let m0 :=
    Repeater.with_rtc fresh_repeater
      (RTC.begin (Repeater.rtc_clock fresh_repeater) true) in
  0 <= 42 < 2 ^ 32
  /\ RTC.getCurrentTime
       (RTC.setCurrentTime (Repeater.rtc_clock fresh_repeater) 42) = 42
  /\ Repeater.handleCommand (H := test_env) m0 1700000000 (lit "clock sync")
     = (m0, [], Some (lit "ERR: clock cannot go backwards")).
Proof.
  intros m0.
  assert (Ht : 0 <= 42 < 2 ^ 32) by by_evaluation.
  split; [exact Ht|].
  destruct (power_on_clock (H := test_env) fresh_repeater 42 1700000000
              (lit "clock sync") Ht) as (Hset & _ & _ & Hsync).
  split; [exact Hset|].
  destruct Hsync as (Hold & _); [reflexivity|].
  apply Hold. by_evaluation.
Defined.
